(** * UserManagement: authentication and credential lifecycle

    A shallow embedding of the Express/Sequelize service: the [User] model
    (models/user.model.js), the authentication middleware
    (middleware/auth.middleware.js), the authentication controller
    (controllers/auth.controller.js), the admin controller
    (controllers/user.controller.js), the mailer (utils/email.js) and the
    middleware chain of app.js.

    Handlers are state transformers over a [World] (user table, log file,
    mail outbox).  What a handler hands back to Express is an [Outcome]:
    a JSON response, a call of [next()], a call of [next(err)], or an
    exception that escapes the handler. *)

From Stdlib Require Import ZArith List String Ascii Bool Lia DecimalString.
Import ListNotations.
Open Scope string_scope.
Open Scope Z_scope.

(* ------------------------------------------------------------------ *)
(** ** JavaScript values                                               *)
(* ------------------------------------------------------------------ *)

(** A property of a JavaScript object holding an [A]: absent or set to
    [undefined], set to [null], or holding a value.  The three are kept
    apart because Sequelize treats them differently when it saves. *)
Inductive js (A : Type) : Type :=
| undefined
| null
| val (a : A).
Arguments undefined {A}.
Arguments null {A}.
Arguments val {A} a.

Definition js_eqb {A} (eqb : A -> A -> bool) (x y : js A) : bool :=
  match x, y with
  | undefined, undefined => true
  | null, null => true
  | val a, val b => eqb a b
  | _, _ => false
  end.

(** Truthiness of a string-valued property: [undefined], [null] and the
    empty string are falsy. *)
Definition truthy (v : js string) : bool :=
  match v with
  | val s => negb (String.eqb s "")
  | _ => false
  end.

(** A JSON value other than [null], as far as the service tells values
    apart: by its type, its truthiness and what [String()] makes of it.
    A number and an array are given by that text. *)
Inductive Json : Type :=
| jstring (s : string)
| jnumber (text : string)
| jboolean (b : bool)
| jarray (text : string)
| jobject.

Definition json_eqb (x y : Json) : bool :=
  match x, y with
  | jstring a, jstring b => String.eqb a b
  | jnumber a, jnumber b => String.eqb a b
  | jboolean a, jboolean b => Bool.eqb a b
  | jarray a, jarray b => String.eqb a b
  | jobject, jobject => true
  | _, _ => false
  end.

(** [String(v)]. *)
Definition String_of (v : Json) : string :=
  match v with
  | jstring s => s
  | jnumber text => text
  | jboolean true => "true"
  | jboolean false => "false"
  | jarray text => text
  | jobject => "[object Object]"
  end.

(** Truthiness of a property of a JSON body: the empty string, zero and
    [false] are falsy, like [undefined] and [null]. *)
Definition truthy_json (v : js Json) : bool :=
  match v with
  | val (jstring s) => negb (String.eqb s "")
  | val (jnumber text) => negb (String.eqb text "0")
  | val (jboolean b) => b
  | val (jarray _) => true
  | val jobject => true
  | _ => false
  end.

(** [typeof] of a property of a JSON body. *)
Definition typeof_json (v : js Json) : string :=
  match v with
  | undefined => "undefined"
  | null => "object"
  | val (jstring _) => "string"
  | val (jnumber _) => "number"
  | val (jboolean _) => "boolean"
  | val (jarray _) => "object"
  | val jobject => "object"
  end.

(** Truthiness of an object-valued property (a [Date], a model instance):
    every object is truthy. *)
Definition truthy_obj {A} (v : js A) : bool :=
  match v with
  | val _ => true
  | _ => false
  end.

(** A column read from the table: SQL NULL arrives as [null]. *)
Definition of_column {A} (c : option A) : js A :=
  match c with
  | Some a => val a
  | None => null
  end.

(** Strings are sequences of ASCII characters.
    [String.prototype.toLowerCase]. *)
Definition lower_ascii (c : ascii) : ascii :=
  let n := nat_of_ascii c in
  if ((65 <=? n) && (n <=? 90))%nat then ascii_of_nat (n + 32) else c.

Fixpoint toLowerCase (s : string) : string :=
  match s with
  | EmptyString => EmptyString
  | String c r => String (lower_ascii c) (toLowerCase r)
  end.

(** [String.prototype.startsWith]. *)
Definition startsWith (s p : string) : bool := String.prefix p s.

(** [String.prototype.split] on a one-character separator; [cur] is the
    piece being read. *)
Fixpoint split_from (sep : ascii) (cur s : string) : list string :=
  match s with
  | EmptyString => [cur]
  | String c r =>
      if Ascii.eqb c sep then cur :: split_from sep "" r
      else split_from sep (cur ++ String c "") r
  end.

Definition split (sep : ascii) (s : string) : list string :=
  split_from sep "" s.

(** Indexing an array: out of range gives [undefined]. *)
Definition index {A} (l : list A) (i : nat) : js A :=
  match nth_error l i with
  | Some a => val a
  | None => undefined
  end.

(** [String.prototype.includes]. *)
Fixpoint str_includes (s sub : string) : bool :=
  String.prefix sub s
  || match s with
     | EmptyString => false
     | String _ r => str_includes r sub
     end.

(** The double quote and the line feed. *)
Definition dquote : string := String (ascii_of_nat 34) "".

Definition LF : string := String (ascii_of_nat 10) "".

(** [^[\s\t\r\n]*$]: a string of white space only. *)
Definition is_space (c : ascii) : bool :=
  let n := nat_of_ascii c in
  ((n =? 32) || ((9 <=? n) && (n <=? 13)))%nat.

Fixpoint blank (s : string) : bool :=
  match s with
  | EmptyString => true
  | String c r => is_space c && blank r
  end.

(** [Array.prototype.includes] on strings. *)
Definition includes (l : list string) (x : string) : bool :=
  existsb (String.eqb x) l.

(** [parseInt(x / 1000, 10)] for an integral number of milliseconds [x]:
    the quotient is printed in decimal and the digits before the point are
    read back, which truncates toward zero. *)
Definition parseInt_div1000 (x : Z) : Z := Z.quot x 1000.

(* ------------------------------------------------------------------ *)
(** ** Errors and outcomes                                             *)
(* ------------------------------------------------------------------ *)

(** http-status-codes. *)
Module StatusCodes.
Definition OK : Z := 200.
Definition CREATED : Z := 201.
Definition NO_CONTENT : Z := 204.
Definition BAD_REQUEST : Z := 400.
Definition UNAUTHORIZED : Z := 401.
Definition FORBIDDEN : Z := 403.
Definition NOT_FOUND : Z := 404.
Definition CONFLICT : Z := 409.
Definition UNPROCESSABLE_ENTITY : Z := 422.
Definition INTERNAL_SERVER_ERROR : Z := 500.
End StatusCodes.

(** Modelled from the spec: utils/appError.js is required by the
    controllers and the middleware but is not among the sources.  Every
    use is [new AppError(message, statusCode)]; the spec's outer boundary
    "maps kinds to status codes uniformly", so the error carries the
    status code it was built with. *)
Record AppError : Type := mkAppError {
  ae_message : string;
  ae_statusCode : Z
}.

(** Exceptions raised by the runtime or by a library. *)
Inductive Exn : Type :=
| ReferenceError (msg : string)
| TypeError (msg : string)
| JsonWebTokenError (msg : string)
| SequelizeValidationError (msg : string)
| SequelizeUniqueConstraintError (msg : string)
| Error (msg : string).

Definition exn_message (x : Exn) : string :=
  match x with
  | ReferenceError m | TypeError m | JsonWebTokenError m
  | SequelizeValidationError m | SequelizeUniqueConstraintError m
  | Error m => m
  end.

(** What is passed to [next(err)]: an [AppError], an exception, or the
    http-error body-parser raises, which carries a status. *)
Inductive Err : Type :=
| App (e : AppError)
| Thrown (x : Exn)
| BodyParserError (status : Z) (msg : string).

Definition err_message (e : Err) : string :=
  match e with
  | App a => ae_message a
  | Thrown x => exn_message x
  | BodyParserError _ msg => msg
  end.

(** [err.status]: set on an [AppError] and on body-parser's error, absent
    on a library exception. *)
Definition err_status (e : Err) : js Z :=
  match e with
  | App a => val (ae_statusCode a)
  | Thrown _ => undefined
  | BodyParserError st _ => val st
  end.

(* ------------------------------------------------------------------ *)
(** ** The users table and the User model (models/user.model.js)       *)
(* ------------------------------------------------------------------ *)

(** A row of the users table.  Nullable columns are options. *)
Record UserRow : Type := mkRow {
  col_id : string;
  col_firstName : string;
  col_lastName : string;
  col_email : string;
  col_password : string;
  col_role : string;
  col_isActive : bool;
  col_lastLogin : option Z;
  col_passwordChangedAt : option Z;
  col_passwordResetToken : option string;
  col_passwordResetExpires : option Z;
  col_deletedAt : option Z
}.

(** The attributes of the model. *)
Inductive Attr : Type :=
| a_firstName | a_lastName | a_email | a_password | a_role | a_isActive
| a_lastLogin | a_passwordChangedAt | a_passwordResetToken
| a_passwordResetExpires | a_deletedAt.

Definition attr_eqb (a b : Attr) : bool :=
  match a, b with
  | a_firstName, a_firstName | a_lastName, a_lastName
  | a_email, a_email | a_password, a_password | a_role, a_role
  | a_isActive, a_isActive | a_lastLogin, a_lastLogin
  | a_passwordChangedAt, a_passwordChangedAt
  | a_passwordResetToken, a_passwordResetToken
  | a_passwordResetExpires, a_passwordResetExpires
  | a_deletedAt, a_deletedAt => true
  | _, _ => false
  end.

(** A model instance: its data values and the attributes marked changed
    since it was loaded or last saved.  Timestamps are milliseconds since
    the epoch ([Date.prototype.getTime]). *)
Record User : Type := mkUser {
  id : string;
  firstName : string;
  lastName : string;
  email : string;
  password : js Json;
  role : string;
  isActive : bool;
  lastLogin : js Z;
  passwordChangedAt : js Z;
  passwordResetToken : js string;
  passwordResetExpires : js Z;
  deletedAt : js Z;
  changed_attrs : list Attr
}.

(** [user.changed(attr)]. *)
Definition changed (a : Attr) (u : User) : bool :=
  existsb (attr_eqb a) (changed_attrs u).

(** Sequelize's [set]: the attribute is marked changed when the new value
    differs from the one held. *)
Definition mark (a : Attr) (same : bool) (l : list Attr) : list Attr :=
  if same then l else a :: l.

(** [user.password = v]. *)
Definition set_password (v : js Json) (u : User) : User :=
  mkUser (id u) (firstName u) (lastName u) (email u) v (role u)
    (isActive u) (lastLogin u) (passwordChangedAt u)
    (passwordResetToken u) (passwordResetExpires u) (deletedAt u)
    (mark a_password (js_eqb json_eqb v (password u)) (changed_attrs u)).

(** [user.isActive = v]. *)
Definition set_isActive (v : bool) (u : User) : User :=
  mkUser (id u) (firstName u) (lastName u) (email u) (password u) (role u)
    v (lastLogin u) (passwordChangedAt u)
    (passwordResetToken u) (passwordResetExpires u) (deletedAt u)
    (mark a_isActive (Bool.eqb v (isActive u)) (changed_attrs u)).

(** [user.lastLogin = v]. *)
Definition set_lastLogin (v : js Z) (u : User) : User :=
  mkUser (id u) (firstName u) (lastName u) (email u) (password u) (role u)
    (isActive u) v (passwordChangedAt u)
    (passwordResetToken u) (passwordResetExpires u) (deletedAt u)
    (mark a_lastLogin (js_eqb Z.eqb v (lastLogin u)) (changed_attrs u)).

(** [user.passwordChangedAt = v]. *)
Definition set_passwordChangedAt (v : js Z) (u : User) : User :=
  mkUser (id u) (firstName u) (lastName u) (email u) (password u) (role u)
    (isActive u) (lastLogin u) v
    (passwordResetToken u) (passwordResetExpires u) (deletedAt u)
    (mark a_passwordChangedAt (js_eqb Z.eqb v (passwordChangedAt u))
       (changed_attrs u)).

(** [user.passwordResetToken = v]. *)
Definition set_passwordResetToken (v : js string) (u : User) : User :=
  mkUser (id u) (firstName u) (lastName u) (email u) (password u) (role u)
    (isActive u) (lastLogin u) (passwordChangedAt u)
    v (passwordResetExpires u) (deletedAt u)
    (mark a_passwordResetToken (js_eqb String.eqb v (passwordResetToken u))
       (changed_attrs u)).

(** [user.passwordResetExpires = v]. *)
Definition set_passwordResetExpires (v : js Z) (u : User) : User :=
  mkUser (id u) (firstName u) (lastName u) (email u) (password u) (role u)
    (isActive u) (lastLogin u) (passwordChangedAt u)
    (passwordResetToken u) v (deletedAt u)
    (mark a_passwordResetExpires (js_eqb Z.eqb v (passwordResetExpires u))
       (changed_attrs u)).

(** [user.firstName = v], [user.lastName = v], [user.email = v]. *)
Definition set_firstName (v : string) (u : User) : User :=
  mkUser (id u) v (lastName u) (email u) (password u) (role u)
    (isActive u) (lastLogin u) (passwordChangedAt u)
    (passwordResetToken u) (passwordResetExpires u) (deletedAt u)
    (mark a_firstName (String.eqb v (firstName u)) (changed_attrs u)).

Definition set_lastName (v : string) (u : User) : User :=
  mkUser (id u) (firstName u) v (email u) (password u) (role u)
    (isActive u) (lastLogin u) (passwordChangedAt u)
    (passwordResetToken u) (passwordResetExpires u) (deletedAt u)
    (mark a_lastName (String.eqb v (lastName u)) (changed_attrs u)).

Definition set_email (v : string) (u : User) : User :=
  mkUser (id u) (firstName u) (lastName u) v (password u) (role u)
    (isActive u) (lastLogin u) (passwordChangedAt u)
    (passwordResetToken u) (passwordResetExpires u) (deletedAt u)
    (mark a_email (String.eqb v (email u)) (changed_attrs u)).

(** After a save the instance is clean again. *)
Definition clean (u : User) : User :=
  mkUser (id u) (firstName u) (lastName u) (email u) (password u) (role u)
    (isActive u) (lastLogin u) (passwordChangedAt u)
    (passwordResetToken u) (passwordResetExpires u) (deletedAt u) [].

(** [user.restore()] leaves the instance with [deletedAt] null, and
    clean. *)
Definition restored (u : User) : User :=
  mkUser (id u) (firstName u) (lastName u) (email u) (password u) (role u)
    (isActive u) (lastLogin u) (passwordChangedAt u)
    (passwordResetToken u) (passwordResetExpires u) null [].

(** The default scope leaves out [password], [passwordResetToken] and
    [passwordResetExpires]: on the instance they are [undefined]. *)
Definition load_default (r : UserRow) : User :=
  mkUser (col_id r) (col_firstName r) (col_lastName r) (col_email r)
    undefined (col_role r) (col_isActive r)
    (of_column (col_lastLogin r)) (of_column (col_passwordChangedAt r))
    undefined undefined (of_column (col_deletedAt r)) [].

(** The scope [withPassword] replaces the default scope: every attribute
    is read. *)
Definition load_withPassword (r : UserRow) : User :=
  mkUser (col_id r) (col_firstName r) (col_lastName r) (col_email r)
    (val (jstring (col_password r))) (col_role r) (col_isActive r)
    (of_column (col_lastLogin r)) (of_column (col_passwordChangedAt r))
    (of_column (col_passwordResetToken r))
    (of_column (col_passwordResetExpires r))
    (of_column (col_deletedAt r)) [].

(** The model is paranoid: a query sees only the rows that are not
    soft-deleted, unless it asks for [paranoid: false]. *)
Definition visible (r : UserRow) : bool :=
  match col_deletedAt r with
  | None => true
  | Some _ => false
  end.

(** [findOne({ where })] : the first visible row the condition holds of. *)
Definition findOne_row (cond : UserRow -> bool) (db : list UserRow)
  : option UserRow :=
  find (fun r => visible r && cond r) db.

(** [User.findOne({ where })] in the default scope. *)
Definition findOne (cond : UserRow -> bool) (db : list UserRow) : js User :=
  match findOne_row cond db with
  | Some r => val (load_default r)
  | None => null
  end.

(** [User.scope('withPassword').findOne({ where })]. *)
Definition findOne_withPassword (cond : UserRow -> bool) (db : list UserRow)
  : js User :=
  match findOne_row cond db with
  | Some r => val (load_withPassword r)
  | None => null
  end.

(** [User.findByPk(id)] and its scoped and unscoped variants. *)
Definition findByPk (pk : string) (db : list UserRow) : js User :=
  findOne (fun r => String.eqb (col_id r) pk) db.

Definition findByPk_withPassword (pk : string) (db : list UserRow) : js User :=
  findOne_withPassword (fun r => String.eqb (col_id r) pk) db.

Definition findByPk_paranoid_false (pk : string) (db : list UserRow)
  : js User :=
  match find (fun r => String.eqb (col_id r) pk) db with
  | Some r => val (load_default r)
  | None => null
  end.

(** [User.prototype.changedPasswordAfter]. *)
Definition changedPasswordAfter (this : User) (JWTTimestamp : Z) : bool :=
  match passwordChangedAt this with
  | val t =>
      let changedTimestamp := parseInt_div1000 t in
      JWTTimestamp <? changedTimestamp
  | _ => false
  end.

(* ------------------------------------------------------------------ *)
(** ** Requests, responses, the world                                  *)
(* ------------------------------------------------------------------ *)

(** The payload of a verified token: [{ id, iat }], [iat] in seconds. *)
Record Decoded : Type := mkDecoded {
  d_id : string;
  d_iat : Z
}.

(** The JSON body of a request: the properties the handlers read.  The
    four password properties hold any JSON value: no chain of the routes
    rewrites them, so they reach the controllers as they were sent.  The
    names, the email and the role are strings and [isActive] a boolean
    when present. *)
Record Body : Type := mkBody {
  b_firstName : js string;
  b_lastName : js string;
  b_email : js string;
  b_password : js Json;
  b_passwordConfirm : js Json;
  b_role : js string;
  b_currentPassword : js Json;
  b_newPassword : js Json;
  b_isActive : js bool
}.

(** What travels on the wire: a JSON object (the empty one when the
    request has no JSON body), or a body that body-parser refuses with an
    http-error.  For malformed JSON the status is 400 and the message is
    that of the [SyntaxError] of [JSON.parse], which on recent versions
    of V8 quotes the text around the offending token. *)
Inductive Payload : Type :=
| json_body (b : Body)
| refused (raw : string) (status : Z) (message : string).

(** An entry of express-validator's result: [{ param, msg }]. *)
Record FieldError : Type := mkFieldError {
  fe_param : string;
  fe_msg : string
}.

(** An Express request.  [payload] is what travels on the wire; [body] is
    [req.body], which is [undefined] until a body parser has run. *)
Record Request : Type := mkRequest {
  method : string;
  originalUrl : string;
  protocol : string;
  host : string;
  ip : string;
  query : string;
  headers_authorization : js string;
  cookies_jwt : js string;
  params_token : string;
  params_id : string;
  payload : Payload;
  body : js Body;
  validation_errors : list FieldError;
  user : js User
}.

(** [req.body = b], [req.user = u] and the result of a validation run. *)
Definition with_body (b : js Body) (req : Request) : Request :=
  mkRequest (method req) (originalUrl req) (protocol req) (host req) (ip req)
    (query req) (headers_authorization req) (cookies_jwt req)
    (params_token req) (params_id req) (payload req) b
    (validation_errors req) (user req).

Definition with_user (u : js User) (req : Request) : Request :=
  mkRequest (method req) (originalUrl req) (protocol req) (host req) (ip req)
    (query req) (headers_authorization req) (cookies_jwt req)
    (params_token req) (params_id req) (payload req) (body req)
    (validation_errors req) u.

Definition with_validation (errs : list FieldError) (req : Request) : Request :=
  mkRequest (method req) (originalUrl req) (protocol req) (host req) (ip req)
    (query req) (headers_authorization req) (cookies_jwt req)
    (params_token req) (params_id req) (payload req) (body req)
    errs (user req).

(** [res.locals]. *)
Record Locals : Type := mkLocals {
  locals_user : js User
}.

(** The body of a JSON response. *)
Inductive ResBody : Type :=
| body_token (token : string) (u : User)
    (* { status: 'success', token, data: { user } } *)
| body_user (u : js User)
    (* { status: 'success', data: { user } } *)
| body_users (results : nat) (us : list User)
    (* { status: 'success', results, data: { users } } *)
| body_message (status message : string)
    (* { status, message } *)
| body_message_user (message : string) (u : User)
    (* { status: 'success', message, data: { user } } *)
| body_validation (status : string) (errors : list FieldError)
    (* { status, message: 'Validation failed', errors } *)
| body_null
    (* { status: 'success', data: null } *)
| body_error (status : Z) (message : string).
    (* { success: false, message, error: { status, message } } *)

(** What a middleware or handler hands back to Express. *)
Inductive Outcome : Type :=
| next                               (* next() *)
| next_err (e : Err)                 (* next(err) *)
| json (status : Z) (b : ResBody)    (* res.status(status).json(b) *)
| throws (x : Exn).                  (* an exception escapes *)

(** The metadata the request logger attaches to its line. *)
Record Meta : Type := mkMeta {
  meta_query : string;
  meta_body : js Body;
  meta_ip : string
}.

(** A line handed to winston. *)
Inductive LogEntry : Type :=
| log_request (method url : string) (meta : Meta)
    (* winston.info(`${method} ${url}`, { query, body, ip }) *)
| log_failure (status : Z) (message url method ip : string)
    (* winston.error(`${status} - ${message} - ${url} - ${method} - ${ip}`) *)
| log_email_sent (to : string)
    (* winston.info(`Email sent to ${email}`) *)
| log_email_error (message : string).
    (* winston.error('Error sending email:', error) *)

(** A message handed to the SMTP transport. *)
Record Mail : Type := mkMail {
  mail_to : string;
  mail_subject : string;
  mail_text : string
}.

(** The state the service acts on. *)
Record World : Type := mkWorld {
  db : list UserRow;
  log : list LogEntry;
  outbox : list Mail
}.

Definition with_db (d : list UserRow) (w : World) : World :=
  mkWorld d (log w) (outbox w).

Definition add_log (e : LogEntry) (w : World) : World :=
  mkWorld (db w) (log w ++ [e]) (outbox w).

Definition add_mail (m : Mail) (w : World) : World :=
  mkWorld (db w) (log w) (outbox w ++ [m]).

(** What a request draws from its environment: the clock as the
    service reads it ([Date.now()], [new Date()]), the salt bcrypt picks,
    the 32 random bytes of a reset token in hexadecimal, the UUID of a
    new row, whether the SMTP transport accepts the message, and the
    clock as jsonwebtoken reads it when it signs the token of the
    response, after the handler has done its work. *)
Record Env : Type := mkEnv {
  now : Z;
  salt : string;
  randomBytes32_hex : string;
  uuidv4 : string;
  smtp_ok : bool;
  sign_now : Z
}.

(** The free identifiers a module body may refer to besides its own
    bindings.  [crypto] is bound by a [require('crypto')], is a global
    holding the Web Crypto object on recent Node.js versions (which has no
    [createHash]), and is unbound otherwise. *)
Inductive CryptoBinding : Type :=
| crypto_unbound
| crypto_webcrypto
| crypto_node.

Record Scope : Type := mkScope {
  scope_crypto : CryptoBinding;
  scope_Op : bool
}.

(** The libraries the service calls, kept abstract: bcryptjs
    ([bcrypt.hash(p, 12)] with the salt it draws, [bcrypt.compare]),
    SHA-256 in hexadecimal, jsonwebtoken under the configured secret and
    lifetime ([jwt.verify] fails by throwing, here [None]), validator.js's
    [isEmail], and express-validator running a list of validation chains
    on a request (it gives the sanitized body and the errors found). *)
Inductive Validation : Type :=
| v_register | v_login | v_forgotPassword | v_resetPassword
| v_updatePassword | v_createUser | v_updateUser | v_idParam.

Class Libraries : Type := mkLibraries {
  bcrypt_hash : string -> string -> string;
  bcrypt_compare : string -> string -> bool;
  sha256_hex : string -> string;
  jwt_sign : string -> Z -> string;
  jwt_verify : Z -> string -> option Decoded;
  isEmail : string -> bool;
  run_validations : Validation -> Request -> js Body * list FieldError
}.

Section Service.

Context {lib : Libraries}.

(* ------------------------------------------------------------------ *)
(** ** Saving and creating instances                                   *)
(* ------------------------------------------------------------------ *)

Definition len_between (lo hi : nat) (s : string) : bool :=
  ((lo <=? String.length s) && (String.length s <=? hi))%nat.

(** Sequelize's [notEmpty]: the string is not made of white space only. *)
Definition notEmpty (s : string) : bool := negb (blank s).

(** The items of a Sequelize [ValidationError], each written as its type
    and its message, and the message of the error: the items joined. *)
Definition notNull_Violation (name : string) : string :=
  "notNull Violation: User." ++ name ++ " cannot be null".

Definition string_violation (name : string) : string :=
  "string violation: " ++ name ++ " cannot be an array or an object".

Definition Validation_error (msg : string) : string :=
  "Validation error: " ++ msg.

Definition check (ok : bool) (msg : string) : list string :=
  if ok then [] else [Validation_error msg].

Definition ValidationError (items : list string) : Exn :=
  SequelizeValidationError (String.concat ("," ++ LF) items).

(** The attributes in the order the model declares them, which is the
    order a validation goes through them in. *)
Definition declared : list Attr :=
  [a_firstName; a_lastName; a_email; a_password; a_role; a_isActive;
   a_lastLogin; a_passwordChangedAt; a_passwordResetToken;
   a_passwordResetExpires; a_deletedAt].

(** The check of an attribute against its declaration, made at once:
    [allowNull: false], and a STRING is no array and no object. *)
Definition schema_attr (u : User) (a : Attr) : list string :=
  match a with
  | a_password =>
      match password u with
      | val (jarray _) | val jobject => [string_violation "password"]
      | val _ => []
      | _ => [notNull_Violation "password"]
      end
  | _ => []
  end.

(** The validators the model declares for an attribute.  They are given
    [String(value)], and are skipped for an attribute that is null. *)
Definition validate_attr (u : User) (a : Attr) : list string :=
  match a with
  | a_firstName =>
      check (notEmpty (firstName u)) "First name is required"
      ++ check (len_between 2 50 (firstName u))
           "First name must be between 2 and 50 characters"
  | a_lastName =>
      check (notEmpty (lastName u)) "Last name is required"
      ++ check (len_between 2 50 (lastName u))
           "Last name must be between 2 and 50 characters"
  | a_email =>
      check (isEmail (email u)) "Please provide a valid email address"
      ++ check (notEmpty (email u)) "Email is required"
      ++ check (String.eqb (toLowerCase (email u)) (email u))
           "Validation isLowercase on email failed"
  | a_password =>
      match password u with
      | val v =>
          check (notEmpty (String_of v)) "Password is required"
          ++ check (len_between 8 128 (String_of v))
               "Password must be between 8 and 128 characters"
      | _ => []
      end
  | _ => []
  end.

(** [instance.validate()] over the attributes [fields]: the items of the
    schema checks come first, then those of the validators, each in the
    order of the declarations. *)
Definition among (fields : list Attr) (a : Attr) : bool :=
  existsb (attr_eqb a) fields.

Definition validate_instance (u : User) (fields : list Attr) : list string :=
  (flat_map (schema_attr u) (filter (among fields) declared)
   ++ flat_map (validate_attr u) (filter (among fields) declared))%list.

(** [bcrypt.hash(s, 12)]: bcryptjs refuses what is not a string. *)
Definition hash_password (env : Env) (v : js Json) : Exn + string :=
  match v with
  | val (jstring p) => inr (bcrypt_hash (salt env) p)
  | _ => inl (Error ("Illegal arguments: " ++ typeof_json v ++ ", number"))
  end.

(** The [beforeUpdate] hook. *)
Definition beforeUpdate (env : Env) (user : User) : Exn + User :=
  if changed a_password user then
    match hash_password env (password user) with
    | inr h =>
        let user1 := set_password (val (jstring h)) user in
        inr (set_passwordChangedAt (val (now env)) user1)
    | inl x => inl x
    end
  else inr user.

(** The value an UPDATE gives a nullable column.  Sequelize builds the
    statement from the changed attributes whose data value is not
    [undefined] (Utils.mapValueFieldNames): an attribute assigned
    [undefined] is left out and its column keeps what it holds; [null]
    is written as SQL NULL. *)
Definition written {A} (ch : bool) (v : js A) (old : option A) : option A :=
  if ch then
    match v with
    | undefined => old
    | null => None
    | val a => Some a
    end
  else old.

(** The same for a column that is never null on an instance. *)
Definition written_nn {A} (ch : bool) (v old : A) : A :=
  if ch then v else old.

Definition update_row (u : User) (r : UserRow) : UserRow :=
  mkRow (col_id r)
    (written_nn (changed a_firstName u) (firstName u) (col_firstName r))
    (written_nn (changed a_lastName u) (lastName u) (col_lastName r))
    (written_nn (changed a_email u) (email u) (col_email r))
    (match written (changed a_password u) (password u)
             (Some (jstring (col_password r)))
     with Some v => String_of v | None => col_password r end)
    (col_role r)
    (written_nn (changed a_isActive u) (isActive u) (col_isActive r))
    (written (changed a_lastLogin u) (lastLogin u) (col_lastLogin r))
    (written (changed a_passwordChangedAt u) (passwordChangedAt u)
       (col_passwordChangedAt r))
    (written (changed a_passwordResetToken u) (passwordResetToken u)
       (col_passwordResetToken r))
    (written (changed a_passwordResetExpires u) (passwordResetExpires u)
       (col_passwordResetExpires r))
    (col_deletedAt r).

(** [UPDATE users SET ... WHERE id = user.id]. *)
Definition update_where_id (u : User) (table : list UserRow) : list UserRow :=
  map (fun r => if String.eqb (col_id r) (id u) then update_row u r else r)
    table.

(** The unique index on [email] covers every row of the table, the
    soft-deleted ones too: [e] is held by a row other than [pk]. *)
Definition email_held_by_other (pk e : string) (table : list UserRow) : bool :=
  existsb
    (fun r => negb (String.eqb (col_id r) pk) && String.eqb (col_email r) e)
    table.

(** Saving a loaded instance over the attributes [fields], [nulls] being
    the items for the attributes that were assigned [null]: validate,
    run [beforeUpdate], write, and come back clean.  The UPDATE fails on
    an email another row holds.  (Sequelize validates once more the
    attributes a hook has changed; what [beforeUpdate] changes is the
    password, to a bcrypt hash, which is 60 characters long and not
    blank, and the date of the change, which has no validator: the second
    validation reports nothing.) *)
Definition save_fields (env : Env) (nulls : list string) (fields : list Attr)
    (user : User) (table : list UserRow) : (Exn + User) * list UserRow :=
  match (nulls ++ validate_instance user fields)%list with
  | [] =>
      match beforeUpdate env user with
      | inl x => (inl x, table)
      | inr user' =>
          if among fields a_email
             && email_held_by_other (id user') (email user') table
          then
            (inl (SequelizeUniqueConstraintError "Email already in use"),
             table)
          else (inr (clean user'), update_where_id user' table)
      end
  | items => (inl (ValidationError items), table)
  end.

(** [user.save()]: the attributes are those that changed. *)
Definition save (env : Env) (user : User) (table : list UserRow)
  : (Exn + User) * list UserRow :=
  save_fields env [] (changed_attrs user) user table.

(** The values handed to [User.create]. *)
Record CreateValues : Type := mkCreateValues {
  cv_firstName : js string;
  cv_lastName : js string;
  cv_email : string;
  cv_password : js Json;
  cv_role : string
}.

(** [User.build(values)] with the model's defaults: a fresh [id],
    [isActive: true]; what is not given stays [undefined].  A required
    attribute that is missing is reported by the validation. *)
Definition build (env : Env) (v : CreateValues) : list string * User :=
  let missing (name : string) (x : js string) : list string :=
    match x with
    | val _ => []
    | _ => [notNull_Violation name]
    end in
  let text (x : js string) : string :=
    match x with
    | val s => s
    | _ => ""
    end in
  let given (x : js string) (a : Attr) : list Attr :=
    match x with
    | val _ => [a]
    | _ => []
    end in
  ((missing "firstName" (cv_firstName v)
      ++ missing "lastName" (cv_lastName v))%list,
   mkUser (uuidv4 env) (text (cv_firstName v)) (text (cv_lastName v))
     (cv_email v) (cv_password v) (cv_role v) true
     undefined undefined undefined undefined undefined
     (given (cv_firstName v) a_firstName
      ++ given (cv_lastName v) a_lastName
      ++ [a_email; a_password])%list).

(** The [beforeCreate] hook. *)
Definition beforeCreate (env : Env) (user : User) : Exn + User :=
  if truthy_json (password user) then
    match hash_password env (password user) with
    | inr h => inr (set_password (val (jstring h)) user)
    | inl x => inl x
    end
  else inr user.

(** The row an INSERT writes for an instance. *)
Definition row_of (u : User) : UserRow :=
  mkRow (id u) (firstName u) (lastName u) (email u)
    (match password u with val v => String_of v | _ => "" end)
    (role u) (isActive u) None None None None None.

(** The unique index on [email] covers every row of the table. *)
Definition email_taken (e : string) (table : list UserRow) : bool :=
  existsb (fun r => String.eqb (col_email r) e) table.

(** [User.create(values)]: build, validate every attribute given (a
    required one that is missing is an item of its own, and its
    validators are skipped), run [beforeCreate], INSERT.  The [role]
    column is an ENUM of [user] and [admin]; the INSERT fails on a
    duplicate email. *)
Definition create (env : Env) (v : CreateValues) (table : list UserRow)
  : (Exn + User) * list UserRow :=
  let '(missing, u) := build env v in
  match (missing ++ validate_instance u (changed_attrs u))%list with
  | [] =>
      match beforeCreate env u with
      | inl x => (inl x, table)
      | inr u' =>
          if negb (includes ["user"; "admin"] (role u')) then
            (inl (Error "invalid input value for enum"), table)
          else if email_taken (email u') table then
            (inl (SequelizeUniqueConstraintError "Email already in use"),
             table)
          else (inr (clean u'), (table ++ [row_of u'])%list)
      end
  | items => (inl (ValidationError items), table)
  end.

(** [User.prototype.correctPassword]: [bcrypt.compare] throws unless it
    is given two strings. *)
Definition correctPassword (candidatePassword userPassword : js Json)
  : Exn + bool :=
  match candidatePassword, userPassword with
  | val (jstring p), val (jstring h) => inr (bcrypt_compare p h)
  | _, _ =>
      inl (Error ("Illegal arguments: " ++ typeof_json candidatePassword
                  ++ ", " ++ typeof_json userPassword))
  end.

(** [User.prototype.createPasswordResetToken]. *)
Definition createPasswordResetToken (env : Env) (this : User)
  : string * User :=
  let resetToken := randomBytes32_hex env in
  let this1 := set_passwordResetToken (val (sha256_hex resetToken)) this in
  let this2 :=
    set_passwordResetExpires (val (now env + 10 * 60 * 1000)) this1 in
  (resetToken, this2).

(* ------------------------------------------------------------------ *)
(** ** Authentication middleware (middleware/auth.middleware.js)       *)
(* ------------------------------------------------------------------ *)

Import StatusCodes.

(** [req.headers.authorization &&
    req.headers.authorization.startsWith('Bearer')]. *)
Definition has_bearer (req : Request) : bool :=
  match headers_authorization req with
  | val h => negb (String.eqb h "") && startsWith h "Bearer"
  | _ => false
  end.

(** Step 1 of [protect]: the token named by an [Authorization] header
    that starts with [Bearer], else the [jwt] cookie. *)
Definition protect_token (req : Request) : js string :=
  if has_bearer req then
    match headers_authorization req with
    | val h => index (split " " h) 1
    | _ => undefined
    end
  else if truthy (cookies_jwt req) then cookies_jwt req
  else undefined.

(** [protect]: the request and [res.locals] it leaves, and what it hands
    to Express.  Any exception inside the [try] is turned into the
    "Invalid token" error. *)
Definition protect (env : Env) (table : list UserRow) (req : Request)
    (locals : Locals) : Request * Locals * Outcome :=
  match protect_token req with
  | val token =>
      if String.eqb token "" then
        (req, locals, next_err (App (mkAppError
           "You are not logged in! Please log in to get access."
           UNAUTHORIZED)))
      else
        match jwt_verify (now env) token with
        | Some decoded =>
            match findByPk (d_id decoded) table with
            | val currentUser =>
                if changedPasswordAfter currentUser (d_iat decoded) then
                  (req, locals, next_err (App (mkAppError
                     "User recently changed password! Please log in again."
                     UNAUTHORIZED)))
                else
                  (with_user (val currentUser) req,
                   mkLocals (val currentUser), next)
            | _ =>
                (req, locals, next_err (App (mkAppError
                   "The user belonging to this token no longer exists."
                   UNAUTHORIZED)))
            end
        | None =>
            (req, locals, next_err (App (mkAppError
               "Invalid token or session expired. Please log in again."
               UNAUTHORIZED)))
        end
  | _ =>
      (req, locals, next_err (App (mkAppError
         "You are not logged in! Please log in to get access."
         UNAUTHORIZED)))
  end.

(** [restrictTo(...roles)]: reading [req.user.role] throws when no user
    is attached to the request. *)
Definition restrictTo (roles : list string) (req : Request) : Outcome :=
  match user req with
  | val u =>
      if negb (includes roles (role u)) then
        next_err (App (mkAppError
          "You do not have permission to perform this action" FORBIDDEN))
      else next
  | _ =>
      throws (TypeError "Cannot read properties of undefined (reading 'role')")
  end.

(** [isLoggedIn]: only the [jwt] cookie is looked at, and every failure
    is a plain [next()]. *)
Definition isLoggedIn (env : Env) (table : list UserRow) (req : Request)
    (locals : Locals) : Locals * Outcome :=
  if truthy (cookies_jwt req) then
    match cookies_jwt req with
    | val token =>
        match jwt_verify (now env) token with
        | Some decoded =>
            match findByPk (d_id decoded) table with
            | val currentUser =>
                if changedPasswordAfter currentUser (d_iat decoded) then
                  (locals, next)
                else (mkLocals (val currentUser), next)
            | _ => (locals, next)
            end
        | None => (locals, next)
        end
    | _ => (locals, next)
    end
  else (locals, next).


(* ------------------------------------------------------------------ *)
(** ** The mailer (utils/email.js)                                     *)
(* ------------------------------------------------------------------ *)

(** [sendEmail(options)]: hand the message to the transport and log the
    recipient; when the transport fails, log the failure and throw. *)
Definition sendEmail (env : Env) (w : World) (m : Mail) : World * (Exn + unit) :=
  if smtp_ok env then
    (add_log (log_email_sent (mail_to m)) (add_mail m w), inr tt)
  else
    (add_log (log_email_error "Error sending email:") w,
     inl (Error "There was an error sending the email. Try again later!")).

(* ------------------------------------------------------------------ *)
(** ** Authentication controller (controllers/auth.controller.js)      *)
(* ------------------------------------------------------------------ *)

(** [signToken]: jsonwebtoken stamps [iat] with its own reading of the
    clock, in seconds. *)
Definition signToken (env : Env) (uid : string) : string :=
  jwt_sign uid (sign_now env / 1000).

(** [createSendToken]. *)
Definition createSendToken (env : Env) (u : User) (statusCode : Z) : Outcome :=
  let token := signToken env (id u) in
  let u' := set_password undefined u in
  json statusCode (body_token token u').

(** [role || 'user']. *)
Definition role_or_user (r : js string) : string :=
  match r with
  | val s => if String.eqb s "" then "user" else s
  | _ => "user"
  end.

(** The message of Sequelize for [{ where: { email: undefined } }]. *)
Definition undefined_in_where : string :=
  "WHERE parameter " ++ dquote ++ "email" ++ dquote ++ " has invalid "
  ++ dquote ++ "undefined" ++ dquote ++ " value".

(** [{ where: { email } }]: Sequelize refuses an [undefined] value in a
    condition; [null] compares with IS NULL, which no row satisfies. *)
Definition where_email (e : js string) : Exn + (UserRow -> bool) :=
  match e with
  | val s => inr (fun r => String.eqb (col_email r) s)
  | null => inr (fun _ => false)
  | undefined =>
      inl (Error undefined_in_where)
  end.

(** [exports.register]. *)
Definition register (env : Env) (w : World) (req : Request) : World * Outcome :=
  match validation_errors req with
  | _ :: _ =>
      (w, json BAD_REQUEST (body_validation "error" (validation_errors req)))
  | [] =>
      match body req with
      | val b =>
          match where_email (b_email b) with
          | inl x => (w, next_err (Thrown x))
          | inr cond =>
              match findOne cond (db w) with
              | val existingUser =>
                  (w, next_err (App (mkAppError "Email already in use"
                                       CONFLICT)))
              | _ =>
                  match b_email b with
                  | val e =>
                      match create env
                              (mkCreateValues (b_firstName b) (b_lastName b)
                                 (toLowerCase e) (b_password b)
                                 (role_or_user (b_role b)))
                              (db w)
                      with
                      | (inr newUser, table) =>
                          (with_db table w, createSendToken env newUser CREATED)
                      | (inl x, _) => (w, next_err (Thrown x))
                      end
                  | _ =>
                      (w, next_err (Thrown (TypeError
                         "Cannot read properties of null (reading 'toLowerCase')")))
                  end
              end
          end
      | _ =>
          (w, next_err (Thrown (TypeError
             "Cannot destructure property 'firstName' of 'req.body'")))
      end
  end.

(** [exports.login]. *)
Definition login (env : Env) (w : World) (req : Request) : World * Outcome :=
  match body req with
  | val b =>
      if negb (truthy (b_email b)) || negb (truthy_json (b_password b)) then
        (w, next_err (App (mkAppError "Please provide email and password"
                             BAD_REQUEST)))
      else
        match b_email b with
        | val e =>
            let found :=
              findOne_withPassword
                (fun r => String.eqb (col_email r) (toLowerCase e)) (db w) in
            match found with
            | val u =>
                match correctPassword (b_password b) (password u) with
                | inl x => (w, next_err (Thrown x))
                | inr false =>
                    (w, next_err (App (mkAppError
                       "Incorrect email or password" UNAUTHORIZED)))
                | inr true =>
                    if negb (isActive u) then
                      (w, next_err (App (mkAppError
                         "Your account has been deactivated" FORBIDDEN)))
                    else
                      let u1 := set_lastLogin (val (now env)) u in
                      match save env u1 (db w) with
                      | (inr u2, table) =>
                          (with_db table w, createSendToken env u2 OK)
                      | (inl x, _) => (w, next_err (Thrown x))
                      end
                end
            | _ =>
                (w, next_err (App (mkAppError
                   "Incorrect email or password" UNAUTHORIZED)))
            end
        | _ =>
            (w, next_err (Thrown (TypeError
               "email.toLowerCase is not a function")))
        end
  | _ =>
      (w, next_err (Thrown (TypeError
         "Cannot destructure property 'email' of 'req.body'")))
  end.

(** The text of the reset mail. *)
Definition reset_mail (req : Request) (to resetToken : string) : Mail :=
  let resetURL :=
    protocol req ++ "://" ++ host req ++ "/api/auth/reset-password/"
    ++ resetToken in
  mkMail to "Your password reset token (valid for 10 min)"
    ("Forgot your password? Submit a PATCH request with your new password and passwordConfirm to: "
     ++ resetURL ++ "." ++ String (ascii_of_nat 10) ""
     ++ "If you didn't forget your password, please ignore this email!").

(** [exports.forgotPassword]. *)
Definition forgotPassword (env : Env) (w : World) (req : Request)
  : World * Outcome :=
  match body req with
  | val b =>
      match where_email (b_email b) with
      | inl x => (w, next_err (Thrown x))
      | inr cond =>
          match findOne cond (db w) with
          | val u =>
              let '(resetToken, u1) := createPasswordResetToken env u in
              match save env u1 (db w) with
              | (inl x, _) => (w, next_err (Thrown x))
              | (inr u2, table1) =>
                  let w1 := with_db table1 w in
                  match sendEmail env w1 (reset_mail req (email u2) resetToken)
                  with
                  | (w2, inr _) =>
                      (w2, json OK (body_message "success"
                                      "Token sent to email!"))
                  | (w2, inl _) =>
                      let u3 := set_passwordResetToken undefined u2 in
                      let u4 := set_passwordResetExpires undefined u3 in
                      match save env u4 (db w2) with
                      | (inl x, _) => (w2, next_err (Thrown x))
                      | (inr _, table2) =>
                          (with_db table2 w2,
                           next_err (App (mkAppError
                             "There was an error sending the email. Try again later!"
                             INTERNAL_SERVER_ERROR)))
                      end
                  end
              end
          | _ =>
              (w, next_err (App (mkAppError
                 "There is no user with that email address." NOT_FOUND)))
          end
      end
  | _ =>
      (w, next_err (Thrown (TypeError
         "Cannot read properties of undefined (reading 'email')")))
  end.

(** The condition of [resetPassword]'s query: the stored digest is the
    recomputed one and the expiry is later than [Date.now()]. *)
Definition reset_condition (hashedToken : string) (t : Z) (r : UserRow)
  : bool :=
  match col_passwordResetToken r, col_passwordResetExpires r with
  | Some d, Some e => String.eqb d hashedToken && (t <? e)
  | _, _ => false
  end.

(** [exports.resetPassword], in the scope [sc] its free identifiers
    [crypto] and [Op] are resolved in. *)
Definition resetPassword (sc : Scope) (env : Env) (w : World) (req : Request)
  : World * Outcome :=
  match scope_crypto sc with
  | crypto_unbound =>
      (w, next_err (Thrown (ReferenceError "crypto is not defined")))
  | crypto_webcrypto =>
      (w, next_err (Thrown (TypeError "crypto.createHash is not a function")))
  | crypto_node =>
      let hashedToken := sha256_hex (params_token req) in
      if negb (scope_Op sc) then
        (w, next_err (Thrown (ReferenceError "Op is not defined")))
      else
        match findOne (reset_condition hashedToken (now env)) (db w) with
        | val u =>
            match body req with
            | val b =>
                let u1 := set_password (b_password b) u in
                let u2 := set_passwordResetToken null u1 in
                let u3 := set_passwordResetExpires null u2 in
                match save env u3 (db w) with
                | (inr u4, table) =>
                    (with_db table w, createSendToken env u4 200)
                | (inl x, _) => (w, next_err (Thrown x))
                end
            | _ =>
                (w, next_err (Thrown (TypeError
                   "Cannot read properties of undefined (reading 'password')")))
            end
        | _ =>
            (w, next_err (App (mkAppError "Token is invalid or has expired"
                                 400)))
        end
  end.

(** The scope of controllers/auth.controller.js: the module requires
    jsonwebtoken, http-status-codes, express-validator, the model,
    AppError and the mailer, and neither [crypto] nor Sequelize's [Op].
    [global_crypto] tells whether the runtime has the Web Crypto global. *)
Definition auth_controller_scope (global_crypto : bool) : Scope :=
  mkScope (if global_crypto then crypto_webcrypto else crypto_unbound) false.


(** [exports.updatePassword]. *)
Definition updatePassword (env : Env) (w : World) (req : Request)
  : World * Outcome :=
  match user req with
  | val me =>
      match findByPk_withPassword (id me) (db w) with
      | val u =>
          match body req with
          | val b =>
              match correctPassword (b_currentPassword b) (password u) with
              | inl x => (w, next_err (Thrown x))
              | inr false =>
                  (w, next_err (App (mkAppError
                     "Your current password is wrong." UNAUTHORIZED)))
              | inr true =>
                  let u1 := set_password (b_newPassword b) u in
                  match save env u1 (db w) with
                  | (inr u2, table) =>
                      (with_db table w, createSendToken env u2 OK)
                  | (inl x, _) => (w, next_err (Thrown x))
                  end
              end
          | _ =>
              (w, next_err (Thrown (TypeError
                 "Cannot read properties of undefined (reading 'currentPassword')")))
          end
      | _ =>
          (w, next_err (Thrown (TypeError
             "Cannot read properties of null (reading 'correctPassword')")))
      end
  | _ =>
      (w, next_err (Thrown (TypeError
         "Cannot read properties of undefined (reading 'id')")))
  end.

(** [exports.getMe]. *)
Definition getMe (w : World) (req : Request) : World * Outcome :=
  match user req with
  | val me => (w, json OK (body_user (findByPk (id me) (db w))))
  | _ =>
      (w, next_err (Thrown (TypeError
         "Cannot read properties of undefined (reading 'id')")))
  end.

(** One key of [user.update(filteredBody)]: an absent key is skipped, a
    string is assigned and its attribute is among those saved, [null]
    fails the not-null check. *)
Record Assigned : Type := mkAssigned {
  as_nulls : list string;
  as_fields : list Attr;
  as_user : User
}.

Definition assign (setter : string -> User -> User) (a : Attr) (name : string)
    (v : js string) (acc : Assigned) : Assigned :=
  match v with
  | undefined => acc
  | null =>
      mkAssigned (as_nulls acc ++ [notNull_Violation name])%list
        (as_fields acc) (as_user acc)
  | val x =>
      mkAssigned (as_nulls acc) (as_fields acc ++ [a])%list
        (setter x (as_user acc))
  end.

(** [exports.updateMe]. *)
Definition updateMe (env : Env) (w : World) (req : Request) : World * Outcome :=
  match body req with
  | val b =>
      if truthy_json (b_password b) || truthy_json (b_passwordConfirm b) then
        (w, next_err (App (mkAppError
           "This route is not for password updates. Please use /update-password."
           BAD_REQUEST)))
      else
        match user req with
        | val me =>
            match findByPk (id me) (db w) with
            | val u =>
                let given :=
                  assign set_email a_email "email" (b_email b)
                    (assign set_lastName a_lastName "lastName" (b_lastName b)
                       (assign set_firstName a_firstName "firstName"
                          (b_firstName b) (mkAssigned [] [] u)))
                in
                match
                  save_fields env (as_nulls given) (as_fields given)
                    (as_user given) (db w)
                with
                | (inr updatedUser, table) =>
                    (with_db table w, json OK (body_user (val updatedUser)))
                | (inl x, _) => (w, next_err (Thrown x))
                end
            | _ =>
                (w, next_err (Thrown (TypeError
                   "Cannot read properties of null (reading 'update')")))
            end
        | _ =>
            (w, next_err (Thrown (TypeError
               "Cannot read properties of undefined (reading 'id')")))
        end
  | _ =>
      (w, next_err (Thrown (TypeError
         "Cannot read properties of undefined (reading 'password')")))
  end.

(* ------------------------------------------------------------------ *)
(** ** Admin controller (controllers/user.controller.js)               *)
(* ------------------------------------------------------------------ *)

(** [exports.getAllUsers]. *)
Definition getAllUsers (w : World) : World * Outcome :=
  let users := map load_default (filter visible (db w)) in
  (w, json OK (body_users (List.length users) users)).

(** [exports.getUser]. *)
Definition getUser (w : World) (req : Request) : World * Outcome :=
  match findByPk (params_id req) (db w) with
  | val u => (w, json OK (body_user (val u)))
  | _ =>
      (w, next_err (App (mkAppError "No user found with that ID" NOT_FOUND)))
  end.

(** [exports.createUser]. *)
Definition createUser (env : Env) (w : World) (req : Request)
  : World * Outcome :=
  match validation_errors req with
  | _ :: _ =>
      (w, json BAD_REQUEST (body_validation "fail" (validation_errors req)))
  | [] =>
      match body req with
      | val b =>
          match where_email (b_email b) with
          | inl x => (w, next_err (Thrown x))
          | inr cond =>
              match findOne cond (db w) with
              | val existingUser =>
                  (w, next_err (App (mkAppError "Email already in use"
                                       CONFLICT)))
              | _ =>
                  match b_email b with
                  | val e =>
                      match create env
                              (mkCreateValues (b_firstName b) (b_lastName b)
                                 (toLowerCase e) (b_password b)
                                 (role_or_user (b_role b)))
                              (db w)
                      with
                      | (inr newUser, table) =>
                          (with_db table w,
                           json CREATED
                             (body_user (val (set_password undefined newUser))))
                      | (inl x, _) => (w, next_err (Thrown x))
                      end
                  | _ =>
                      (w, next_err (Thrown (TypeError
                         "Cannot read properties of null (reading 'toLowerCase')")))
                  end
              end
          end
      | _ =>
          (w, next_err (Thrown (TypeError
             "Cannot destructure property 'firstName' of 'req.body'")))
      end
  end.

(** The columns [User.update(filteredBody, { where: { id } })] writes in
    a row: the keys of the body among [firstName], [lastName], [email],
    [role] and [isActive]. *)
Definition patch_row (b : Body) (r : UserRow) : UserRow :=
  let str (v : js string) (old : string) : string :=
    match v with
    | val x => x
    | _ => old
    end in
  mkRow (col_id r)
    (str (b_firstName b) (col_firstName r))
    (str (b_lastName b) (col_lastName r))
    (str (b_email b) (col_email r))
    (col_password r)
    (str (b_role b) (col_role r))
    (match b_isActive b with val x => x | _ => col_isActive r end)
    (col_lastLogin r) (col_passwordChangedAt r)
    (col_passwordResetToken r) (col_passwordResetExpires r)
    (col_deletedAt r).

(** The validation [User.update] runs on the values before the UPDATE:
    a key set to [null] fails the not-null check, a string goes through
    the validators of its attribute. *)
Definition patch_items (b : Body) : list string :=
  let null_of (name : string) {A} (v : js A) : list string :=
    match v with
    | null => [notNull_Violation name]
    | _ => []
    end in
  let checks (v : js string) (f : string -> list string) : list string :=
    match v with
    | val x => f x
    | _ => []
    end in
  (null_of "firstName" (b_firstName b) ++ null_of "lastName" (b_lastName b)
   ++ null_of "email" (b_email b) ++ null_of "role" (b_role b)
   ++ null_of "isActive" (b_isActive b)
   ++ checks (b_firstName b)
        (fun x =>
           check (notEmpty x) "First name is required"
           ++ check (len_between 2 50 x)
                "First name must be between 2 and 50 characters")
   ++ checks (b_lastName b)
        (fun x =>
           check (notEmpty x) "Last name is required"
           ++ check (len_between 2 50 x)
                "Last name must be between 2 and 50 characters")
   ++ checks (b_email b)
        (fun x =>
           check (isEmail x) "Please provide a valid email address"
           ++ check (notEmpty x) "Email is required"
           ++ check (String.eqb (toLowerCase x) x)
                "Validation isLowercase on email failed"))%list.

(** What the database refuses of an UPDATE: a role outside the ENUM, an
    email another row holds. *)
Definition role_refused (r : js string) : bool :=
  match r with
  | val x => negb (includes ["user"; "admin"] x)
  | _ => false
  end.

Definition email_refused (pk : string) (e : js string) (table : list UserRow)
  : bool :=
  match e with
  | val x => email_held_by_other pk x table
  | _ => false
  end.

(** [exports.updateUser]: a bulk update of the visible rows with the id.
    With [returning] and [plain] set, the first element of what
    [User.update] resolves to is the [length] of something that is no
    array, so [updated] is [undefined] and the answer is the 404 also
    when a row has been written. *)
Definition updateUser (w : World) (req : Request) : World * Outcome :=
  match body req with
  | val b =>
      let hit (r : UserRow) : bool :=
        visible r && String.eqb (col_id r) (params_id req) in
      let not_found :=
        next_err (App (mkAppError "No user found with that ID" NOT_FOUND)) in
      match patch_items b with
      | [] =>
          if existsb hit (db w) then
            if role_refused (b_role b) then
              (w, next_err (Thrown (Error "invalid input value for enum")))
            else if email_refused (params_id req) (b_email b) (db w) then
              (w, next_err (Thrown (SequelizeUniqueConstraintError
                                      "Email already in use")))
            else
              (with_db (map (fun r => if hit r then patch_row b r else r)
                          (db w)) w,
               not_found)
          else (w, not_found)
      | items => (w, next_err (Thrown (ValidationError items)))
      end
  | _ =>
      (w, next_err (Thrown (TypeError
         "Cannot convert undefined or null to object")))
  end.

(** [user.destroy()] on a paranoid model and [user.restore()]. *)
Definition set_deletedAt (pk : string) (v : option Z) (table : list UserRow)
  : list UserRow :=
  map (fun r =>
         if String.eqb (col_id r) pk then
           mkRow (col_id r) (col_firstName r) (col_lastName r) (col_email r)
             (col_password r) (col_role r) (col_isActive r) (col_lastLogin r)
             (col_passwordChangedAt r) (col_passwordResetToken r)
             (col_passwordResetExpires r) v
         else r)
    table.

(** [exports.deleteUser]. *)
Definition deleteUser (env : Env) (w : World) (req : Request)
  : World * Outcome :=
  match findByPk (params_id req) (db w) with
  | val u =>
      (with_db (set_deletedAt (id u) (Some (now env)) (db w)) w,
       json NO_CONTENT body_null)
  | _ =>
      (w, next_err (App (mkAppError "No user found with that ID" NOT_FOUND)))
  end.

(** [exports.deactivateUser]. *)
Definition deactivateUser (env : Env) (w : World) (req : Request)
  : World * Outcome :=
  match findByPk (params_id req) (db w) with
  | val u =>
      match save env (set_isActive false u) (db w) with
      | (inr u', table) =>
          (with_db table w,
           json OK (body_message_user "User deactivated successfully" u'))
      | (inl x, _) => (w, next_err (Thrown x))
      end
  | _ =>
      (w, next_err (App (mkAppError "No user found with that ID" NOT_FOUND)))
  end.

(** [exports.reactivateUser]. *)
Definition reactivateUser (env : Env) (w : World) (req : Request)
  : World * Outcome :=
  match findByPk_paranoid_false (params_id req) (db w) with
  | val u =>
      let '(u0, table0) :=
        if truthy_obj (deletedAt u)
        then (restored u, set_deletedAt (id u) None (db w))
        else (u, db w) in
      match save env (set_isActive true u0) table0 with
      | (inr u', table) =>
          (with_db table w,
           json OK (body_message_user "User reactivated successfully" u'))
      | (inl x, _) => (w, next_err (Thrown x))
      end
  | _ =>
      (w, next_err (App (mkAppError "No user found with that ID" NOT_FOUND)))
  end.


(* ------------------------------------------------------------------ *)
(** ** Validation middleware (middleware/validation.middleware.js)     *)
(* ------------------------------------------------------------------ *)

(** [validate(validations)]: run the chains, which sanitize [req.body]
    in place, and stop with a 422 when the result holds an error. *)
Definition validate (rules : Validation) (req : Request) : Request * Outcome :=
  let '(b, errs) := run_validations rules req in
  let req' :=
    with_validation (validation_errors req ++ errs) (with_body b req) in
  match validation_errors req' with
  | [] => (req', next)
  | _ :: _ =>
      (req', next_err (App (mkAppError "Validation failed"
                              UNPROCESSABLE_ENTITY)))
  end.

(* ------------------------------------------------------------------ *)
(** ** The application (app.js and the routers)                        *)
(* ------------------------------------------------------------------ *)

(** The route Express matches the method and the path of a request to. *)
Inductive Route : Type :=
| GET_health
| POST_register | POST_login | POST_forgot_password | PATCH_reset_password
| GET_me | PATCH_update_me | PATCH_update_password | auth_other
| GET_users | POST_users | GET_user | PATCH_user | DELETE_user
| PATCH_deactivate | PATCH_reactivate | users_other
| unmatched.

(** A request as it arrives: nothing has been parsed or attached yet. *)
Record Incoming : Type := mkIncoming {
  in_route : Route;
  in_method : string;
  in_originalUrl : string;
  in_protocol : string;
  in_host : string;
  in_ip : string;
  in_query : string;
  in_authorization : js string;
  in_cookie_jwt : js string;
  in_params_token : string;
  in_params_id : string;
  in_payload : Payload
}.

Definition receive (i : Incoming) : Request :=
  mkRequest (in_method i) (in_originalUrl i) (in_protocol i) (in_host i)
    (in_ip i) (in_query i) (in_authorization i) (in_cookie_jwt i)
    (in_params_token i) (in_params_id i) (in_payload i)
    undefined [] undefined.

(** The request logger of app.js.  It is registered before the body
    parsers, so it runs while [req.body] is still [undefined]. *)
Definition request_logger (w : World) (req : Request) : World :=
  add_log
    (log_request (method req) (originalUrl req)
       (mkMeta (query req) (body req) (ip req)))
    w.

(** [express.json()]: [req.body] becomes the parsed payload; a payload
    that is refused goes to the error handler as body-parser's error. *)
Definition express_json (req : Request) : Err + Request :=
  match payload req with
  | json_body b => inr (with_body (val b) req)
  | refused _ status message => inl (BodyParserError status message)
  end.

(** The global error handler: [err.status || 500]. *)
Definition error_status (err : Err) : Z :=
  match err_status err with
  | val st => if st =? 0 then INTERNAL_SERVER_ERROR else st
  | _ => INTERNAL_SERVER_ERROR
  end.

Definition errorHandler (w : World) (err : Err) (req : Request)
  : World * Outcome :=
  let statusCode := error_status err in
  let message :=
    if String.eqb (err_message err) "" then "Internal Server Error"
    else err_message err in
  (add_log
     (log_failure statusCode (err_message err) (originalUrl req) (method req)
        (ip req))
     w,
   json statusCode (body_error statusCode message)).

(** A middleware followed by the rest of the chain. *)
Definition guarded (w : World) (step : Request * Outcome)
    (k : Request -> World * Outcome) : World * Outcome :=
  match step with
  | (req', next) => k req'
  | (_, out) => (w, out)
  end.

(** [router.use(protect)], dropping [res.locals]. *)
Definition protect_step (env : Env) (w : World) (req : Request)
  : Request * Outcome :=
  let '(req', _, out) := protect env (db w) req (mkLocals undefined) in
  (req', out).

(** [router.use(protect); router.use(restrictTo('admin'))]. *)
Definition admin_only (env : Env) (w : World) (req : Request)
    (k : Request -> World * Outcome) : World * Outcome :=
  guarded w (protect_step env w req)
    (fun req1 => guarded w (req1, restrictTo ["admin"] req1) k).

(** routes/index.js, routes/auth.routes.js and routes/user.routes.js. *)
Definition router (sc : Scope) (env : Env) (w : World) (r : Route)
    (req : Request) : World * Outcome :=
  match r with
  | GET_health =>
      (w, json OK (body_message "success" "User Management Service is running"))
  | POST_register =>
      guarded w (validate v_register req) (register env w)
  | POST_login =>
      guarded w (validate v_login req) (login env w)
  | POST_forgot_password =>
      guarded w (validate v_forgotPassword req) (forgotPassword env w)
  | PATCH_reset_password =>
      guarded w (validate v_resetPassword req) (resetPassword sc env w)
  | GET_me =>
      guarded w (protect_step env w req) (getMe w)
  | PATCH_update_me =>
      guarded w (protect_step env w req) (updateMe env w)
  | PATCH_update_password =>
      guarded w (protect_step env w req)
        (fun req1 =>
           guarded w (validate v_updatePassword req1) (updatePassword env w))
  | auth_other =>
      guarded w (protect_step env w req) (fun _ => (w, next))
  | GET_users =>
      admin_only env w req (fun _ => getAllUsers w)
  | POST_users =>
      admin_only env w req
        (fun req1 => guarded w (validate v_createUser req1) (createUser env w))
  | GET_user =>
      admin_only env w req
        (fun req1 => guarded w (validate v_idParam req1) (getUser w))
  | PATCH_user =>
      admin_only env w req
        (fun req1 =>
           guarded w (validate v_idParam req1)
             (fun req2 =>
                guarded w (validate v_updateUser req2) (updateUser w)))
  | DELETE_user =>
      admin_only env w req
        (fun req1 => guarded w (validate v_idParam req1) (deleteUser env w))
  | PATCH_deactivate =>
      admin_only env w req
        (fun req1 => guarded w (validate v_idParam req1) (deactivateUser env w))
  | PATCH_reactivate =>
      admin_only env w req
        (fun req1 => guarded w (validate v_idParam req1) (reactivateUser env w))
  | users_other =>
      admin_only env w req (fun _ => (w, next))
  | unmatched => (w, next)
  end.

(** app.js: the request logger, the body parser, the routers, then the
    404 handler or the global error handler. *)
Definition app (sc : Scope) (env : Env) (w : World) (i : Incoming)
  : World * Outcome :=
  let req0 := receive i in
  let w1 := request_logger w req0 in
  match express_json req0 with
  | inl e => errorHandler w1 e req0
  | inr req =>
      match router sc env w1 (in_route i) req with
      | (w2, next) =>
          (w2, json NOT_FOUND (body_error NOT_FOUND "Route not found"))
      | (w2, next_err e) => errorHandler w2 e req
      | (w2, throws x) => errorHandler w2 (Thrown x) req
      | (w2, json st b) => (w2, json st b)
      end
  end.

(** The status of the response a handler's outcome leads to. *)
Definition http_status (o : Outcome) : Z :=
  match o with
  | json st _ => st
  | next_err e => error_status e
  | throws _ => INTERNAL_SERVER_ERROR
  | next => NOT_FOUND
  end.

(* ------------------------------------------------------------------ *)
(** ** What may reach the log and the password column                  *)
(* ------------------------------------------------------------------ *)

(** The items a validation of the model can report. *)
Definition violation_items : list string :=
  [ notNull_Violation "firstName";
    notNull_Violation "lastName";
    notNull_Violation "email";
    notNull_Violation "password";
    notNull_Violation "role";
    notNull_Violation "isActive";
    string_violation "password";
    Validation_error "First name is required";
    Validation_error "First name must be between 2 and 50 characters";
    Validation_error "Last name is required";
    Validation_error "Last name must be between 2 and 50 characters";
    Validation_error "Please provide a valid email address";
    Validation_error "Email is required";
    Validation_error "Validation isLowercase on email failed";
    Validation_error "Password is required";
    Validation_error "Password must be between 8 and 128 characters" ].

(** The messages of bcryptjs for arguments of the wrong type. *)
Definition js_types : list string :=
  ["undefined"; "object"; "string"; "number"; "boolean"].

Definition illegal_arguments : list string :=
  flat_map
    (fun a => map (fun b => "Illegal arguments: " ++ a ++ ", " ++ b) js_types)
    js_types.

(** The messages of the errors the service builds and of the exceptions
    its runtime and libraries raise. *)
Definition fixed_messages : list string :=
  ([ "You are not logged in! Please log in to get access.";
     "The user belonging to this token no longer exists.";
     "User recently changed password! Please log in again.";
     "Invalid token or session expired. Please log in again.";
     "You do not have permission to perform this action";
     "Cannot read properties of undefined (reading 'role')";
     "Validation failed";
     "Email already in use";
     "Please provide email and password";
     "Incorrect email or password";
     "Your account has been deactivated";
     "There is no user with that email address.";
     "There was an error sending the email. Try again later!";
     "Token is invalid or has expired";
     "Your current password is wrong.";
     "This route is not for password updates. Please use /update-password.";
     "No user found with that ID";
     "crypto is not defined";
     "crypto.createHash is not a function";
     "Op is not defined";
     undefined_in_where;
     "invalid input value for enum";
     "Cannot read properties of null (reading 'toLowerCase')";
     "Cannot destructure property 'firstName' of 'req.body'";
     "Cannot destructure property 'email' of 'req.body'";
     "email.toLowerCase is not a function";
     "Cannot read properties of undefined (reading 'email')";
     "Cannot read properties of undefined (reading 'password')";
     "Cannot read properties of undefined (reading 'currentPassword')";
     "Cannot read properties of undefined (reading 'id')";
     "Cannot read properties of null (reading 'correctPassword')";
     "Cannot read properties of null (reading 'update')";
     "Cannot convert undefined or null to object" ]
   ++ illegal_arguments)%list.

(** A message that is a constant of the program, or the items of a
    validation of the model joined: no part of it is taken from a
    request. *)
Definition message_is_fixed (msg : string) : Prop :=
  In msg fixed_messages
  \/ exists items, Forall (fun it => In it violation_items) items
                   /\ msg = String.concat ("," ++ LF) items.

(** The lines the mailer writes: the address of an account of the
    table, or the fixed failure line. *)
Definition mail_log_entry (table : list UserRow) (e : LogEntry) : Prop :=
  match e with
  | log_email_sent to => exists r, In r table /\ to = col_email r
  | log_email_error msg => msg = "Error sending email:"
  | _ => False
  end.

(** The lines that handling the request [i] may add to the log: the
    request line, made of the method, the URL, the query string and the
    address of the client, with [undefined] for the body; a failure line
    with a fixed message; the lines of the mailer. *)
Definition logged_for (i : Incoming) (table : list UserRow) (e : LogEntry)
  : Prop :=
  match e with
  | log_request m u meta =>
      m = in_method i /\ u = in_originalUrl i
      /\ meta = mkMeta (in_query i) undefined (in_ip i)
  | log_failure st msg u m a =>
      message_is_fixed msg /\ u = in_originalUrl i /\ m = in_method i
      /\ a = in_ip i
  | _ => mail_log_entry table e
  end.

(** Every password column of [new] is one [old] holds already or a
    bcrypt hash made with this request's salt. *)
Definition only_hashes_stored (env : Env) (old new : list UserRow) : Prop :=
  forall r, In r new ->
    In (col_password r) (map col_password old)
    \/ exists p, col_password r = bcrypt_hash (salt env) p.

(** An error or an exception handed to Express has a fixed message. *)
Definition outcome_fixed (out : Outcome) : Prop :=
  match out with
  | next_err e => message_is_fixed (err_message e)
  | throws x => message_is_fixed (exn_message x)
  | _ => True
  end.

(** What every handler maintains: it adds only mailer lines to the log,
    it stores only hashes, and the error it hands on has a fixed
    message. *)
Definition handler_ok (env : Env) (w : World) (res : World * Outcome) : Prop :=
  (exists entries, log (fst res) = (log w ++ entries)%list
                   /\ Forall (mail_log_entry (db w)) entries)
  /\ only_hashes_stored env (db w) (db (fst res))
  /\ outcome_fixed (snd res).

End Service.

(* ------------------------------------------------------------------ *)
(** ** A concrete instance of the libraries and sample data            *)
(* ------------------------------------------------------------------ *)

Module Sample.

(** Stand-ins for the libraries: a transparent "hash", a token that
    spells out its payload, a validator that accepts every request. *)
Definition hash (s p : string) : string := "$2a$12$" ++ s ++ "$" ++ p.

Definition compare (p h : string) : bool := String.eqb h (hash "c2FsdA" p).

Definition sha (s : string) : string := "sha256:" ++ s.

Definition sign (uid : string) (iat : Z) : string :=
  uid ++ "." ++ NilZero.string_of_uint (N.to_uint (Z.to_N iat)).

Definition verify (t : Z) (token : string) : option Decoded :=
  match split "." token with
  | [uid; n] =>
      match NilZero.uint_of_string n with
      | Some u => Some (mkDecoded uid (Z.of_N (N.of_uint u)))
      | None => None
      end
  | _ => None
  end.

Definition has_at (s : string) : bool :=
  match String.index 0 "@" s with
  | Some _ => true
  | None => false
  end.

Definition libraries : Libraries :=
  mkLibraries hash compare sha sign verify has_at
    (fun _ req => (body req, [])).

(** Two accounts: alice is active and changed her password at
    1000700 ms; bob has been deactivated. *)
Definition alice : UserRow :=
  mkRow "id-alice" "Alice" "Archer" "alice@x.com" (hash "c2FsdA" "Abc12345!")
    "user" true None (Some 1000700) None None None.

Definition bob : UserRow :=
  mkRow "id-bob" "Bob" "Baker" "bob@x.com" (hash "c2FsdA" "Xyz98765?")
    "user" false None None None None None.

Definition table : list UserRow := [alice; bob].

Definition world : World := mkWorld table [] [].

Definition env : Env := mkEnv 2000000 "c2FsdA" "5eed" "id-new" true 2000400.

Definition env_smtp_down : Env :=
  mkEnv 2000000 "c2FsdA" "5eed" "id-new" false 2000400.

Definition no_body : Body :=
  mkBody undefined undefined undefined undefined undefined undefined
    undefined undefined undefined.

(** A body with an email and a password. *)
Definition credentials (e p : string) : Body :=
  mkBody undefined undefined (val e) (val (jstring p)) undefined undefined
    undefined undefined undefined.

(** A registration body. *)
Definition registration (e p : string) (r : js string) : Body :=
  mkBody (val "Carol") (val "Cooper") (val e) (val (jstring p))
    (val (jstring p)) r undefined undefined undefined.

(** A parsed request with the given header, cookie and body. *)
Definition request (auth cookie : js string) (b : Body) : Request :=
  mkRequest "POST" "/api/auth" "http" "localhost:3000" "127.0.0.1" ""
    auth cookie "" "" (json_body b) (val b) [] undefined.

(** The token [signToken] issues alice at 1000200 ms: its [iat] is
    the second 1000, half a second before her password change. *)
Definition early_token : string :=
  signToken (lib := libraries)
    (mkEnv 1000100 "c2FsdA" "5eed" "id-new" true 1000200) "id-alice".

(** A token issued alice at 1500000 ms, after her password change. *)
Definition fresh_token : string :=
  signToken (lib := libraries)
    (mkEnv 1500000 "c2FsdA" "5eed" "id-new" true 1500000) "id-alice".

(** Requests that carry a token in the header or in the cookie. *)
Definition bearer (token : string) : Request :=
  request (val ("Bearer " ++ token)) undefined no_body.

Definition cookie (token : string) : Request :=
  request undefined (val token) no_body.

(** alice as [protect] attaches her to a request. *)
Definition alice_user : User := load_default alice.

Definition no_locals : Locals := mkLocals undefined.

End Sample.

(* ------------------------------------------------------------------ *)
(** ** Views of routes and responses                                   *)
(* ------------------------------------------------------------------ *)

(** The accounts a response body carries. *)
Definition response_users (o : Outcome) : list User :=
  match o with
  | json _ (body_token _ u) => [u]
  | json _ (body_user (val u)) => [u]
  | json _ (body_users _ us) => us
  | json _ (body_message_user _ u) => [u]
  | _ => []
  end.



(** The public routes that run a validation chain first, with the chain
    they run. *)
Definition public_validation (r : Route) : option Validation :=
  match r with
  | POST_register => Some v_register
  | POST_login => Some v_login
  | POST_forgot_password => Some v_forgotPassword
  | PATCH_reset_password => Some v_resetPassword
  | _ => None
  end.

(** No account in the response body carries a password. *)
Definition scrubbed (o : Outcome) : Prop :=
  Forall (fun u => password u = undefined) (response_users o).

Section Views.

Context {lib : Libraries}.

(** The instance [updatePassword] saves, after the [beforeUpdate] hook. *)
Definition rehashed (env : Env) (row : UserRow) (p : string) : User :=
  set_passwordChangedAt (val (now env))
    (set_password (val (jstring (bcrypt_hash (salt env) p)))
       (set_password (val (jstring p)) (load_withPassword row))).

End Views.

(* ------------------------------------------------------------------ *)
(** ** Further sample data                                             *)
(* ------------------------------------------------------------------ *)

Module Scenario.

(** The libraries of [Sample], with a validator that reports a request
    whose body has no email. *)
Definition strict : Libraries :=
  mkLibraries Sample.hash Sample.compare Sample.sha Sample.sign Sample.verify
    Sample.has_at
    (fun _ req =>
       (body req,
        match body req with
        | val b =>
            match b_email b with
            | val _ => []
            | _ => [mkFieldError "email" "Email is required"]
            end
        | _ => [mkFieldError "email" "Email is required"]
        end)).

(** A parsed request about the account [pk], as the users router hands
    it to a controller. *)
Definition about (pk : string) (b : Body) : Request :=
  mkRequest "PATCH" "/api/users" "http" "localhost:3000" "127.0.0.1" ""
    undefined undefined "" pk (json_body b) (val b) [] undefined.

(** The world once the admin has deleted alice's account: her row is
    kept, with [deletedAt] set. *)
Definition alice_deleted : World :=
  fst (deleteUser Sample.env Sample.world (about "id-alice" Sample.no_body)).

(** A body of [PATCH /update-password]. *)
Definition change_password (c p : string) : Body :=
  mkBody undefined undefined undefined undefined undefined undefined
    (val (jstring c)) (val (jstring p)) undefined.

(** A parsed request of alice, past [protect]. *)
Definition as_alice (b : Body) : Request :=
  with_user (val Sample.alice_user) (Sample.request undefined undefined b).

(** Credentials whose password is the number 12345678. *)
Definition numeric_credentials (e : string) : Body :=
  mkBody undefined undefined (val e) (val (jnumber "12345678")) undefined
    undefined undefined undefined undefined.

(** A login whose payload is no JSON: the password is not quoted.  The
    message is the one V8 gives for a text this short, which it quotes
    whole. *)
Definition raw_login : string :=
  "{" ++ dquote ++ "password" ++ dquote ++ ":hunter2}".

Definition parse_message : string :=
  "Unexpected token 'h', " ++ dquote ++ raw_login ++ dquote
  ++ " is not valid JSON".

Definition malformed_login : Incoming :=
  mkIncoming POST_login "POST" "/api/auth/login" "http" "localhost:3000"
    "127.0.0.1" "" undefined undefined "" ""
    (refused raw_login 400 parse_message).

(** A body that gives a new first name. *)
Definition new_first_name (fn : string) : Body :=
  mkBody (val fn) undefined undefined undefined undefined undefined
    undefined undefined undefined.

(** A password of 135 characters. *)
Definition long_password : string :=
  String.concat "" (repeat "Abc12345!" 15).

(** A request as it arrives on the route [r]. *)
Definition arrival (r : Route) (auth : js string) (b : Body) : Incoming :=
  mkIncoming r "GET" "/api" "http" "localhost:3000" "127.0.0.1" "" auth
    undefined "" "" (json_body b).

(** carol's registration and her login. *)
Definition carol_registers (e : string) : Request :=
  Sample.request undefined undefined
    (Sample.registration e "Pass1234!" undefined).

Definition carol_logs_in : Request :=
  Sample.request undefined undefined
    (Sample.credentials "carol@x.com" "Pass1234!").

(** alice's login, and her row once [forgotPassword] has run at
    [Sample.env]. *)
Definition alice_logs_in (e : string) : Request :=
  Sample.request undefined undefined (Sample.credentials e "Abc12345!").

Definition alice_awaiting_reset : UserRow :=
  mkRow "id-alice" "Alice" "Archer" "alice@x.com"
    (Sample.hash "c2FsdA" "Abc12345!") "user" true None (Some 1000700)
    (Some (Sample.sha "5eed")) (Some 2600000) None.

End Scenario.

(* ------------------------------------------------------------------ *)
(** ** Properties                                                      *)
(* ------------------------------------------------------------------ *)

Section Properties.

Context {lib : Libraries}.

Import StatusCodes.

(** *** The staleness check *)

(** For a time at or after the epoch, [parseInt(t / 1000, 10)] is the
    floor of [t / 1000]. *)
Lemma parseInt_div1000_floor (t : Z) : 0 <= t -> parseInt_div1000 t = t / 1000.
Proof.
  intros Ht. unfold parseInt_div1000. apply Z.quot_div_nonneg; lia.
Qed.

Lemma changedPasswordAfter_spec (u : User) (t iat : Z) :
  passwordChangedAt u = val t ->
  0 <= t ->
  changedPasswordAfter u iat = (iat <? t / 1000).
Proof.
  intros Hu Ht. unfold changedPasswordAfter. rewrite Hu.
  now rewrite parseInt_div1000_floor.
Qed.

Lemma changedPasswordAfter_never (u : User) (iat : Z) :
  passwordChangedAt u = null \/ passwordChangedAt u = undefined ->
  changedPasswordAfter u iat = false.
Proof.
  unfold changedPasswordAfter. now intros [-> | ->].
Qed.

(** What [protect] does once a token has been extracted and verified and
    its account loaded: only the staleness check is left. *)
Lemma protect_loaded (env : Env) (table : list UserRow) (req : Request)
    (locals : Locals) (token : string) (decoded : Decoded) (row : UserRow) :
  protect_token req = val token ->
  token <> "" ->
  jwt_verify (now env) token = Some decoded ->
  findOne_row (fun r => String.eqb (col_id r) (d_id decoded)) table = Some row ->
  protect env table req locals =
    if changedPasswordAfter (load_default row) (d_iat decoded) then
      (req, locals, next_err (App (mkAppError
         "User recently changed password! Please log in again." UNAUTHORIZED)))
    else
      (with_user (val (load_default row)) req,
       mkLocals (val (load_default row)), next).
Proof.
  intros Htok Hne Hver Hrow. unfold protect. rewrite Htok.
  apply String.eqb_neq in Hne. rewrite Hne, Hver.
  unfold findByPk, findOne. now rewrite Hrow.
Qed.

(** C10.  The staleness check compares the token's issued-at second with
    the password change truncated to whole seconds: for a change at [t]
    milliseconds the check is [iat < floor (t / 1000)].  So a verified
    token of an existing account whose issued-at second is the second of
    the password change passes the check and is honoured by [protect]. *)
Theorem same_second_token_is_honoured (env : Env) (table : list UserRow)
    (req : Request) (locals : Locals) (token : string) (decoded : Decoded)
    (row : UserRow) (t : Z) :
  0 <= t ->
  col_passwordChangedAt row = Some t ->
  protect_token req = val token ->
  token <> "" ->
  jwt_verify (now env) token = Some decoded ->
  findOne_row (fun r => String.eqb (col_id r) (d_id decoded)) table = Some row ->
  (forall iat, changedPasswordAfter (load_default row) iat = (iat <? t / 1000))
  /\ (d_iat decoded = t / 1000 ->
      changedPasswordAfter (load_default row) (d_iat decoded) = false
      /\ protect env table req locals =
           (with_user (val (load_default row)) req,
            mkLocals (val (load_default row)), next)).
Proof.
  intros Ht Hc Htok Hne Hver Hrow.
  assert (Hspec : forall iat,
             changedPasswordAfter (load_default row) iat = (iat <? t / 1000)).
  { intros iat. apply changedPasswordAfter_spec; [| exact Ht].
    cbn. now rewrite Hc. }
  split; [exact Hspec |].
  intros Hiat.
  assert (Hfresh : changedPasswordAfter (load_default row) (d_iat decoded)
                   = false).
  { rewrite Hspec, Hiat. apply Z.ltb_irrefl. }
  split; [exact Hfresh |].
  rewrite (protect_loaded env table req locals token decoded row)
    by assumption.
  now rewrite Hfresh.
Qed.

(** What [protect] does once a token has been extracted and verified
    and no visible row has its id. *)
Lemma protect_no_account (env : Env) (table : list UserRow) (req : Request)
    (locals : Locals) (token : string) (decoded : Decoded) :
  protect_token req = val token ->
  token <> "" ->
  jwt_verify (now env) token = Some decoded ->
  findOne_row (fun r => String.eqb (col_id r) (d_id decoded)) table = None ->
  protect env table req locals =
    (req, locals, next_err (App (mkAppError
       "The user belonging to this token no longer exists." UNAUTHORIZED))).
Proof.
  intros Htok Hne Hver Hrow. unfold protect. rewrite Htok.
  apply String.eqb_neq in Hne. rewrite Hne, Hver.
  unfold findByPk, findOne. now rewrite Hrow.
Qed.

(** Where the id is the primary key, a lookup by id finds the row with
    the id when it is visible and nothing otherwise. *)
Lemma findOne_row_primary_key (table : list UserRow) (row : UserRow) :
  In row table ->
  (forall r, In r table -> col_id r = col_id row -> r = row) ->
  findOne_row (fun r => String.eqb (col_id r) (col_id row)) table =
    if visible row then Some row else None.
Proof.
  intros Hin Hpk. unfold findOne_row.
  destruct (find (fun r => visible r && String.eqb (col_id r) (col_id row))
              table) as [r |] eqn:E.
  - apply find_some in E. destruct E as [Hr Hc].
    apply andb_true_iff in Hc. destruct Hc as [Hv Hid].
    apply String.eqb_eq in Hid. rewrite (Hpk r Hr Hid) in *.
    now rewrite Hv.
  - pose proof (find_none _ _ E row Hin) as H. cbn in H.
    rewrite String.eqb_refl, andb_true_r in H. now rewrite H.
Qed.

(** C4, as amended.  For a verified token and the account of the table
    that has its id (the id is the primary key): [protect] honours the
    token only if the account is not soft-deleted and the token's
    issued-at second is not earlier than the password change truncated
    to whole seconds; and a token whose issued-at second is earlier than
    that is always rejected with a 401 error, the one of a stale session
    when the account is live (a soft-deleted account is refused at the
    lookup already). *)
Theorem protect_staleness (env : Env) (table : list UserRow) (req : Request)
    (locals : Locals) (token : string) (decoded : Decoded) (row : UserRow) :
  protect_token req = val token ->
  token <> "" ->
  jwt_verify (now env) token = Some decoded ->
  In row table ->
  col_id row = d_id decoded ->
  (forall r, In r table -> col_id r = col_id row -> r = row) ->
  (snd (protect env table req locals) = next ->
   col_deletedAt row = None
   /\ forall t, col_passwordChangedAt row = Some t ->
        Z.quot t 1000 <= d_iat decoded)
  /\ (forall t, col_passwordChangedAt row = Some t ->
        d_iat decoded < Z.quot t 1000 ->
        exists msg,
          protect env table req locals =
            (req, locals, next_err (App (mkAppError msg UNAUTHORIZED)))
          /\ http_status (snd (protect env table req locals)) = 401
          /\ (col_deletedAt row = None ->
              msg = "User recently changed password! Please log in again.")).
Proof.
  intros Htok Hne Hver Hin Hid Hpk.
  pose proof (findOne_row_primary_key table row Hin Hpk) as Hfind.
  rewrite Hid in Hfind. unfold visible in Hfind.
  destruct (col_deletedAt row) as [d |] eqn:Hdel.
  - rewrite (protect_no_account env table req locals token decoded)
      by assumption.
    cbn [snd]. split; [discriminate |].
    intros t Hc Hlt. eexists. split; [reflexivity |].
    split; [reflexivity | discriminate].
  - rewrite (protect_loaded env table req locals token decoded row)
      by assumption.
    unfold changedPasswordAfter, parseInt_div1000. cbn [load_default
      passwordChangedAt].
    destruct (col_passwordChangedAt row) as [t |]; cbn [of_column].
    + destruct (d_iat decoded <? Z.quot t 1000) eqn:E; cbn [snd].
      * split; [discriminate |]. intros t' [= <-] _.
        eexists. split; [reflexivity |]. split; reflexivity.
      * apply Z.ltb_ge in E. split.
        -- intros _. split; [reflexivity |]. now intros t' [= <-].
        -- intros t' [= <-] Hlt. lia.
    + split; [| discriminate]. intros _. split; [reflexivity | discriminate].
Qed.

(** *** Role restriction *)

(** C8.  With a user attached whose role is not among the allowed ones,
    [restrictTo] hands a 403 error to Express; with no user attached it
    does not call [next()] either: reading [req.user.role] throws, and
    the request ends in the error handler. *)
Theorem restrictTo_fails_closed (roles : list string) (req : Request) :
  (forall u, user req = val u -> includes roles (role u) = false ->
     restrictTo roles req =
       next_err (App (mkAppError
         "You do not have permission to perform this action" FORBIDDEN))
     /\ http_status (restrictTo roles req) = 403)
  /\ (user req = undefined \/ user req = null ->
      restrictTo roles req <> next
      /\ (exists x, restrictTo roles req = throws x)
      /\ http_status (restrictTo roles req) = 500).
Proof.
  split.
  - intros u Hu Hrole. unfold restrictTo. rewrite Hu, Hrole. now cbn.
  - intros Hnone. unfold restrictTo.
    destruct Hnone as [-> | ->]; (split; [discriminate |]);
      (split; [eexists; reflexivity | reflexivity]).
Qed.

(** [restrictTo] lets a request through only when a user is attached and
    its role is allowed. *)
Lemma restrictTo_next (roles : list string) (req : Request) :
  restrictTo roles req = next ->
  exists u, user req = val u /\ includes roles (role u) = true.
Proof.
  unfold restrictTo. destruct (user req) as [| | u]; try discriminate.
  destruct (includes roles (role u)) eqn:Hin; try discriminate.
  intros _. now exists u.
Qed.

(** *** The lenient gate *)

(** [isLoggedIn] never aborts a request. *)
Lemma isLoggedIn_next (env : Env) (table : list UserRow) (req : Request)
    (locals : Locals) :
  snd (isLoggedIn env table req locals) = next.
Proof.
  unfold isLoggedIn.
  destruct (truthy (cookies_jwt req)); [| reflexivity].
  destruct (cookies_jwt req) as [| | token]; try reflexivity.
  destruct (jwt_verify (now env) token) as [decoded |]; [| reflexivity].
  destruct (findByPk (d_id decoded) table) as [| | u]; try reflexivity.
  now destruct (changedPasswordAfter u (d_iat decoded)).
Qed.

(** [isLoggedIn] looks at the request through its [jwt] cookie only. *)
Lemma isLoggedIn_cookie_only (env : Env) (table : list UserRow)
    (req req' : Request) (locals : Locals) :
  cookies_jwt req' = cookies_jwt req ->
  isLoggedIn env table req' locals = isLoggedIn env table req locals.
Proof.
  intros H. unfold isLoggedIn. now rewrite H.
Qed.

(** C9, as amended.  [isLoggedIn] reads its token from the [jwt] cookie
    only, whatever the Authorization header holds, and always continues
    with [next()].  On a request without a Bearer header, where [protect]
    falls back to the cookie as well, the two agree: when [protect]
    authenticates, [isLoggedIn] attaches the same account to
    [res.locals]; when [protect] rejects, [isLoggedIn] leaves
    [res.locals] as it was. *)
Theorem isLoggedIn_agrees_on_cookie (env : Env) (table : list UserRow)
    (req : Request) (locals : Locals) :
  (forall req', cookies_jwt req' = cookies_jwt req ->
     isLoggedIn env table req' locals = isLoggedIn env table req locals)
  /\ snd (isLoggedIn env table req locals) = next
  /\ (has_bearer req = false ->
      match protect env table req locals with
      | (_, locals', next) => fst (isLoggedIn env table req locals) = locals'
      | (_, _, _) => fst (isLoggedIn env table req locals) = locals
      end).
Proof.
  split; [intros req' H; now apply isLoggedIn_cookie_only |].
  split; [apply isLoggedIn_next |].
  intros Hb.
  unfold protect, protect_token, isLoggedIn. rewrite Hb.
  destruct (truthy (cookies_jwt req)) eqn:Htr; [| reflexivity].
  destruct (cookies_jwt req) as [| | token]; try discriminate.
  cbn in Htr. apply negb_true_iff in Htr. rewrite Htr.
  destruct (jwt_verify (now env) token) as [decoded |]; [| reflexivity].
  destruct (findByPk (d_id decoded) table) as [| | u]; try reflexivity.
  now destruct (changedPasswordAfter u (d_iat decoded)).
Qed.

(** *** Login *)

Lemma truthy_val (x : string) : x <> "" -> truthy (val x) = true.
Proof.
  intros H. cbn. apply String.eqb_neq in H. now rewrite H.
Qed.

Lemma truthy_json_val (x : string) :
  x <> "" -> truthy_json (val (jstring x)) = true.
Proof.
  intros H. cbn. apply String.eqb_neq in H. now rewrite H.
Qed.

(** With a string for the password, a login with an unknown email and a
    login with a known email and a wrong password hand Express the same
    error: the same kind, the same message and the same status 401, and
    neither changes the world. *)
Lemma login_string_password_same_error (env : Env) (w : World)
    (req1 req2 : Request) (b1 b2 : Body) (e1 p1 e2 p2 : string)
    (row : UserRow) :
  body req1 = val b1 -> b_email b1 = val e1 ->
  b_password b1 = val (jstring p1) ->
  e1 <> "" -> p1 <> "" ->
  body req2 = val b2 -> b_email b2 = val e2 ->
  b_password b2 = val (jstring p2) ->
  e2 <> "" -> p2 <> "" ->
  findOne_row (fun r => String.eqb (col_email r) (toLowerCase e1)) (db w)
    = None ->
  findOne_row (fun r => String.eqb (col_email r) (toLowerCase e2)) (db w)
    = Some row ->
  bcrypt_compare p2 (col_password row) = false ->
  login env w req1 =
    (w, next_err (App (mkAppError "Incorrect email or password" UNAUTHORIZED)))
  /\ login env w req2 = login env w req1
  /\ http_status (snd (login env w req1)) = 401.
Proof.
  intros Hb1 He1 Hp1 Hne1 Hnp1 Hb2 He2 Hp2 Hne2 Hnp2 Hnone Hsome Hcmp.
  assert (H1 : login env w req1 =
    (w, next_err (App (mkAppError "Incorrect email or password"
                         UNAUTHORIZED)))).
  { unfold login.
    rewrite Hb1, He1, Hp1, truthy_val, truthy_json_val by assumption. cbn.
    unfold findOne_withPassword. now rewrite Hnone. }
  split; [exact H1 |]. split; [| now rewrite H1].
  rewrite H1. unfold login.
  rewrite Hb2, He2, Hp2, truthy_val, truthy_json_val by assumption. cbn.
  unfold findOne_withPassword. rewrite Hsome. cbn. now rewrite Hcmp.
Qed.

(** C5.  The login does give one error for an unknown email and for a
    wrong password as long as the password is a string, but a password
    of another JSON type that is truthy (a number, [true], an array, an
    object) passes the check for presence and tells the two apart: for
    an unknown email the answer is the 401 "Incorrect email or
    password"; for the email of an account [bcrypt.compare] throws, and
    the answer is a 500 with the message of bcryptjs.  Neither changes
    the world. *)
Theorem login_password_type_reveals_account (env : Env) (w : World)
    (req : Request) (b : Body) (e : string) (v : Json) :
  body req = val b -> b_email b = val e -> e <> "" ->
  b_password b = val v ->
  truthy_json (val v) = true ->
  (forall p, v <> jstring p) ->
  (findOne_row (fun r => String.eqb (col_email r) (toLowerCase e)) (db w)
     = None ->
   login env w req =
     (w, next_err (App (mkAppError "Incorrect email or password"
                          UNAUTHORIZED)))
   /\ http_status (snd (login env w req)) = 401)
  /\ (forall row,
        findOne_row (fun r => String.eqb (col_email r) (toLowerCase e)) (db w)
          = Some row ->
        login env w req =
          (w, next_err (Thrown (Error
             ("Illegal arguments: " ++ typeof_json (val v) ++ ", string"))))
        /\ http_status (snd (login env w req)) = 500).
Proof.
  intros Hb He Hne Hp Htr Hns.
  split.
  - intros Hnone.
    assert (H : login env w req =
      (w, next_err (App (mkAppError "Incorrect email or password"
                           UNAUTHORIZED)))).
    { unfold login. rewrite Hb, He, Hp, Htr, truthy_val by assumption. cbn.
      unfold findOne_withPassword. now rewrite Hnone. }
    now rewrite H.
  - intros row Hrow.
    assert (H : login env w req =
      (w, next_err (Thrown (Error
         ("Illegal arguments: " ++ typeof_json (val v) ++ ", string"))))).
    { unfold login. rewrite Hb, He, Hp, Htr, truthy_val by assumption. cbn.
      unfold findOne_withPassword. rewrite Hrow.
      cbn [load_withPassword password correctPassword].
      destruct v as [p | t | c | t |]; try reflexivity.
      now destruct (Hns p). }
    now rewrite H.
Qed.

(** C6, as amended.  A login with correct credentials against a
    deactivated account is answered with 403 (Forbidden), a client error
    like the 401 of bad credentials and never 200; no token is issued and
    the world is unchanged. *)
Theorem login_deactivated_is_forbidden (env : Env) (w : World) (req : Request)
    (b : Body) (e p : string) (row : UserRow) :
  body req = val b -> b_email b = val e -> b_password b = val (jstring p) ->
  e <> "" -> p <> "" ->
  findOne_row (fun r => String.eqb (col_email r) (toLowerCase e)) (db w)
    = Some row ->
  bcrypt_compare p (col_password row) = true ->
  col_isActive row = false ->
  login env w req =
    (w, next_err (App (mkAppError "Your account has been deactivated"
                         FORBIDDEN)))
  /\ http_status (snd (login env w req)) = 403
  /\ http_status (snd (login env w req)) <> 200.
Proof.
  intros Hb He Hp Hne Hnp Hrow Hcmp Hact.
  assert (H : login env w req =
    (w, next_err (App (mkAppError "Your account has been deactivated"
                         FORBIDDEN)))).
  { unfold login. rewrite Hb, He, Hp, truthy_val, truthy_json_val by assumption. cbn.
    unfold findOne_withPassword. rewrite Hrow. cbn. now rewrite Hcmp, Hact. }
  rewrite H. repeat split. cbn. discriminate.
Qed.

(** *** Password reset *)

(** C1.  In the scope of the controller module, where neither [crypto]
    nor [Op] is bound, [resetPassword] throws before it looks anything
    up: for every request the table is left as it was and the exception
    goes to the error handler, which answers 500. *)
Theorem resetPassword_always_throws (global_crypto : bool) (env : Env)
    (w : World) (req : Request) :
  exists x,
    resetPassword (auth_controller_scope global_crypto) env w req
      = (w, next_err (Thrown x))
    /\ http_status (next_err (Thrown x)) = 500.
Proof.
  unfold resetPassword, auth_controller_scope.
  destruct global_crypto; cbn; eexists; split; reflexivity.
Qed.

(** An UPDATE keeps the ids of the rows. *)
Lemma update_row_id (u : User) (r : UserRow) : col_id (update_row u r) = col_id r.
Proof. reflexivity. Qed.

Lemma in_update_where_id (u : User) (table : list UserRow) (r : UserRow) :
  In r (update_where_id u table) ->
  exists r0, In r0 table /\ col_id r0 = col_id r
             /\ r = if String.eqb (col_id r0) (id u) then update_row u r0
                    else r0.
Proof.
  unfold update_where_id. intros H. apply in_map_iff in H.
  destruct H as [r0 [Hr0 Hin]]. exists r0. split; [exact Hin |].
  split; [| now symmetry].
  subst r. now destruct (String.eqb (col_id r0) (id u)).
Qed.

Lemma findOne_row_some (cond : UserRow -> bool) (table : list UserRow)
    (r : UserRow) :
  findOne_row cond table = Some r -> In r table /\ visible r = true /\ cond r = true.
Proof.
  unfold findOne_row. intros H. apply find_some in H.
  destruct H as [Hin Hc]. apply andb_true_iff in Hc. tauto.
Qed.

(** The run of [forgotPassword] when the account exists and the
    transport fails: the digest and the expiry are saved, the failure is
    logged, the two attributes are assigned [undefined] and the instance
    is saved again. *)
Lemma forgotPassword_delivery_failure (env : Env) (w : World) (req : Request)
    (b : Body) (e : string) (row : UserRow) :
  body req = val b ->
  b_email b = val e ->
  findOne_row (fun r => String.eqb (col_email r) e) (db w) = Some row ->
  smtp_ok env = false ->
  let u1 := snd (createPasswordResetToken env (load_default row)) in
  let u4 :=
    set_passwordResetExpires undefined
      (set_passwordResetToken undefined (clean u1)) in
  forgotPassword env w req =
    (with_db (update_where_id u4 (update_where_id u1 (db w)))
       (add_log (log_email_error "Error sending email:")
          (with_db (update_where_id u1 (db w)) w)),
     next_err (App (mkAppError
       "There was an error sending the email. Try again later!"
       INTERNAL_SERVER_ERROR))).
Proof.
  intros Hb He Hrow Hsmtp u1 u4.
  unfold forgotPassword. rewrite Hb, He. cbn [where_email].
  unfold findOne. rewrite Hrow.
  unfold createPasswordResetToken, save, sendEmail. cbn. rewrite Hsmtp.
  reflexivity.
Qed.

(** C3.  When the account exists and the mail cannot be delivered,
    [forgotPassword] does hand Express the 500 error and sends nothing,
    but the "rollback" assigns [undefined] to the two reset attributes,
    which [save] leaves out of the UPDATE: every row of the account still
    holds the digest of the secret and its expiry, and that row still
    satisfies the condition [resetPassword] looks accounts up by. *)
Theorem forgotPassword_rollback_keeps_digest (env : Env) (w : World)
    (req : Request) (b : Body) (e : string) (row : UserRow) :
  body req = val b ->
  b_email b = val e ->
  findOne_row (fun r => String.eqb (col_email r) e) (db w) = Some row ->
  smtp_ok env = false ->
  snd (forgotPassword env w req) =
    next_err (App (mkAppError
      "There was an error sending the email. Try again later!"
      INTERNAL_SERVER_ERROR))
  /\ outbox (fst (forgotPassword env w req)) = outbox w
  /\ (exists r, In r (db (fst (forgotPassword env w req)))
                /\ col_id r = col_id row)
  /\ (forall r, In r (db (fst (forgotPassword env w req))) ->
        col_id r = col_id row ->
        col_passwordResetToken r = Some (sha256_hex (randomBytes32_hex env))
        /\ col_passwordResetExpires r = Some (now env + 10 * 60 * 1000)
        /\ reset_condition (sha256_hex (randomBytes32_hex env)) (now env) r
           = true).
Proof.
  intros Hb He Hrow Hsmtp.
  rewrite (forgotPassword_delivery_failure env w req b e row) by assumption.
  cbn [fst snd with_db add_log db outbox].
  split; [reflexivity |]. split; [reflexivity |].
  apply findOne_row_some in Hrow. destruct Hrow as [Hin _].
  set (u1 := snd (createPasswordResetToken env (load_default row))).
  set (u4 := set_passwordResetExpires undefined
               (set_passwordResetToken undefined (clean u1))).
  assert (Hid1 : id u1 = col_id row) by reflexivity.
  assert (Hid4 : id u4 = col_id row) by reflexivity.
  split.
  - exists (update_row u4 (update_row u1 row)). split; [| reflexivity].
    unfold update_where_id. apply in_map_iff.
    exists (update_row u1 row). split.
    + rewrite update_row_id, Hid4. now rewrite String.eqb_refl.
    + apply in_map_iff. exists row. split; [| exact Hin].
      rewrite Hid1. now rewrite String.eqb_refl.
  - intros r Hr Hid.
    apply in_update_where_id in Hr. destruct Hr as [r1 [Hin1 [Hid10 Hr]]].
    apply in_update_where_id in Hin1. destruct Hin1 as [r0 [Hin0 [Hid0 Hr1]]].
    assert (E0 : String.eqb (col_id r0) (id u1) = true).
    { apply String.eqb_eq. rewrite Hid1. congruence. }
    assert (E1 : String.eqb (col_id r1) (id u4) = true).
    { apply String.eqb_eq. rewrite Hid4. congruence. }
    rewrite E0 in Hr1. rewrite E1 in Hr. subst r r1. cbn.
    split; [reflexivity |]. split; [reflexivity |].
    rewrite String.eqb_refl. cbn. apply Z.ltb_lt. lia.
Qed.

(** *** Registration *)

Lemma lower_ascii_idempotent (c : ascii) :
  lower_ascii (lower_ascii c) = lower_ascii c.
Proof.
  destruct c as [[] [] [] [] [] [] [] []]; reflexivity.
Qed.

Lemma toLowerCase_idempotent (x : string) :
  toLowerCase (toLowerCase x) = toLowerCase x.
Proof.
  induction x as [| c x IH]; cbn; [reflexivity |].
  now rewrite lower_ascii_idempotent, IH.
Qed.

Lemma len_between_nonempty (lo hi : nat) (x : string) :
  (0 < lo)%nat -> len_between lo hi x = true -> String.eqb x "" = false.
Proof.
  intros Hlo H. unfold len_between in H. apply andb_true_iff in H.
  destruct H as [H _]. apply Nat.leb_le in H.
  destruct x; [cbn in H; lia | reflexivity].
Qed.

Lemma blank_nonempty (x : string) : blank x = false -> x <> "".
Proof. intros H ->. discriminate. Qed.

Lemma is_space_lower (c : ascii) : is_space (lower_ascii c) = is_space c.
Proof.
  destruct c as [[] [] [] [] [] [] [] []]; reflexivity.
Qed.

Lemma blank_toLowerCase (x : string) : blank (toLowerCase x) = blank x.
Proof.
  induction x as [| c x IH]; cbn; [reflexivity |].
  now rewrite is_space_lower, IH.
Qed.

(** [User.create] on values that pass the model's validators, with an
    allowed role and an email no row holds: one row is appended, with
    the password hashed. *)
Lemma create_valid (env : Env) (table : list UserRow) (fn ln e p r : string) :
  blank fn = false -> len_between 2 50 fn = true ->
  blank ln = false -> len_between 2 50 ln = true ->
  isEmail e = true -> blank e = false -> toLowerCase e = e ->
  blank p = false -> len_between 8 128 p = true ->
  includes ["user"; "admin"] r = true ->
  email_taken e table = false ->
  create env (mkCreateValues (val fn) (val ln) e (val (jstring p)) r) table =
    (inr (mkUser (uuidv4 env) fn ln e
            (val (jstring (bcrypt_hash (salt env) p))) r true
            undefined undefined undefined undefined undefined []),
     (table ++ [mkRow (uuidv4 env) fn ln e (bcrypt_hash (salt env) p) r true
                  None None None None None])%list).
Proof.
  intros Bfn Hfn Bln Hln Hem Be Hlow Bp Hp Hr Hfree.
  pose proof (blank_nonempty p Bp) as Ep. apply String.eqb_neq in Ep.
  unfold create, build, validate_instance. cbn. unfold notEmpty.
  rewrite Bfn, Bln, Be, Bp, Hfn, Hln, Hp, Hem, Hlow, String.eqb_refl. cbn.
  unfold beforeCreate. cbn. rewrite Ep. cbn.
  cbn in Hr. rewrite Hr. cbn. rewrite Hfree. reflexivity.
Qed.

(** A request that gets past [validate] carries no validation error:
    this is the state [register] is reached in on its route. *)
Lemma validate_next (rules : Validation) (req req' : Request) :
  validate rules req = (req', next) -> validation_errors req' = [].
Proof.
  unfold validate. destruct (run_validations rules req) as [b errs].
  destruct (validation_errors
              (with_validation (validation_errors req ++ errs)
                 (with_body b req))) eqn:E; [| discriminate].
  intros [= <-]. exact E.
Qed.

(** C7, as amended.  For a registration request that carries no
    validation error: when a live account with the email is found,
    [register] hands Express a 409 error and the table is unchanged;
    when none is found, no row at all holds the lowercased email and the
    values pass the model's validators (names of 2 to 50 characters, a
    valid email, a string of 8 to 128 characters for the password, none
    of them blank), one row is appended whose email is the lowercased
    one, whose password column is the bcrypt hash of the plaintext, and
    whose role is the one supplied or [user], and the answer is 201 with
    a token for the new id and the account with its password attributes
    [undefined]. *)
Theorem register_conflict_or_created (env : Env) (w : World) (req : Request)
    (b : Body) (e : string) :
  validation_errors req = [] ->
  body req = val b ->
  b_email b = val e ->
  (forall row,
     findOne_row (fun r => String.eqb (col_email r) e) (db w) = Some row ->
     register env w req =
       (w, next_err (App (mkAppError "Email already in use" CONFLICT)))
     /\ http_status (snd (register env w req)) = 409)
  /\ (forall fn ln p,
        findOne_row (fun r => String.eqb (col_email r) e) (db w) = None ->
        email_taken (toLowerCase e) (db w) = false ->
        b_firstName b = val fn -> b_lastName b = val ln ->
        b_password b = val (jstring p) ->
        blank fn = false -> len_between 2 50 fn = true ->
        blank ln = false -> len_between 2 50 ln = true ->
        isEmail (toLowerCase e) = true -> blank e = false ->
        blank p = false -> len_between 8 128 p = true ->
        includes ["user"; "admin"] (role_or_user (b_role b)) = true ->
        exists row u,
          register env w req =
            (with_db (db w ++ [row]) w,
             json CREATED (body_token (signToken env (uuidv4 env)) u))
          /\ col_id row = uuidv4 env
          /\ col_email row = toLowerCase e
          /\ col_password row = bcrypt_hash (salt env) p
          /\ col_role row = role_or_user (b_role b)
          /\ (b_role b = undefined -> col_role row = "user")
          /\ (forall r, b_role b = val r -> r <> "" -> col_role row = r)
          /\ id u = uuidv4 env
          /\ email u = toLowerCase e
          /\ role u = col_role row
          /\ password u = undefined
          /\ passwordResetToken u = undefined
          /\ passwordResetExpires u = undefined).
Proof.
  intros Hv Hb He. split.
  - intros row Hrow.
    assert (H : register env w req =
      (w, next_err (App (mkAppError "Email already in use" CONFLICT)))).
    { unfold register. rewrite Hv, Hb, He. cbn [where_email].
      unfold findOne. now rewrite Hrow. }
    now rewrite H.
  - intros fn ln p Hnone Hfree Hfn Hln Hp Bfn Vfn Bln Vln Vem Be Bp Vp Vrole.
    eexists. eexists. split.
    + unfold register. rewrite Hv, Hb, He. cbn [where_email].
      unfold findOne. rewrite Hnone, Hfn, Hln, Hp.
      rewrite (create_valid env (db w) fn ln (toLowerCase e) p
                 (role_or_user (b_role b)))
        by (try assumption;
            first [now rewrite blank_toLowerCase
                  | apply toLowerCase_idempotent]).
      unfold createSendToken. cbn [id]. reflexivity.
    + cbn. repeat split.
      * intros Hr. now rewrite Hr.
      * intros r Hr Hrne. rewrite Hr. cbn.
        apply String.eqb_neq in Hrne. now rewrite Hrne.
Qed.

(** *** Password reset with the requires in place *)

Lemma changed_mark (a b : Attr) (same : bool) (l : list Attr) :
  existsb (attr_eqb a) l = true -> existsb (attr_eqb a) (mark b same l) = true.
Proof.
  intros H. unfold mark. destruct same; [exact H |]. cbn. rewrite H.
  apply orb_true_r.
Qed.

Lemma changed_after_hook (t : js Z) (h : js Json) (u : User) :
  changed a_password u = true ->
  changed a_password (set_passwordChangedAt t (set_password h u)) = true.
Proof.
  intros H. unfold changed. cbn. now do 2 apply changed_mark.
Qed.

(** What [resetPassword] does where [crypto] and [Op] are bound, as
    after the two missing requires: no account with the digest and a
    later expiry is a 400; otherwise the answer is 200 with a token, and
    every row of the account holds the hash of the new password and no
    reset digest or expiry. *)
Lemma resetPassword_with_requires (env : Env) (w : World) (req : Request) :
  (findOne_row (reset_condition (sha256_hex (params_token req)) (now env))
     (db w) = None ->
   resetPassword (mkScope crypto_node true) env w req =
     (w, next_err (App (mkAppError "Token is invalid or has expired" 400))))
  /\ (forall row b p,
        findOne_row (reset_condition (sha256_hex (params_token req)) (now env))
          (db w) = Some row ->
        body req = val b -> b_password b = val (jstring p) ->
        blank p = false -> len_between 8 128 p = true ->
        (exists u,
           snd (resetPassword (mkScope crypto_node true) env w req) =
             json 200 (body_token (signToken env (col_id row)) u)
           /\ password u = undefined)
        /\ (forall r,
              In r (db (fst (resetPassword (mkScope crypto_node true) env w
                               req))) ->
              col_id r = col_id row ->
              col_password r = bcrypt_hash (salt env) p
              /\ col_passwordResetToken r = None
              /\ col_passwordResetExpires r = None)).
Proof.
  split.
  - intros Hnone. unfold resetPassword. cbn. unfold findOne.
    now rewrite Hnone.
  - intros row b p Hrow Hb Hp Bp Hlen.
    set (u3 := set_passwordResetExpires null
                 (set_passwordResetToken null
                    (set_password (val (jstring p)) (load_default row)))).
    set (u4 := set_passwordChangedAt (val (now env))
                 (set_password (val (jstring (bcrypt_hash (salt env) p)))
                    u3)).
    assert (Heq : resetPassword (mkScope crypto_node true) env w req =
              (with_db (update_where_id u4 (db w)) w,
               createSendToken env (clean u4) 200)).
    { unfold resetPassword. cbn [scope_crypto scope_Op negb].
      unfold findOne. rewrite Hrow, Hb, Hp. fold u3.
      unfold save, save_fields, validate_instance. cbn. unfold notEmpty.
      rewrite Bp, Hlen. reflexivity. }
    rewrite Heq. cbn [fst snd with_db db]. split.
    + eexists. split; reflexivity.
    + intros r Hr Hid. apply in_update_where_id in Hr.
      destruct Hr as [r0 [_ [Hid0 Hr]]].
      assert (E : String.eqb (col_id r0) (id u4) = true).
      { apply String.eqb_eq. cbn. congruence. }
      rewrite E in Hr. subst r. unfold update_row.
      cbn [col_password col_passwordResetToken col_passwordResetExpires].
      assert (Hc : forall a, In a (changed_attrs u3) -> changed a u4 = true).
      { intros a Ha. unfold changed, u4. cbn [changed_attrs set_password
          set_passwordChangedAt]. do 2 apply changed_mark.
        apply existsb_exists. exists a. split; [exact Ha |].
        now destruct a. }
      rewrite !Hc by (cbn; tauto). repeat split.
Qed.

(** *** Nothing of a request body is logged or stored in the clear *)

Lemma fixed_literal (msg : string) :
  In msg fixed_messages -> message_is_fixed msg.
Proof. now left. Qed.

Lemma fixed_items (items : list string) :
  Forall (fun it => In it violation_items) items ->
  message_is_fixed (exn_message (ValidationError items)).
Proof. intros H. right. now exists items. Qed.

Lemma typeof_json_types (v : js Json) : In (typeof_json v) js_types.
Proof. destruct v as [| | []]; cbn; tauto. Qed.

Lemma fixed_illegal_arguments (a b : string) :
  In a js_types -> In b js_types ->
  message_is_fixed ("Illegal arguments: " ++ a ++ ", " ++ b).
Proof.
  intros Ha Hb. left. unfold fixed_messages. apply in_or_app. right.
  unfold illegal_arguments. apply in_flat_map. exists a. split; [exact Ha |].
  apply in_map_iff. now exists b.
Qed.

(** Every item of a list written out is one of [violation_items]. *)
Ltac listed :=
  repeat (apply Forall_cons; [cbn; tauto |]); apply Forall_nil.

Lemma check_items (ok : bool) (msg : string) :
  In (Validation_error msg) violation_items ->
  Forall (fun it => In it violation_items) (check ok msg).
Proof.
  intros H. unfold check. destruct ok; [apply Forall_nil |].
  apply Forall_cons; [exact H | apply Forall_nil].
Qed.

Lemma schema_attr_items (u : User) (a : Attr) :
  Forall (fun it => In it violation_items) (schema_attr u a).
Proof.
  destruct a; cbn; try apply Forall_nil.
  destruct (password u) as [| | []]; listed.
Qed.

Lemma validate_attr_items (u : User) (a : Attr) :
  Forall (fun it => In it violation_items) (validate_attr u a).
Proof.
  destruct a; cbn; try apply Forall_nil;
    try destruct (password u) as [| | v]; try apply Forall_nil;
    repeat (apply Forall_app; split); apply check_items; cbn; tauto.
Qed.

Lemma Forall_flat_map_all {A B : Type} (P : B -> Prop) (f : A -> list B)
    (l : list A) :
  (forall a, Forall P (f a)) -> Forall P (flat_map f l).
Proof.
  intros H. induction l as [| a l IH]; cbn; [constructor |].
  apply Forall_app. split; [apply H | exact IH].
Qed.

Lemma validate_instance_items (u : User) (fields : list Attr) :
  Forall (fun it => In it violation_items) (validate_instance u fields).
Proof.
  unfold validate_instance. apply Forall_app. split;
    apply Forall_flat_map_all; intros a;
    [apply schema_attr_items | apply validate_attr_items].
Qed.

Lemma hash_password_throws (env : Env) (v : js Json) (x : Exn) :
  hash_password env v = inl x -> message_is_fixed (exn_message x).
Proof.
  intros H.
  assert (Hx : x = Error ("Illegal arguments: " ++ typeof_json v
                          ++ ", number")).
  { unfold hash_password in H.
    destruct v as [| | []]; try discriminate; now injection H as <-. }
  rewrite Hx. cbn [exn_message].
  apply fixed_illegal_arguments; [apply typeof_json_types | cbn; tauto].
Qed.

Lemma only_hashes_refl (env : Env) (table : list UserRow) :
  only_hashes_stored env table table.
Proof. intros r Hr. left. now apply in_map. Qed.

Lemma only_hashes_trans (env : Env) (a b c : list UserRow) :
  only_hashes_stored env a b -> only_hashes_stored env b c ->
  only_hashes_stored env a c.
Proof.
  intros Hab Hbc r Hr. destruct (Hbc r Hr) as [Hin | Hh]; [| now right].
  apply in_map_iff in Hin. destruct Hin as [r' [Heq Hin]].
  rewrite <- Heq. now apply Hab.
Qed.

(** The UPDATE after the [beforeUpdate] hook writes a hash or leaves the
    password column alone. *)
Lemma beforeUpdate_stores (env : Env) (u u' : User) (table : list UserRow) :
  beforeUpdate env u = inr u' ->
  only_hashes_stored env table (update_where_id u' table).
Proof.
  unfold beforeUpdate. intros H r Hr.
  apply in_update_where_id in Hr. destruct Hr as [r0 [Hin [_ ->]]].
  destruct (String.eqb (col_id r0) (id u')); [| left; now apply in_map].
  destruct (changed a_password u) eqn:Ec.
  - destruct (hash_password env (password u)) as [x | h] eqn:Eh;
      [discriminate |].
    injection H as <-. right.
    unfold hash_password in Eh.
    destruct (password u) as [| | [p | | | |]]; try discriminate.
    injection Eh as <-. exists p. unfold update_row. cbn [col_password].
    now rewrite changed_after_hook.
  - injection H as <-. left. unfold update_row. cbn [col_password].
    rewrite Ec. cbn. now apply in_map.
Qed.

Lemma beforeUpdate_throws (env : Env) (u : User) (x : Exn) :
  beforeUpdate env u = inl x -> message_is_fixed (exn_message x).
Proof.
  unfold beforeUpdate. destruct (changed a_password u); [| discriminate].
  destruct (hash_password env (password u)) as [y | h] eqn:Eh;
    [| discriminate].
  intros [= <-]. eapply hash_password_throws; eassumption.
Qed.

Lemma save_fields_ok (env : Env) (nulls : list string) (fields : list Attr)
    (u : User) (table : list UserRow) :
  Forall (fun it => In it violation_items) nulls ->
  only_hashes_stored env table (snd (save_fields env nulls fields u table))
  /\ (forall x, fst (save_fields env nulls fields u table) = inl x ->
        message_is_fixed (exn_message x)).
Proof.
  intros Hn. unfold save_fields.
  assert (Hitems : Forall (fun it => In it violation_items)
                     (nulls ++ validate_instance u fields)%list).
  { apply Forall_app. split; [exact Hn | apply validate_instance_items]. }
  destruct (nulls ++ validate_instance u fields)%list as [| it rest].
  - destruct (beforeUpdate env u) as [x | u'] eqn:Eb.
    + cbn. split; [apply only_hashes_refl |]. intros y [= <-].
      eapply beforeUpdate_throws; eassumption.
    + destruct (among fields a_email
                && email_held_by_other (id u') (email u') table).
      * cbn. split; [apply only_hashes_refl |]. intros y [= <-].
        apply fixed_literal. cbn. tauto.
      * cbn [fst snd]. split; [| discriminate].
        eapply beforeUpdate_stores; eassumption.
  - cbn [fst snd]. split; [apply only_hashes_refl |]. intros y [= <-].
    now apply fixed_items.
Qed.

Lemma save_ok (env : Env) (u : User) (table : list UserRow) :
  only_hashes_stored env table (snd (save env u table))
  /\ (forall x, fst (save env u table) = inl x ->
        message_is_fixed (exn_message x)).
Proof. unfold save. apply save_fields_ok. apply Forall_nil. Qed.

Lemma build_missing_items (env : Env) (v : CreateValues) :
  Forall (fun it => In it violation_items) (fst (build env v)).
Proof.
  unfold build. cbn [fst].
  destruct (cv_firstName v), (cv_lastName v); cbn; listed.
Qed.

Lemma build_fields (env : Env) (v : CreateValues) :
  In a_password (changed_attrs (snd (build env v))).
Proof.
  unfold build. cbn [snd changed_attrs]. apply in_or_app. right.
  apply in_or_app. right. cbn. tauto.
Qed.

Lemma flat_map_nil {A B : Type} (f : A -> list B) (l : list A) (a : A) :
  flat_map f l = [] -> In a l -> f a = [].
Proof.
  induction l as [| b l IH]; cbn; [tauto |].
  intros H [<- | Hin]; apply app_eq_nil in H; [tauto | apply IH; tauto].
Qed.

Lemma among_In (fields : list Attr) (a : Attr) :
  In a fields -> among fields a = true.
Proof.
  intros H. unfold among. apply existsb_exists. exists a. split; [exact H |].
  now destruct a.
Qed.

(** A password that passes the validation is truthy: it is hashed by
    the [beforeCreate] hook. *)
Lemma valid_password_truthy (u : User) (fields : list Attr) :
  In a_password fields ->
  validate_instance u fields = [] ->
  truthy_json (password u) = true.
Proof.
  intros Hin Hv. unfold validate_instance in Hv.
  apply app_eq_nil in Hv. destruct Hv as [Hs Hv].
  assert (Hd : In a_password (filter (among fields) declared)).
  { apply filter_In. split; [cbn; tauto | now apply among_In]. }
  apply (fun H => flat_map_nil _ _ a_password H Hd) in Hs.
  apply (fun H => flat_map_nil _ _ a_password H Hd) in Hv.
  cbn in Hs, Hv.
  destruct (password u) as [| | [p | t | c | t |]]; try discriminate.
  - apply app_eq_nil in Hv. destruct Hv as [Hv _]. unfold check in Hv.
    cbn [String_of] in Hv.
    destruct (notEmpty p) eqn:E; [| discriminate]. unfold notEmpty in E.
    cbn. destruct p; [discriminate | reflexivity].
  - apply app_eq_nil in Hv. destruct Hv as [_ Hv]. unfold check in Hv.
    cbn [String_of] in Hv.
    destruct (len_between 8 128 t) eqn:E; [| discriminate]. cbn.
    destruct t as [| c0 [| c1 t]]; try discriminate.
    cbn. now destruct (Ascii.eqb c0 _).
  - apply app_eq_nil in Hv. destruct Hv as [_ Hv].
    destruct c; discriminate.
Qed.

Lemma create_ok (env : Env) (v : CreateValues) (table : list UserRow) :
  only_hashes_stored env table (snd (create env v table))
  /\ (forall x, fst (create env v table) = inl x ->
        message_is_fixed (exn_message x)).
Proof.
  unfold create.
  pose proof (build_missing_items env v) as Hmiss.
  pose proof (build_fields env v) as Hpw.
  destruct (build env v) as [missing u]. cbn [fst] in Hmiss. cbn [snd] in Hpw.
  assert (Hitems : Forall (fun it => In it violation_items)
                     (missing ++ validate_instance u (changed_attrs u))%list).
  { apply Forall_app. split; [exact Hmiss | apply validate_instance_items]. }
  destruct (missing ++ validate_instance u (changed_attrs u))%list
    as [| it rest] eqn:E.
  - apply app_eq_nil in E. destruct E as [_ E].
    pose proof (valid_password_truthy u (changed_attrs u) Hpw E) as Et.
    unfold beforeCreate. rewrite Et. cbv iota.
    destruct (hash_password env (password u)) as [x | h] eqn:Eh.
    + cbn. split; [apply only_hashes_refl |]. intros y [= <-].
      eapply hash_password_throws; eassumption.
    + unfold hash_password in Eh.
      destruct (password u) as [| | [p | | | |]]; try discriminate.
      injection Eh as <-.
      destruct (negb (includes ["user"; "admin"] _)).
      * cbn. split; [apply only_hashes_refl |]. intros y [= <-].
        apply fixed_literal. cbn. tauto.
      * destruct (email_taken _ table).
        -- cbn. split; [apply only_hashes_refl |]. intros y [= <-].
           apply fixed_literal. cbn. tauto.
        -- cbn [fst snd]. split; [| discriminate].
           intros r Hr. apply in_app_or in Hr. destruct Hr as [Hr | Hr].
           ++ left. now apply in_map.
           ++ destruct Hr as [<- | []]. right. exists p. reflexivity.
  - cbn [fst snd]. split; [apply only_hashes_refl |]. intros y [= <-].
    now apply fixed_items.
Qed.

(** Leaves of a handler. *)
Lemma handler_ok_same (env : Env) (w : World) (out : Outcome) :
  outcome_fixed out ->
  handler_ok env w (w, out).
Proof.
  intros H. split; [| split].
  - exists []. cbn. split; [now rewrite app_nil_r | constructor].
  - apply only_hashes_refl.
  - exact H.
Qed.

Lemma handler_ok_db (env : Env) (w : World) (table : list UserRow)
    (out : Outcome) :
  only_hashes_stored env (db w) table ->
  outcome_fixed out ->
  handler_ok env w (with_db table w, out).
Proof.
  intros Hdb H. split; [| split].
  - exists []. cbn. split; [now rewrite app_nil_r | constructor].
  - exact Hdb.
  - exact H.
Qed.

Lemma save_stores (env : Env) (u : User) (table table' : list UserRow)
    (res : Exn + User) :
  save env u table = (res, table') -> only_hashes_stored env table table'.
Proof.
  intros H. pose proof (proj1 (save_ok env u table)) as Hs.
  now rewrite H in Hs.
Qed.

Lemma save_throws (env : Env) (u : User) (table table' : list UserRow)
    (x : Exn) :
  save env u table = (inl x, table') -> message_is_fixed (exn_message x).
Proof.
  intros H. apply (proj2 (save_ok env u table)). now rewrite H.
Qed.

Lemma create_stores (env : Env) (v : CreateValues) (table table' : list UserRow)
    (res : Exn + User) :
  create env v table = (res, table') -> only_hashes_stored env table table'.
Proof.
  intros H. pose proof (proj1 (create_ok env v table)) as Hs.
  now rewrite H in Hs.
Qed.

Lemma create_throws (env : Env) (v : CreateValues) (table table' : list UserRow)
    (x : Exn) :
  create env v table = (inl x, table') -> message_is_fixed (exn_message x).
Proof.
  intros H. apply (proj2 (create_ok env v table)). now rewrite H.
Qed.

Lemma correctPassword_throws (a b : js Json) (x : Exn) :
  correctPassword a b = inl x -> message_is_fixed (exn_message x).
Proof.
  intros H.
  assert (Hx : x = Error ("Illegal arguments: " ++ typeof_json a ++ ", "
                          ++ typeof_json b)).
  { unfold correctPassword in H.
    destruct a as [| | []], b as [| | []]; try discriminate;
      now injection H as <-. }
  rewrite Hx. cbn [exn_message].
  apply fixed_illegal_arguments; apply typeof_json_types.
Qed.

Lemma where_email_throws (e : js string) (x : Exn) :
  where_email e = inl x -> message_is_fixed (exn_message x).
Proof.
  unfold where_email. destruct e; intros [= <-].
  apply fixed_literal; cbn; tauto.
Qed.

(** Closing a leaf of a handler. *)
Ltac leaf :=
  first
    [ apply handler_ok_same
    | apply handler_ok_db;
      [ first [ eapply save_stores; eassumption
              | eapply create_stores; eassumption ] | ] ];
  first
    [ exact I
    | eapply save_throws; eassumption
    | eapply create_throws; eassumption
    | eapply correctPassword_throws; eassumption
    | eapply where_email_throws; eassumption
    | apply fixed_literal; cbn; tauto ].

(** Splitting a handler along its branches. *)
Ltac branches :=
  repeat match goal with
         | |- handler_ok _ _ (match ?x with _ => _ end) => destruct x eqn:?
         | |- handler_ok _ _ (let '(_, _) := ?x in _) => destruct x eqn:?
         end.

Lemma register_ok (env : Env) (w : World) (req : Request) :
  handler_ok env w (register env w req).
Proof. unfold register. branches; leaf. Qed.

Lemma createUser_ok (env : Env) (w : World) (req : Request) :
  handler_ok env w (createUser env w req).
Proof. unfold createUser. branches; leaf. Qed.

Lemma login_ok (env : Env) (w : World) (req : Request) :
  handler_ok env w (login env w req).
Proof. unfold login. branches; leaf. Qed.

Lemma updatePassword_ok (env : Env) (w : World) (req : Request) :
  handler_ok env w (updatePassword env w req).
Proof. unfold updatePassword. branches; leaf. Qed.

Lemma resetPassword_ok (sc : Scope) (env : Env) (w : World) (req : Request) :
  handler_ok env w (resetPassword sc env w req).
Proof. unfold resetPassword. branches; leaf. Qed.

Lemma getMe_ok (env : Env) (w : World) (req : Request) :
  handler_ok env w (getMe w req).
Proof. unfold getMe. branches; leaf. Qed.

Lemma getAllUsers_ok (env : Env) (w : World) :
  handler_ok env w (getAllUsers w).
Proof. unfold getAllUsers. leaf. Qed.

Lemma getUser_ok (env : Env) (w : World) (req : Request) :
  handler_ok env w (getUser w req).
Proof. unfold getUser. branches; leaf. Qed.

Lemma deactivateUser_ok (env : Env) (w : World) (req : Request) :
  handler_ok env w (deactivateUser env w req).
Proof. unfold deactivateUser. branches; leaf. Qed.

Lemma handler_ok_intro (env : Env) (w w' : World) (out : Outcome)
    (entries : list LogEntry) :
  log w' = (log w ++ entries)%list ->
  Forall (mail_log_entry (db w)) entries ->
  only_hashes_stored env (db w) (db w') ->
  outcome_fixed out ->
  handler_ok env w (w', out).
Proof.
  intros Hl He Hdb Ho. split; [| split]; [now exists entries | exact Hdb | exact Ho].
Qed.

Lemma only_hashes_map (env : Env) (table : list UserRow)
    (f : UserRow -> UserRow) :
  (forall r, col_password (f r) = col_password r) ->
  only_hashes_stored env table (map f table).
Proof.
  intros Hf r Hr. apply in_map_iff in Hr. destruct Hr as [r0 [<- Hin]].
  left. rewrite Hf. now apply in_map.
Qed.

Lemma set_deletedAt_stores (env : Env) (pk : string) (v : option Z)
    (table : list UserRow) :
  only_hashes_stored env table (set_deletedAt pk v table).
Proof.
  apply only_hashes_map. intros r. now destruct (String.eqb (col_id r) pk).
Qed.

Lemma save_email (env : Env) (u u' : User) (table table' : list UserRow) :
  save env u table = (inr u', table') -> email u' = email u.
Proof.
  unfold save, save_fields.
  destruct (validate_instance u (changed_attrs u)); [| discriminate].
  cbn [app]. unfold beforeUpdate. destruct (changed a_password u).
  - destruct (hash_password env (password u)); [discriminate |].
    destruct (_ && _); [discriminate |]. now intros [= <- _].
  - destruct (_ && _); [discriminate |]. now intros [= <- _].
Qed.

Lemma forgotPassword_ok (env : Env) (w : World) (req : Request) :
  handler_ok env w (forgotPassword env w req).
Proof.
  unfold forgotPassword.
  destruct (body req) as [| | b]; try leaf.
  destruct (where_email (b_email b)) as [x | cond] eqn:Ew; [leaf |].
  unfold findOne.
  destruct (findOne_row cond (db w)) as [row |] eqn:Er; [| leaf].
  apply findOne_row_some in Er. destruct Er as [Hin _].
  destruct (createPasswordResetToken env (load_default row)) as [tok u1] eqn:Et.
  assert (Hmail : email u1 = col_email row).
  { unfold createPasswordResetToken in Et. now injection Et as _ <-. }
  destruct (save env u1 (db w)) as [[x | u2] table1] eqn:Es1; [leaf |].
  pose proof (save_stores _ _ _ _ _ Es1) as Hst1.
  apply save_email in Es1.
  unfold sendEmail. destruct (smtp_ok env).
  - eapply handler_ok_intro with
      (entries := [log_email_sent (col_email row)]); cbn.
    + now rewrite Es1, Hmail.
    + constructor; [| constructor]. cbn. now exists row.
    + exact Hst1.
    + exact I.
  - cbn [db with_db add_log].
    destruct (save env _ table1) as [[x | u5] table2] eqn:Es2.
    + eapply handler_ok_intro with
        (entries := [log_email_error "Error sending email:"]); cbn.
      * reflexivity.
      * constructor; [reflexivity | constructor].
      * exact Hst1.
      * eapply save_throws; eassumption.
    + eapply handler_ok_intro with
        (entries := [log_email_error "Error sending email:"]); cbn.
      * reflexivity.
      * constructor; [reflexivity | constructor].
      * eapply only_hashes_trans; [exact Hst1 |].
        eapply save_stores; eassumption.
      * apply fixed_literal; cbn; tauto.
Qed.

Lemma assign_items (setter : string -> User -> User) (a : Attr)
    (name : string) (v : js string) (acc : Assigned) :
  In (notNull_Violation name) violation_items ->
  Forall (fun it => In it violation_items) (as_nulls acc) ->
  Forall (fun it => In it violation_items)
    (as_nulls (assign setter a name v acc)).
Proof.
  intros Hname Hacc. unfold assign. destruct v; cbn [as_nulls]; auto.
  apply Forall_app. split; [exact Hacc |].
  apply Forall_cons; [exact Hname | apply Forall_nil].
Qed.

Lemma save_fields_stores (env : Env) (nulls : list string)
    (fields : list Attr) (u : User) (table table' : list UserRow)
    (res : Exn + User) :
  Forall (fun it => In it violation_items) nulls ->
  save_fields env nulls fields u table = (res, table') ->
  only_hashes_stored env table table'.
Proof.
  intros Hn H. pose proof (proj1 (save_fields_ok env nulls fields u table Hn))
    as Hs.
  now rewrite H in Hs.
Qed.

Lemma save_fields_throws (env : Env) (nulls : list string)
    (fields : list Attr) (u : User) (table table' : list UserRow) (x : Exn) :
  Forall (fun it => In it violation_items) nulls ->
  save_fields env nulls fields u table = (inl x, table') ->
  message_is_fixed (exn_message x).
Proof.
  intros Hn H. apply (proj2 (save_fields_ok env nulls fields u table Hn)).
  now rewrite H.
Qed.

Lemma updateMe_ok (env : Env) (w : World) (req : Request) :
  handler_ok env w (updateMe env w req).
Proof.
  unfold updateMe.
  destruct (body req) as [| | b]; try leaf.
  destruct (truthy_json (b_password b) || truthy_json (b_passwordConfirm b));
    [leaf |].
  destruct (user req) as [| | me]; try leaf.
  destruct (findByPk (id me) (db w)) as [| | u]; try leaf.
  set (given := assign set_email a_email "email" (b_email b) _).
  assert (Hn : Forall (fun it => In it violation_items) (as_nulls given)).
  { unfold given. apply assign_items; [cbn; tauto |].
    apply assign_items; [cbn; tauto |].
    apply assign_items; [cbn; tauto |]. apply Forall_nil. }
  destruct (save_fields env (as_nulls given) (as_fields given)
              (as_user given) (db w)) as [[x | u'] table] eqn:Es.
  - apply handler_ok_same. eapply save_fields_throws; eassumption.
  - apply handler_ok_db; [| exact I].
    eapply save_fields_stores; eassumption.
Qed.

Lemma null_items {A : Type} (name : string) (v : js A) :
  In (notNull_Violation name) violation_items ->
  Forall (fun it => In it violation_items)
    match v with
    | null => [notNull_Violation name]
    | _ => []
    end.
Proof.
  intros H. destruct v; try apply Forall_nil.
  apply Forall_cons; [exact H | apply Forall_nil].
Qed.

Lemma patch_items_listed (b : Body) :
  Forall (fun it => In it violation_items) (patch_items b).
Proof.
  unfold patch_items.
  repeat (apply Forall_app; split);
    try (apply null_items; cbn; tauto).
  - destruct (b_firstName b); try apply Forall_nil.
    apply Forall_app; split; apply check_items; cbn; tauto.
  - destruct (b_lastName b); try apply Forall_nil.
    apply Forall_app; split; apply check_items; cbn; tauto.
  - destruct (b_email b); try apply Forall_nil.
    repeat (apply Forall_app; split); apply check_items; cbn; tauto.
Qed.

Lemma updateUser_ok (env : Env) (w : World) (req : Request) :
  handler_ok env w (updateUser w req).
Proof.
  unfold updateUser.
  destruct (body req) as [| | b]; try leaf.
  pose proof (patch_items_listed b) as Hitems.
  destruct (patch_items b) as [| it rest].
  - destruct (existsb _ (db w)); [| leaf].
    destruct (role_refused (b_role b)); [leaf |].
    destruct (email_refused (params_id req) (b_email b) (db w)); [leaf |].
    apply handler_ok_db; [| apply fixed_literal; cbn; tauto].
    apply only_hashes_map. intros r.
    now destruct (visible r && String.eqb (col_id r) (params_id req)).
  - apply handler_ok_same. now apply fixed_items.
Qed.

Lemma deleteUser_ok (env : Env) (w : World) (req : Request) :
  handler_ok env w (deleteUser env w req).
Proof.
  unfold deleteUser. branches; try leaf.
  apply handler_ok_db; [apply set_deletedAt_stores | exact I].
Qed.

Lemma reactivateUser_ok (env : Env) (w : World) (req : Request) :
  handler_ok env w (reactivateUser env w req).
Proof.
  unfold reactivateUser.
  destruct (findByPk_paranoid_false (params_id req) (db w)) as [| | u];
    try leaf.
  assert (H0 : only_hashes_stored env (db w)
                 (snd (if truthy_obj (deletedAt u)
                       then (restored u, set_deletedAt (id u) None (db w))
                       else (u, db w)))).
  { destruct (truthy_obj (deletedAt u));
      [apply set_deletedAt_stores | apply only_hashes_refl]. }
  destruct (if truthy_obj (deletedAt u)
            then (restored u, set_deletedAt (id u) None (db w))
            else (u, db w)) as [u0 table0].
  cbn [snd] in H0.
  destruct (save env (set_isActive true u0) _) as [[x | u'] table] eqn:Es.
  - apply handler_ok_same. eapply save_throws; eassumption.
  - apply handler_ok_db; [| exact I].
    eapply only_hashes_trans; [exact H0 |]. eapply save_stores; eassumption.
Qed.

(** *** The middleware chain *)

Lemma validate_fixed (rules : Validation) (req : Request) :
  outcome_fixed (snd (validate rules req)).
Proof.
  unfold validate. destruct (run_validations rules req) as [b errs].
  destruct (validation_errors _); cbn; [exact I |].
  apply fixed_literal; cbn; tauto.
Qed.

Lemma protect_fixed (env : Env) (table : list UserRow) (req : Request)
    (locals : Locals) :
  outcome_fixed (snd (protect env table req locals)).
Proof.
  unfold protect.
  repeat match goal with
         | |- context [match ?x with _ => _ end] => destruct x
         end;
    cbn; try exact I; apply fixed_literal; cbn; tauto.
Qed.

Lemma protect_step_fixed (env : Env) (w : World) (req : Request) :
  outcome_fixed (snd (protect_step env w req)).
Proof.
  unfold protect_step.
  pose proof (protect_fixed env (db w) req (mkLocals undefined)) as H.
  now destruct (protect env (db w) req (mkLocals undefined)) as [[req' l] out].
Qed.

Lemma restrictTo_fixed (roles : list string) (req : Request) :
  outcome_fixed (restrictTo roles req).
Proof.
  unfold restrictTo. destruct (user req) as [| | u]; cbn;
    try (apply fixed_literal; cbn; tauto).
  destruct (negb (includes roles (role u))); cbn; [| exact I].
  apply fixed_literal; cbn; tauto.
Qed.

Lemma guarded_ok (env : Env) (w : World) (step : Request * Outcome)
    (k : Request -> World * Outcome) :
  outcome_fixed (snd step) ->
  (forall req', handler_ok env w (k req')) ->
  handler_ok env w (guarded w step k).
Proof.
  intros Hs Hk. destruct step as [req' out]. cbn in Hs.
  destruct out; cbn; [apply Hk | | |]; now apply handler_ok_same.
Qed.

Lemma admin_only_ok (env : Env) (w : World) (req : Request)
    (k : Request -> World * Outcome) :
  (forall req', handler_ok env w (k req')) ->
  handler_ok env w (admin_only env w req k).
Proof.
  intros Hk. unfold admin_only.
  apply guarded_ok; [apply protect_step_fixed |]. intros req1.
  apply guarded_ok; [apply restrictTo_fixed | exact Hk].
Qed.

Lemma router_ok (sc : Scope) (env : Env) (w : World) (r : Route)
    (req : Request) :
  handler_ok env w (router sc env w r req).
Proof.
  destruct r; cbn [router];
    repeat first
      [ apply admin_only_ok; intros ?
      | apply guarded_ok;
        [ first [apply validate_fixed | apply protect_step_fixed] | intros ? ] ];
    first
      [ apply register_ok | apply login_ok | apply forgotPassword_ok
      | apply resetPassword_ok | apply getMe_ok | apply updateMe_ok
      | apply updatePassword_ok | apply getAllUsers_ok | apply createUser_ok
      | apply getUser_ok | apply updateUser_ok | apply deleteUser_ok
      | apply deactivateUser_ok | apply reactivateUser_ok
      | apply handler_ok_same; exact I ].
Qed.

Lemma mail_entry_logged_for (i : Incoming) (table : list UserRow)
    (e : LogEntry) :
  mail_log_entry table e -> logged_for i table e.
Proof. destruct e; cbn; tauto. Qed.

(** The request as the routers see it when the payload is a JSON
    object. *)
Lemma app_parsed (sc : Scope) (env : Env) (w : World) (i : Incoming)
    (b : Body) :
  in_payload i = json_body b ->
  express_json (receive i) = inr (with_body (val b) (receive i)).
Proof. intros H. unfold express_json. cbn [receive payload]. now rewrite H. Qed.

(** C2, as amended.  Handling any request leaves in every password
    column of the table what it held before or a bcrypt hash.  And
    handling a request whose payload the body parser accepts adds to the
    log only the request line, whose body is [undefined] because the
    logger runs before the body parser, failure lines with a fixed
    message, and the mailer's lines: no part of the body, so no
    plaintext password, reaches the log. *)
Theorem password_neither_logged_nor_stored (sc : Scope) (env : Env)
    (w : World) (i : Incoming) :
  only_hashes_stored env (db w) (db (fst (app sc env w i)))
  /\ (forall b, in_payload i = json_body b ->
      exists entries,
        log (fst (app sc env w i)) = (log w ++ entries)%list
        /\ Forall (logged_for i (db w)) entries
        /\ In (log_request (in_method i) (in_originalUrl i)
                 (mkMeta (in_query i) undefined (in_ip i)))
             entries).
Proof.
  destruct (in_payload i) as [b | raw st msg] eqn:Hp.
  2:{ split; [| discriminate].
      unfold app, express_json. cbn [receive payload]. rewrite Hp.
      cbn. apply only_hashes_refl. }
  unfold app. rewrite (app_parsed sc env w i b Hp).
  set (req := with_body (val b) (receive i)).
  pose proof (router_ok sc env (request_logger w (receive i)) (in_route i)
                req) as [[entries [Hl He]] [Hdb Ho]].
  destruct (router sc env (request_logger w (receive i)) (in_route i) req)
    as [w2 out].
  cbn [fst snd] in Hl, Hdb, Ho.
  assert (Hmail : Forall (logged_for i (db w)) entries).
  { eapply Forall_impl; [| exact He]. intros e.
    apply mail_entry_logged_for. }
  set (line := log_request (in_method i) (in_originalUrl i)
                 (mkMeta (in_query i) undefined (in_ip i))).
  assert (Hline : logged_for i (db w) line) by (cbn; tauto).
  assert (Hlog : log w2 = (log w ++ line :: entries)%list).
  { rewrite Hl. cbn. now rewrite <- app_assoc. }
  assert (Hfail : forall e, message_is_fixed (err_message e) ->
            logged_for i (db w)
              (log_failure (error_status e) (err_message e)
                 (originalUrl req) (method req) (ip req))).
  { intros e Hfix. cbn. tauto. }
  assert (Hstored : only_hashes_stored env (db w)
            (db (fst match out with
                     | next =>
                         (w2, json NOT_FOUND
                                (body_error NOT_FOUND "Route not found"))
                     | next_err e => errorHandler w2 e req
                     | json st b0 => (w2, json st b0)
                     | throws x => errorHandler w2 (Thrown x) req
                     end))).
  { destruct out; exact Hdb. }
  split; [exact Hstored |]. intros b' _.
  destruct out as [| e | st b0 | x]; cbn [fst snd errorHandler add_log log db].
  - exists (line :: entries).
    split; [exact Hlog |]. split; [now constructor | now left].
  - exists ((line :: entries) ++ [log_failure (error_status e) (err_message e)
              (originalUrl req) (method req) (ip req)])%list.
    split; [rewrite Hlog; now rewrite app_assoc |].
    split; [| now left].
    apply Forall_app. split; [now constructor |].
    constructor; [now apply Hfail | constructor].
  - exists (line :: entries).
    split; [exact Hlog |]. split; [now constructor | now left].
  - exists ((line :: entries) ++ [log_failure (error_status (Thrown x))
              (err_message (Thrown x))
              (originalUrl req) (method req) (ip req)])%list.
    split; [rewrite Hlog; now rewrite app_assoc |].
    split; [| now left].
    apply Forall_app. split; [now constructor |].
    constructor; [now apply Hfail | constructor].
Qed.


End Properties.

(* ------------------------------------------------------------------ *)
(** ** The properties on the sample data                               *)
(* ------------------------------------------------------------------ *)

Import StatusCodes.

(** C2 as stated fails: a login whose payload is no JSON is refused by
    the body parser, and the error handler writes the parser's message
    to the log, which quotes the payload and the password in it. *)
Lemma refused_payload_is_logged_with_its_text :
  In (log_failure 400 Scenario.parse_message "/api/auth/login" "POST"
        "127.0.0.1")
    (log (fst (app (lib := Sample.libraries) (auth_controller_scope false)
                 Sample.env Sample.world Scenario.malformed_login)))
  /\ str_includes Scenario.raw_login "hunter2" = true
  /\ str_includes Scenario.parse_message "hunter2" = true.
Proof.
  split; [right; left; reflexivity |]. split; reflexivity.
Qed.

(** C2 as amended, on the sample data: alice's login adds the request
    line to the log, and the lines it adds carry nothing of the body. *)
Lemma password_neither_logged_nor_stored_witness :
  exists entries,
    log (fst (app (lib := Sample.libraries) (auth_controller_scope false)
                Sample.env Sample.world
                (Scenario.arrival POST_login undefined
                   (Sample.credentials "alice@x.com" "Abc12345!"))))
      = (log Sample.world ++ entries)%list
    /\ Forall
         (logged_for
            (Scenario.arrival POST_login undefined
               (Sample.credentials "alice@x.com" "Abc12345!"))
            (db Sample.world))
         entries.
Proof.
  destruct (proj2 (password_neither_logged_nor_stored
                     (lib := Sample.libraries) (auth_controller_scope false)
                     Sample.env Sample.world
                     (Scenario.arrival POST_login undefined
                        (Sample.credentials "alice@x.com" "Abc12345!")))
              (Sample.credentials "alice@x.com" "Abc12345!") eq_refl)
    as [entries [Hl [Hall _]]].
  exists entries. split; assumption.
Defined.

(** C10 on the sample data: the token issued at 1000200 ms carries the
    second 1000, the second of alice's password change at 1000700 ms,
    and [protect] honours it. *)
Lemma same_second_token_is_honoured_witness :
  changedPasswordAfter Sample.alice_user 1000 = false
  /\ protect (lib := Sample.libraries) Sample.env Sample.table
       (Sample.bearer Sample.early_token) Sample.no_locals =
     (with_user (val Sample.alice_user) (Sample.bearer Sample.early_token),
      mkLocals (val Sample.alice_user), next).
Proof.
  apply (proj2 (same_second_token_is_honoured (lib := Sample.libraries)
                  Sample.env Sample.table (Sample.bearer Sample.early_token)
                  Sample.no_locals Sample.early_token
                  (mkDecoded "id-alice" 1000) Sample.alice 1000700
                  ltac:(lia) eq_refl eq_refl ltac:(discriminate) eq_refl
                  eq_refl)).
  reflexivity.
Defined.

(** C4 as stated fails: the token was issued at 1000200 ms, before the
    password change at 1000700 ms, and [protect] honours it. *)
Lemma token_issued_before_change_is_honoured :
  jwt_verify (Libraries := Sample.libraries) (now Sample.env)
    Sample.early_token = Some (mkDecoded "id-alice" 1000)
  /\ col_passwordChangedAt Sample.alice = Some 1000700
  /\ 1000 * 1000 < 1000700
  /\ snd (protect (lib := Sample.libraries) Sample.env Sample.table
            (Sample.bearer Sample.early_token) Sample.no_locals) = next.
Proof.
  split; [reflexivity |]. split; [reflexivity |]. split; [lia | reflexivity].
Qed.

(** C4 as amended, on the sample data: alice's token of the second 999
    is rejected as stale, and her token of the second 1500, which
    [protect] honours, is not earlier than the second of her password
    change. *)
Lemma protect_staleness_witness :
  (exists msg,
     protect (lib := Sample.libraries) Sample.env Sample.table
       (Sample.bearer "id-alice.999") Sample.no_locals =
       (Sample.bearer "id-alice.999", Sample.no_locals,
        next_err (App (mkAppError msg UNAUTHORIZED)))
     /\ msg = "User recently changed password! Please log in again.")
  /\ Z.quot 1000700 1000 <= 1500.
Proof.
  split.
  - destruct (proj2 (protect_staleness (lib := Sample.libraries)
                       Sample.env Sample.table (Sample.bearer "id-alice.999")
                       Sample.no_locals "id-alice.999"
                       (mkDecoded "id-alice" 999) Sample.alice
                       eq_refl ltac:(discriminate) eq_refl
                       ltac:(left; reflexivity) eq_refl
                       ltac:(intros r [<- | [<- | []]] H;
                             [reflexivity | discriminate H]))
                1000700 eq_refl eq_refl)
      as [msg [H1 [_ H3]]].
    exists msg. split; [exact H1 | apply H3; reflexivity].
  - apply (proj2 (proj1 (protect_staleness (lib := Sample.libraries)
                           Sample.env Sample.table
                           (Sample.bearer Sample.fresh_token)
                           Sample.no_locals Sample.fresh_token
                           (mkDecoded "id-alice" 1500) Sample.alice
                           eq_refl ltac:(discriminate) eq_refl
                           ltac:(left; reflexivity) eq_refl
                           ltac:(intros r [<- | [<- | []]] H;
                                 [reflexivity | discriminate H]))
                    eq_refl)
             1000700 eq_refl).
Defined.

(** C8 on the sample data: alice, a plain user, is refused on an
    admin-only route, and a request with no user attached is not let
    through. *)
Lemma restrictTo_fails_closed_witness :
  restrictTo ["admin"]
    (with_user (val Sample.alice_user) (Sample.bearer Sample.fresh_token)) =
    next_err (App (mkAppError
      "You do not have permission to perform this action" FORBIDDEN))
  /\ restrictTo ["admin"] (Sample.bearer Sample.fresh_token) <> next.
Proof.
  split.
  - apply (proj1 (restrictTo_fails_closed ["admin"]
                    (with_user (val Sample.alice_user)
                       (Sample.bearer Sample.fresh_token)))
             Sample.alice_user eq_refl eq_refl).
  - apply (proj2 (restrictTo_fails_closed ["admin"]
                    (Sample.bearer Sample.fresh_token))).
    left. reflexivity.
Defined.

(** C9 as stated fails: on a request that carries a valid token in the
    Authorization header and no cookie, [protect] attaches alice and
    [isLoggedIn] attaches nobody. *)
Lemma isLoggedIn_ignores_bearer_header :
  snd (fst (protect (lib := Sample.libraries) Sample.env Sample.table
              (Sample.bearer Sample.fresh_token) Sample.no_locals))
    = mkLocals (val Sample.alice_user)
  /\ snd (protect (lib := Sample.libraries) Sample.env Sample.table
            (Sample.bearer Sample.fresh_token) Sample.no_locals) = next
  /\ isLoggedIn (lib := Sample.libraries) Sample.env Sample.table
       (Sample.bearer Sample.fresh_token) Sample.no_locals
     = (mkLocals undefined, next).
Proof.
  split; [reflexivity |]. split; reflexivity.
Qed.

(** C9 as amended, on the sample data: with the token in the cookie both
    gates attach alice. *)
Lemma isLoggedIn_agrees_on_cookie_witness :
  fst (isLoggedIn (lib := Sample.libraries) Sample.env Sample.table
         (Sample.cookie Sample.fresh_token) Sample.no_locals)
  = mkLocals (val Sample.alice_user).
Proof.
  exact (proj2 (proj2 (isLoggedIn_agrees_on_cookie (lib := Sample.libraries)
                         Sample.env Sample.table
                         (Sample.cookie Sample.fresh_token) Sample.no_locals))
           eq_refl).
Defined.

(** C5 on the sample data: with the number 12345678 for the password,
    an unknown address gets the 401 and alice's address a 500. *)
Lemma login_password_type_reveals_account_witness :
  login (lib := Sample.libraries) Sample.env Sample.world
    (Sample.request undefined undefined
       (Scenario.numeric_credentials "nobody@x.com"))
  = (Sample.world,
     next_err (App (mkAppError "Incorrect email or password" UNAUTHORIZED)))
  /\ login (lib := Sample.libraries) Sample.env Sample.world
       (Sample.request undefined undefined
          (Scenario.numeric_credentials "alice@x.com"))
     = (Sample.world,
        next_err (Thrown (Error "Illegal arguments: number, string")))
  /\ http_status
       (snd (login (lib := Sample.libraries) Sample.env Sample.world
               (Sample.request undefined undefined
                  (Scenario.numeric_credentials "alice@x.com")))) = 500.
Proof.
  split.
  - apply (proj1 (login_password_type_reveals_account
                    (lib := Sample.libraries) Sample.env Sample.world
                    (Sample.request undefined undefined
                       (Scenario.numeric_credentials "nobody@x.com"))
                    (Scenario.numeric_credentials "nobody@x.com")
                    "nobody@x.com" (jnumber "12345678")
                    eq_refl eq_refl ltac:(discriminate) eq_refl eq_refl
                    ltac:(discriminate))).
    reflexivity.
  - apply (proj2 (login_password_type_reveals_account
                    (lib := Sample.libraries) Sample.env Sample.world
                    (Sample.request undefined undefined
                       (Scenario.numeric_credentials "alice@x.com"))
                    (Scenario.numeric_credentials "alice@x.com")
                    "alice@x.com" (jnumber "12345678")
                    eq_refl eq_refl ltac:(discriminate) eq_refl eq_refl
                    ltac:(discriminate))
             Sample.alice eq_refl).
Defined.

(** C6 as stated fails: bob is deactivated, his credentials are right,
    and the answer is not 401. *)
Lemma login_deactivated_is_not_401 :
  col_isActive Sample.bob = false
  /\ bcrypt_compare (Libraries := Sample.libraries) "Xyz98765?"
       (col_password Sample.bob) = true
  /\ http_status
       (snd (login (lib := Sample.libraries) Sample.env Sample.world
               (Sample.request undefined undefined
                  (Sample.credentials "bob@x.com" "Xyz98765?")))) <> 401.
Proof.
  split; [reflexivity |]. split; [reflexivity |]. vm_compute. discriminate.
Qed.

(** C6 as amended, on the sample data: bob gets 403. *)
Lemma login_deactivated_is_forbidden_witness :
  http_status
    (snd (login (lib := Sample.libraries) Sample.env Sample.world
            (Sample.request undefined undefined
               (Sample.credentials "bob@x.com" "Xyz98765?")))) = 403.
Proof.
  exact (proj1 (proj2 (login_deactivated_is_forbidden
                         (lib := Sample.libraries) Sample.env Sample.world
                         (Sample.request undefined undefined
                            (Sample.credentials "bob@x.com" "Xyz98765?"))
                         (Sample.credentials "bob@x.com" "Xyz98765?")
                         "bob@x.com" "Xyz98765?" Sample.bob
                         eq_refl eq_refl eq_refl ltac:(discriminate)
                         ltac:(discriminate) eq_refl eq_refl eq_refl))).
Defined.

(** C7 as stated fails, twice.  No account has the address carol@x.com,
    the request passes the chains of the route, which give the password
    no upper bound, and yet with a password of 135 characters nothing is
    created and the answer is a 500, not the 201.  And once alice's
    account is soft-deleted, a registration under her address finds no
    account, so it is no 409, and creates none either: the unique index
    still holds her row, and the answer is a 500. *)
Lemma register_answers_neither_409_nor_201 :
  (email_taken "carol@x.com" (db Sample.world) = false
   /\ String.length Scenario.long_password = 135%nat
   /\ fst (register (lib := Sample.libraries) Sample.env Sample.world
             (Sample.request undefined undefined
                (Sample.registration "carol@x.com" Scenario.long_password
                   undefined))) = Sample.world
   /\ http_status
        (snd (register (lib := Sample.libraries) Sample.env Sample.world
                (Sample.request undefined undefined
                   (Sample.registration "carol@x.com" Scenario.long_password
                      undefined)))) = 500)
  /\ (findOne_row (fun r => String.eqb (col_email r) "alice@x.com")
        (db Scenario.alice_deleted) = None
      /\ register (lib := Sample.libraries) Sample.env Scenario.alice_deleted
           (Sample.request undefined undefined
              (Sample.registration "alice@x.com" "Abc12345!" undefined))
         = (Scenario.alice_deleted,
            next_err (Thrown (SequelizeUniqueConstraintError
                                "Email already in use")))
      /\ http_status
           (snd (register (lib := Sample.libraries) Sample.env
                   Scenario.alice_deleted
                   (Sample.request undefined undefined
                      (Sample.registration "alice@x.com" "Abc12345!"
                         undefined)))) = 500).
Proof.
  split.
  - split; [reflexivity |]. split; [reflexivity |].
    split; vm_compute; reflexivity.
  - split; [reflexivity |]. split; vm_compute; reflexivity.
Qed.

(** C7 on the sample data: registering alice's address again is a 409;
    registering Carol@X.com appends a row for carol@x.com with a hashed
    password and the role [user]. *)
Lemma register_conflict_or_created_witness :
  register (lib := Sample.libraries) Sample.env Sample.world
    (Sample.request undefined undefined
       (Sample.registration "alice@x.com" "Abc12345!" undefined))
  = (Sample.world,
     next_err (App (mkAppError "Email already in use" CONFLICT)))
  /\ exists row u,
       register (lib := Sample.libraries) Sample.env Sample.world
         (Sample.request undefined undefined
            (Sample.registration "Carol@X.com" "Abc12345!" undefined))
       = (with_db (db Sample.world ++ [row]) Sample.world,
          json CREATED (body_token "id-new.2000" u))
       /\ col_email row = "carol@x.com"
       /\ col_password row = Sample.hash "c2FsdA" "Abc12345!"
       /\ col_role row = "user"
       /\ password u = undefined.
Proof.
  split.
  - apply (proj1 (register_conflict_or_created (lib := Sample.libraries)
                    Sample.env Sample.world
                    (Sample.request undefined undefined
                       (Sample.registration "alice@x.com" "Abc12345!"
                          undefined))
                    (Sample.registration "alice@x.com" "Abc12345!" undefined)
                    "alice@x.com" eq_refl eq_refl eq_refl)
             Sample.alice eq_refl).
  - destruct (proj2 (register_conflict_or_created (lib := Sample.libraries)
                       Sample.env Sample.world
                       (Sample.request undefined undefined
                          (Sample.registration "Carol@X.com" "Abc12345!"
                             undefined))
                       (Sample.registration "Carol@X.com" "Abc12345!"
                          undefined)
                       "Carol@X.com" eq_refl eq_refl eq_refl)
                "Carol" "Cooper" "Abc12345!" eq_refl eq_refl eq_refl eq_refl
                eq_refl eq_refl eq_refl eq_refl eq_refl eq_refl eq_refl
                eq_refl eq_refl eq_refl)
      as [row [u [Hreg [_ [Hemail [Hpw [_ [Hrole [_ [_ [_ [_ [Hp _]]]]]]]]]]]]].
    exists row, u. repeat split; try assumption.
    now apply Hrole.
Defined.

(** C3 on the sample data: the mail to alice cannot be delivered, the
    answer is the 500 error, and her row still holds the digest of the
    secret and an expiry ten minutes ahead. *)
Lemma forgotPassword_rollback_keeps_digest_witness :
  snd (forgotPassword (lib := Sample.libraries) Sample.env_smtp_down
         Sample.world
         (Sample.request undefined undefined
            (Sample.credentials "alice@x.com" "")))
  = next_err (App (mkAppError
      "There was an error sending the email. Try again later!"
      INTERNAL_SERVER_ERROR))
  /\ exists r,
       In r (db (fst (forgotPassword (lib := Sample.libraries)
                        Sample.env_smtp_down Sample.world
                        (Sample.request undefined undefined
                           (Sample.credentials "alice@x.com" "")))))
       /\ col_id r = "id-alice"
       /\ col_passwordResetToken r = Some "sha256:5eed"
       /\ col_passwordResetExpires r = Some 2600000.
Proof.
  destruct (forgotPassword_rollback_keeps_digest (lib := Sample.libraries)
              Sample.env_smtp_down Sample.world
              (Sample.request undefined undefined
                 (Sample.credentials "alice@x.com" ""))
              (Sample.credentials "alice@x.com" "") "alice@x.com"
              Sample.alice eq_refl eq_refl eq_refl eq_refl)
    as [Hout [_ [[r [Hin Hid]] Hall]]].
  split; [exact Hout |].
  exists r. split; [exact Hin |]. split; [exact Hid |].
  destruct (Hall r Hin Hid) as [Htok [Hexp _]].
  split; [exact Htok | exact Hexp].
Defined.

(* ------------------------------------------------------------------ *)
(** ** Further properties of the handlers and of the application       *)
(* ------------------------------------------------------------------ *)

Section MoreProperties.

Context {lib : Libraries}.

Import StatusCodes.

(** *** Lookups after an update *)

Lemma findOne_row_map (cond : UserRow -> bool) (f : UserRow -> UserRow)
    (table : list UserRow) :
  (forall r, visible (f r) = visible r) ->
  (forall r, cond (f r) = cond r) ->
  findOne_row cond (map f table) = option_map f (findOne_row cond table).
Proof.
  intros Hv Hc. unfold findOne_row.
  induction table as [| r table IH]; [reflexivity |].
  cbn. rewrite Hv, Hc. destruct (visible r && cond r); [reflexivity | exact IH].
Qed.

Lemma findOne_row_update_by_id (u : User) (pk : string) (table : list UserRow) :
  findOne_row (fun r => String.eqb (col_id r) pk) (update_where_id u table) =
  option_map (fun r => if String.eqb (col_id r) (id u) then update_row u r
                       else r)
    (findOne_row (fun r => String.eqb (col_id r) pk) table).
Proof.
  unfold update_where_id. apply findOne_row_map; intros r;
    now destruct (String.eqb (col_id r) (id u)).
Qed.

Lemma findOne_row_update_by_email (u : User) (e : string)
    (table : list UserRow) :
  changed a_email u = false ->
  findOne_row (fun r => String.eqb (col_email r) e) (update_where_id u table) =
  option_map (fun r => if String.eqb (col_id r) (id u) then update_row u r
                       else r)
    (findOne_row (fun r => String.eqb (col_email r) e) table).
Proof.
  intros Hc. unfold update_where_id. apply findOne_row_map; intros r;
    destruct (String.eqb (col_id r) (id u)); try reflexivity.
  cbn. now rewrite Hc.
Qed.

(** A save that changes no validated attribute and not the password is
    one UPDATE. *)
Lemma save_plain (env : Env) (u : User) (table : list UserRow) :
  validate_instance u (changed_attrs u) = [] ->
  changed a_password u = false ->
  changed a_email u = false ->
  save env u table = (inr (clean u), update_where_id u table).
Proof.
  intros Hv Hc He. unfold save, save_fields, beforeUpdate.
  rewrite Hv, Hc. cbn [app]. unfold changed in He. unfold among.
  now rewrite He.
Qed.

(** *** The strict gate *)

Lemma startsWith_nonempty (h p : string) :
  p <> "" -> startsWith h p = true -> String.eqb h "" = false.
Proof.
  intros Hp H. destruct h; [| reflexivity].
  destruct p; [congruence | discriminate].
Qed.

(** X1.  An Authorization header that starts with [Bearer] decides the
    token alone: the [jwt] cookie is never consulted, and when the header
    holds no second word the request is refused as not logged in even if
    the cookie carries a token. *)
Theorem bearer_header_shadows_cookie (env : Env) (table : list UserRow)
    (req : Request) (locals : Locals) (h : string) :
  headers_authorization req = val h ->
  startsWith h "Bearer" = true ->
  protect_token req = index (split " " h) 1
  /\ (index (split " " h) 1 = undefined \/ index (split " " h) 1 = val "" ->
      protect env table req locals =
        (req, locals, next_err (App (mkAppError
           "You are not logged in! Please log in to get access."
           UNAUTHORIZED)))).
Proof.
  intros Hh Hs.
  assert (Htok : protect_token req = index (split " " h) 1).
  { unfold protect_token, has_bearer. rewrite Hh, Hs.
    now rewrite (startsWith_nonempty h "Bearer") by (assumption || discriminate). }
  split; [exact Htok |].
  intros Hnone. unfold protect. rewrite Htok.
  now destruct Hnone as [-> | ->].
Qed.

(** X2.  [protect] calls [next()] only for a request whose token
    verifies and names a row that is not soft-deleted and whose password
    did not change after the token was issued; the account it attaches to
    [req.user] and [res.locals.user] is that row read in the default
    scope, without the password hash and the reset attributes. *)
Theorem protect_grants_only_verified (env : Env) (table : list UserRow)
    (req req' : Request) (locals locals' : Locals) :
  protect env table req locals = (req', locals', next) ->
  exists token decoded row,
    protect_token req = val token
    /\ jwt_verify (now env) token = Some decoded
    /\ In row table /\ col_id row = d_id decoded /\ col_deletedAt row = None
    /\ changedPasswordAfter (load_default row) (d_iat decoded) = false
    /\ req' = with_user (val (load_default row)) req
    /\ locals_user locals' = val (load_default row)
    /\ password (load_default row) = undefined
    /\ passwordResetToken (load_default row) = undefined
    /\ passwordResetExpires (load_default row) = undefined.
Proof.
  unfold protect.
  destruct (protect_token req) as [| | token]; try discriminate.
  destruct (String.eqb token ""); [discriminate |].
  destruct (jwt_verify (now env) token) as [decoded |] eqn:Hv; [| discriminate].
  unfold findByPk, findOne.
  destruct (findOne_row _ table) as [row |] eqn:Hrow; [| discriminate].
  destruct (changedPasswordAfter (load_default row) (d_iat decoded)) eqn:Hc;
    [discriminate |].
  intros [= <- <-].
  apply findOne_row_some in Hrow. destruct Hrow as [Hin [Hvis Hid]].
  apply String.eqb_eq in Hid.
  exists token, decoded, row. repeat split; try assumption.
  unfold visible in Hvis. now destruct (col_deletedAt row).
Qed.


(** *** Deactivation *)

(** The run of [deactivateUser] on an account that is found. *)
Lemma deactivateUser_found (env : Env) (w : World) (req : Request)
    (row : UserRow) :
  findOne_row (fun r => String.eqb (col_id r) (params_id req)) (db w)
    = Some row ->
  deactivateUser env w req =
    (with_db (update_where_id (set_isActive false (load_default row)) (db w)) w,
     json OK (body_message_user "User deactivated successfully"
                (clean (set_isActive false (load_default row))))).
Proof.
  intros Hrow. unfold deactivateUser, findByPk, findOne. rewrite Hrow.
  rewrite save_plain; [reflexivity | | |].
  - unfold validate_instance. cbn. now destruct (col_isActive row).
  - unfold changed. cbn. now destruct (col_isActive row).
  - unfold changed. cbn. now destruct (col_isActive row).
Qed.

Lemma deactivated_row (row : UserRow) :
  col_isActive (update_row (set_isActive false (load_default row)) row) = false.
Proof.
  unfold update_row, changed. cbn.
  destruct (col_isActive row); reflexivity.
Qed.

Lemma deactivated_row_columns (row : UserRow) :
  let row' := update_row (set_isActive false (load_default row)) row in
  col_id row' = col_id row /\ col_email row' = col_email row
  /\ col_password row' = col_password row
  /\ col_passwordChangedAt row' = col_passwordChangedAt row
  /\ col_deletedAt row' = col_deletedAt row.
Proof.
  unfold update_row, changed. cbn.
  destruct (col_isActive row); cbn; repeat split.
Qed.

(** X3.  Deactivating an account does not end its sessions: [protect]
    never looks at [isActive], so a token that was good before
    [deactivateUser] still authenticates afterwards, and the account it
    attaches is the deactivated one. *)
Theorem deactivated_account_keeps_session (env env' : Env) (w : World)
    (reqA req : Request) (locals : Locals) (token : string)
    (decoded : Decoded) (row : UserRow) :
  findOne_row (fun r => String.eqb (col_id r) (params_id reqA)) (db w)
    = Some row ->
  protect_token req = val token ->
  token <> "" ->
  jwt_verify (now env') token = Some decoded ->
  d_id decoded = col_id row ->
  changedPasswordAfter (load_default row) (d_iat decoded) = false ->
  exists u,
    protect env' (db (fst (deactivateUser env w reqA))) req locals =
      (with_user (val u) req, mkLocals (val u), next)
    /\ id u = col_id row
    /\ isActive u = false.
Proof.
  intros Hrow Htok Hne Hver Hid Hfresh.
  rewrite (deactivateUser_found env w reqA row Hrow). cbn [fst with_db db].
  pose proof (findOne_row_some _ _ _ Hrow) as [_ [_ Hpk]].
  apply String.eqb_eq in Hpk.
  set (u := set_isActive false (load_default row)).
  assert (Hfind : findOne_row (fun r => String.eqb (col_id r) (d_id decoded))
                    (update_where_id u (db w)) = Some (update_row u row)).
  { assert (Hd : d_id decoded = params_id reqA) by congruence.
    rewrite findOne_row_update_by_id, Hd, Hrow. cbn.
    now rewrite String.eqb_refl. }
  exists (load_default (update_row u row)).
  rewrite (protect_loaded env' _ req locals token decoded (update_row u row))
    by assumption.
  destruct (deactivated_row_columns row) as [Hi [_ [_ [Hc _]]]].
  fold u in Hi, Hc.
  assert (Hsame : changedPasswordAfter (load_default (update_row u row))
                    (d_iat decoded) = false).
  { unfold changedPasswordAfter in *. cbn [passwordChangedAt load_default] in *.
    now rewrite Hc. }
  rewrite Hsame. split; [reflexivity |]. split; [exact Hi |].
  apply deactivated_row.
Qed.

(** X15.  After [deactivateUser], a login with the right password for
    that account is refused with 403 and changes nothing. *)
Theorem deactivate_then_login_forbidden (env env' : Env) (w : World)
    (reqA reqL : Request) (b : Body) (e p : string) (row : UserRow) :
  findOne_row (fun r => String.eqb (col_id r) (params_id reqA)) (db w)
    = Some row ->
  body reqL = val b -> b_email b = val e -> b_password b = val (jstring p) ->
  e <> "" -> p <> "" ->
  findOne_row (fun r => String.eqb (col_email r) (toLowerCase e)) (db w)
    = Some row ->
  bcrypt_compare p (col_password row) = true ->
  login env' (fst (deactivateUser env w reqA)) reqL =
    (fst (deactivateUser env w reqA),
     next_err (App (mkAppError "Your account has been deactivated" FORBIDDEN))).
Proof.
  intros Hrow Hb He Hp Hne Hnp Hmail Hcmp.
  rewrite (deactivateUser_found env w reqA row Hrow). cbn [fst].
  pose proof (findOne_row_some _ _ _ Hrow) as [_ [_ Hpk]].
  apply String.eqb_eq in Hpk.
  set (u := set_isActive false (load_default row)).
  unfold login. rewrite Hb, He, Hp, truthy_val, truthy_json_val by assumption.
  cbn [negb orb with_db db]. unfold findOne_withPassword.
  rewrite findOne_row_update_by_email, Hmail.
  2:{ unfold changed. cbn. now destruct (col_isActive row). }
  cbn [option_map]. replace (id u) with (col_id row) by reflexivity.
  rewrite String.eqb_refl.
  destruct (deactivated_row_columns row) as [_ [_ [Hpw _]]]. fold u in Hpw.
  cbn [load_withPassword password isActive correctPassword].
  rewrite Hpw, Hcmp.
  pose proof (deactivated_row row) as Hd. fold u in Hd. now rewrite Hd.
Qed.


(** *** Soft deletion and restoring *)

Lemma set_deletedAt_hides (pk : string) (t : Z) (table : list UserRow) :
  findOne_row (fun r => String.eqb (col_id r) pk)
    (set_deletedAt pk (Some t) table) = None.
Proof.
  unfold findOne_row, set_deletedAt.
  induction table as [| r table IH]; [reflexivity |].
  cbn. destruct (String.eqb (col_id r) pk) eqn:E; cbn.
  - exact IH.
  - rewrite E, andb_false_r. exact IH.
Qed.

Lemma set_deletedAt_columns (pk : string) (v : option Z)
    (table : list UserRow) :
  map col_id (set_deletedAt pk v table) = map col_id table
  /\ map col_email (set_deletedAt pk v table) = map col_email table
  /\ map col_password (set_deletedAt pk v table) = map col_password table.
Proof.
  unfold set_deletedAt. rewrite !map_map.
  repeat split; apply map_ext; intros r;
    now destruct (String.eqb (col_id r) pk).
Qed.

(** The run of [deleteUser] on an account that is found. *)
Lemma deleteUser_found (env : Env) (w : World) (req : Request)
    (row : UserRow) :
  findOne_row (fun r => String.eqb (col_id r) (params_id req)) (db w)
    = Some row ->
  deleteUser env w req =
    (with_db (set_deletedAt (params_id req) (Some (now env)) (db w)) w,
     json NO_CONTENT body_null).
Proof.
  intros Hrow. unfold deleteUser, findByPk, findOne. rewrite Hrow.
  apply findOne_row_some in Hrow. destruct Hrow as [_ [_ Hpk]].
  apply String.eqb_eq in Hpk. cbn [id load_default]. now rewrite Hpk.
Qed.

(** X16.  [deleteUser] answers 204 and only marks the rows of the account
    as deleted: no row is removed and every id, email and password hash
    stays in the table.  Afterwards the account is gone for [getUser] and
    for a second [deleteUser] (both 404), and [protect] refuses every
    token of the account. *)
Theorem deleteUser_hides_account (env env' : Env) (w : World) (req : Request)
    (row : UserRow) :
  findOne_row (fun r => String.eqb (col_id r) (params_id req)) (db w)
    = Some row ->
  let w1 := fst (deleteUser env w req) in
  snd (deleteUser env w req) = json NO_CONTENT body_null
  /\ map col_id (db w1) = map col_id (db w)
  /\ map col_email (db w1) = map col_email (db w)
  /\ map col_password (db w1) = map col_password (db w)
  /\ getUser w1 req =
       (w1, next_err (App (mkAppError "No user found with that ID" NOT_FOUND)))
  /\ deleteUser env' w1 req =
       (w1, next_err (App (mkAppError "No user found with that ID" NOT_FOUND)))
  /\ (forall reqT locals token decoded,
        protect_token reqT = val token -> token <> "" ->
        jwt_verify (now env') token = Some decoded ->
        d_id decoded = params_id req ->
        protect env' (db w1) reqT locals =
          (reqT, locals, next_err (App (mkAppError
             "The user belonging to this token no longer exists."
             UNAUTHORIZED)))).
Proof.
  intros Hrow. cbv zeta. rewrite (deleteUser_found env w req row Hrow).
  cbn [fst snd with_db db].
  destruct (set_deletedAt_columns (params_id req) (Some (now env)) (db w))
    as [Hi [He Hp]].
  split; [reflexivity |]. split; [exact Hi |]. split; [exact He |].
  split; [exact Hp |].
  split; [| split].
  - unfold getUser, findByPk, findOne. cbn [db with_db].
    now rewrite set_deletedAt_hides.
  - unfold deleteUser, findByPk, findOne. cbn [db with_db].
    now rewrite set_deletedAt_hides.
  - intros reqT locals token decoded Htok Hne Hver Hid.
    unfold protect. rewrite Htok. apply String.eqb_neq in Hne.
    rewrite Hne, Hver. unfold findByPk, findOne.
    now rewrite Hid, set_deletedAt_hides.
Qed.

Lemma find_map_preserving (cond : UserRow -> bool) (f : UserRow -> UserRow)
    (table : list UserRow) :
  (forall r, cond (f r) = cond r) ->
  find cond (map f table) = option_map f (find cond table).
Proof.
  intros Hc. induction table as [| r table IH]; [reflexivity |].
  cbn. rewrite Hc. destruct (cond r); [reflexivity | exact IH].
Qed.

Lemma findOne_row_all_visible (cond : UserRow -> bool) (table : list UserRow) :
  (forall r, In r table -> cond r = true -> visible r = true) ->
  findOne_row cond table = find cond table.
Proof.
  unfold findOne_row. induction table as [| r table IH]; [reflexivity |].
  intros H. cbn. destruct (cond r) eqn:E.
  - rewrite (H r (or_introl eq_refl) E). reflexivity.
  - rewrite andb_false_r. apply IH. intros r' Hin. apply H. now right.
Qed.

(** X17.  [reactivateUser] undoes [deleteUser]: when the row with the id
    is live, deleting and then reactivating it answers 200 and leaves the
    row live again and active, with every other column as it was. *)
Theorem delete_then_reactivate_restores (env env' : Env) (w : World)
    (req : Request) (row : UserRow) :
  find (fun r => String.eqb (col_id r) (params_id req)) (db w) = Some row ->
  col_deletedAt row = None ->
  let w1 := fst (deleteUser env w req) in
  let w2 := fst (reactivateUser env' w1 req) in
  let restored :=
    mkRow (col_id row) (col_firstName row) (col_lastName row) (col_email row)
      (col_password row) (col_role row) true (col_lastLogin row)
      (col_passwordChangedAt row) (col_passwordResetToken row)
      (col_passwordResetExpires row) None in
  findOne_row (fun r => String.eqb (col_id r) (params_id req)) (db w1) = None
  /\ (exists u, snd (reactivateUser env' w1 req) =
        json OK (body_message_user "User reactivated successfully" u)
        /\ id u = col_id row /\ isActive u = true)
  /\ findOne_row (fun r => String.eqb (col_id r) (params_id req)) (db w2)
     = Some restored.
Proof.
  intros Hfind Hlive. cbv zeta.
  assert (Hpk : col_id row = params_id req).
  { apply find_some in Hfind. now apply String.eqb_eq. }
  assert (Hrow : findOne_row (fun r => String.eqb (col_id r) (params_id req))
                   (db w) = Some row).
  { clear Hpk. unfold findOne_row. revert Hfind.
    induction (db w) as [| r table IH]; [discriminate |].
    cbn. destruct (String.eqb (col_id r) (params_id req)).
    - intros [= ->]. unfold visible. now rewrite Hlive.
    - rewrite andb_false_r. exact IH. }
  rewrite (deleteUser_found env w req row Hrow). cbn [fst with_db db].
  split; [apply set_deletedAt_hides |].
  set (del := fun r : UserRow =>
         if String.eqb (col_id r) (params_id req) then
           mkRow (col_id r) (col_firstName r) (col_lastName r) (col_email r)
             (col_password r) (col_role r) (col_isActive r) (col_lastLogin r)
             (col_passwordChangedAt r) (col_passwordResetToken r)
             (col_passwordResetExpires r) (Some (now env))
         else r).
  assert (Hdel : find (fun r => String.eqb (col_id r) (params_id req))
                   (set_deletedAt (params_id req) (Some (now env)) (db w))
                 = Some (del row)).
  { unfold set_deletedAt. fold del. rewrite find_map_preserving, Hfind.
    - reflexivity.
    - intros r. unfold del.
      destruct (String.eqb (col_id r) (params_id req)) eqn:E; cbn; congruence. }
  assert (Edel : del row =
            mkRow (col_id row) (col_firstName row) (col_lastName row)
              (col_email row) (col_password row) (col_role row)
              (col_isActive row) (col_lastLogin row)
              (col_passwordChangedAt row) (col_passwordResetToken row)
              (col_passwordResetExpires row) (Some (now env))).
  { unfold del. apply String.eqb_eq in Hpk. now rewrite Hpk. }
  unfold reactivateUser, findByPk_paranoid_false. cbn [db with_db].
  rewrite Hdel, Edel.
  cbn [load_default deletedAt of_column col_deletedAt truthy_obj id col_id].
  rewrite Hpk.
  match goal with
  | |- context [save env' ?u ?t] =>
      rewrite (save_plain env' u t)
  end.
  2:{ unfold validate_instance. cbn. now destruct (col_isActive row). }
  2:{ unfold changed. cbn. now destruct (col_isActive row). }
  2:{ unfold changed. cbn. now destruct (col_isActive row). }
  cbn [fst snd with_db db]. split.
  - eexists. split; [reflexivity |]. split; [cbn; congruence | reflexivity].
  - assert (E : String.eqb (col_id row) (params_id req) = true)
      by now apply String.eqb_eq.
    rewrite findOne_row_all_visible.
    + unfold update_where_id, set_deletedAt.
      rewrite !find_map_preserving, Hfind
        by (intros r;
            repeat match goal with
                   | |- context [if ?c then _ else _] => destruct c eqn:?
                   end; cbn; congruence).
      cbn. rewrite !E. cbn. rewrite ?E. unfold update_row, changed. cbn.
      rewrite ?E. destruct (col_isActive row); cbn; rewrite Hpk; reflexivity.
    + intros r Hin Hc. apply in_update_where_id in Hin.
      destruct Hin as [r1 [Hin1 [Hid1 Hr]]].
      assert (E1 : String.eqb (col_id r1) (params_id req) = true)
        by (rewrite Hid1; exact Hc).
      unfold set_deletedAt in Hin1. apply in_map_iff in Hin1.
      destruct Hin1 as [r0 [Hr0 Hin0]].
      assert (V : visible r1 = true).
      { subst r1.
        destruct (String.eqb (col_id r0) (params_id req)) eqn:E0;
          [reflexivity | congruence]. }
      subst r. destruct (String.eqb (col_id r1) _); [| exact V].
      unfold visible in *. cbn. exact V.
Qed.


(** *** Changing the password *)

(** The run of [updatePassword] when the current password is right and
    the new one is acceptable and differs from the stored string. *)
Lemma updatePassword_found (env : Env) (w : World) (req : Request)
    (me : User) (b : Body) (c p : string) (row : UserRow) :
  user req = val me ->
  findOne_row (fun r => String.eqb (col_id r) (id me)) (db w) = Some row ->
  body req = val b ->
  b_currentPassword b = val (jstring c) ->
  b_newPassword b = val (jstring p) ->
  bcrypt_compare c (col_password row) = true ->
  blank p = false ->
  len_between 8 128 p = true ->
  p <> col_password row ->
  updatePassword env w req =
    (with_db (update_where_id (rehashed env row p) (db w)) w,
     createSendToken env (clean (rehashed env row p)) OK).
Proof.
  intros Hu Hrow Hb Hc Hp Hcmp Bp Hlen Hneq.
  apply String.eqb_neq in Hneq.
  unfold updatePassword, findByPk_withPassword, findOne_withPassword.
  rewrite Hu, Hrow, Hb, Hc, Hp. cbn [load_withPassword password correctPassword].
  rewrite Hcmp.
  unfold save, save_fields, validate_instance, beforeUpdate, changed. cbn.
  rewrite Hneq. cbn. unfold notEmpty. rewrite Bp, Hlen. reflexivity.
Qed.

(** When the new password is the very string the column holds,
    Sequelize sees no change and nothing is written. *)
Lemma updatePassword_same_string (env : Env) (w : World) (req : Request)
    (me : User) (b : Body) (c : string) (row : UserRow) :
  user req = val me ->
  findOne_row (fun r => String.eqb (col_id r) (id me)) (db w) = Some row ->
  body req = val b ->
  b_currentPassword b = val (jstring c) ->
  b_newPassword b = val (jstring (col_password row)) ->
  bcrypt_compare c (col_password row) = true ->
  db (fst (updatePassword env w req)) = db w
  /\ exists u, snd (updatePassword env w req) =
       json OK (body_token (signToken env (col_id row)) u).
Proof.
  intros Hu Hrow Hb Hc Hp Hcmp.
  unfold updatePassword, findByPk_withPassword, findOne_withPassword.
  rewrite Hu, Hrow, Hb, Hc, Hp. cbn [load_withPassword password correctPassword].
  rewrite Hcmp.
  unfold save, save_fields, validate_instance, beforeUpdate, changed. cbn.
  rewrite String.eqb_refl. cbn. split; [| eexists; reflexivity].
  unfold update_where_id. rewrite <- (map_id (db w)) at 2.
  apply map_ext. intros r.
  match goal with
  | |- context [if ?c then _ else _] => destruct c
  end; [| reflexivity].
  destruct r. unfold update_row, changed. cbn.
  now rewrite String.eqb_refl.
Qed.

Lemma rehashed_row (env : Env) (row : UserRow) (p : string) :
  p <> col_password row ->
  let row' := update_row (rehashed env row p) row in
  col_id row' = col_id row
  /\ col_password row' = bcrypt_hash (salt env) p
  /\ col_passwordChangedAt row' = Some (now env)
  /\ col_email row' = col_email row
  /\ col_role row' = col_role row
  /\ col_isActive row' = col_isActive row
  /\ col_passwordResetToken row' = col_passwordResetToken row
  /\ col_passwordResetExpires row' = col_passwordResetExpires row
  /\ col_deletedAt row' = col_deletedAt row.
Proof.
  intros Hneq. apply String.eqb_neq in Hneq.
  unfold rehashed, update_row, changed. cbn. rewrite Hneq.
  destruct (col_passwordChangedAt row) as [t |] eqn:Ec; cbn.
  - destruct (Z.eqb_spec (now env) t) as [-> | Hn];
      destruct (String.eqb (bcrypt_hash (salt env) p) p); cbn;
      repeat split; reflexivity.
  - destruct (String.eqb (bcrypt_hash (salt env) p) p); cbn;
      repeat split; reflexivity.
Qed.

(** X4.  [updatePassword] first checks the current password against the
    stored hash.  A string that does not match is a 401 and nothing
    changes; a value that is no string makes [bcrypt.compare] throw, and
    nothing changes either.  On a match, with a new password that is a
    string of 8 to 128 characters and not blank, the answer is 200 with a
    token for the account and the password stripped; the row then holds
    the bcrypt hash of the new password and the time of the change, with
    the email, role, active flag and any outstanding reset digest and
    expiry as they were, unless the new password is the very string the
    column holds, which Sequelize takes for no change: then nothing is
    written. *)
Theorem updatePassword_checks_then_rehashes (env : Env) (w : World)
    (req : Request) (me : User) (b : Body) (row : UserRow) :
  user req = val me ->
  findOne_row (fun r => String.eqb (col_id r) (id me)) (db w) = Some row ->
  body req = val b ->
  (forall c, b_currentPassword b = val (jstring c) ->
     bcrypt_compare c (col_password row) = false ->
     updatePassword env w req =
       (w, next_err (App (mkAppError "Your current password is wrong."
                            UNAUTHORIZED))))
  /\ (forall v, b_currentPassword b = val v ->
        (forall c, v <> jstring c) ->
        updatePassword env w req =
          (w, next_err (Thrown (Error
             ("Illegal arguments: " ++ typeof_json (val v) ++ ", string")))))
  /\ (forall c p,
        b_currentPassword b = val (jstring c) ->
        bcrypt_compare c (col_password row) = true ->
        b_newPassword b = val (jstring p) ->
        blank p = false ->
        len_between 8 128 p = true ->
        (exists u,
           snd (updatePassword env w req) =
             json OK (body_token (signToken env (col_id row)) u)
           /\ password u = undefined)
        /\ (p = col_password row ->
            db (fst (updatePassword env w req)) = db w)
        /\ (p <> col_password row ->
            exists row',
              findOne_row (fun r => String.eqb (col_id r) (id me))
                (db (fst (updatePassword env w req))) = Some row'
              /\ col_password row' = bcrypt_hash (salt env) p
              /\ col_passwordChangedAt row' = Some (now env)
              /\ col_email row' = col_email row
              /\ col_role row' = col_role row
              /\ col_isActive row' = col_isActive row
              /\ col_passwordResetToken row' = col_passwordResetToken row
              /\ col_passwordResetExpires row'
                 = col_passwordResetExpires row)).
Proof.
  intros Hu Hrow Hb. split; [| split].
  - intros c Hc Hcmp.
    unfold updatePassword, findByPk_withPassword, findOne_withPassword.
    rewrite Hu, Hrow, Hb, Hc. cbn. now rewrite Hcmp.
  - intros v Hc Hns.
    unfold updatePassword, findByPk_withPassword, findOne_withPassword.
    rewrite Hu, Hrow, Hb, Hc.
    cbn [load_withPassword password correctPassword].
    destruct v as [c | t | c | t |]; try reflexivity.
    now destruct (Hns c).
  - intros c p Hc Hcmp Hp Bp Hlen.
    destruct (String.eqb_spec p (col_password row)) as [Heq | Hneq].
    + subst p.
      destruct (updatePassword_same_string env w req me b c row)
        as [Hdb [u Hout]]; try assumption.
      split; [| split; [intros _; exact Hdb | intros H; now destruct H]].
      exists u. split; [exact Hout |].
      revert Hout.
      unfold updatePassword, findByPk_withPassword, findOne_withPassword.
      rewrite Hu, Hrow, Hb, Hc, Hp.
      cbn [load_withPassword password correctPassword]. rewrite Hcmp.
      destruct (save env _ (db w)) as [[x | u2] table]; [discriminate |].
      unfold createSendToken. cbn [snd]. now intros [= _ <-].
    + rewrite (updatePassword_found env w req me b c p row) by assumption.
      cbn [fst snd with_db db].
      split; [eexists; split; reflexivity |].
      split; [intros H; now destruct Hneq |]. intros _.
      destruct (rehashed_row env row p Hneq)
        as [Hi [Hpw [Hch [He [Hr [Ha [Ht [Hx _]]]]]]]].
      exists (update_row (rehashed env row p) row).
      split.
      * rewrite findOne_row_update_by_id, Hrow. cbn [option_map].
        replace (id (rehashed env row p)) with (col_id row) by reflexivity.
        now rewrite String.eqb_refl.
      * repeat split; assumption.
Qed.

(** X5.  After a password change at [now env], [protect] refuses every
    token of the account whose issued-at second is before the second of
    the change, and honours every verified token of the account issued
    in that second or later.  The token [updatePassword] answers with is
    among the latter when jsonwebtoken's clock is not behind the clock
    the change was stamped with. *)
Theorem updatePassword_invalidates_older_tokens (env env' : Env) (w : World)
    (req : Request) (locals : Locals) (me : User) (b : Body)
    (c p : string) (row : UserRow) :
  user req = val me ->
  findOne_row (fun r => String.eqb (col_id r) (id me)) (db w) = Some row ->
  body req = val b ->
  b_currentPassword b = val (jstring c) ->
  b_newPassword b = val (jstring p) ->
  bcrypt_compare c (col_password row) = true ->
  blank p = false ->
  len_between 8 128 p = true ->
  p <> col_password row ->
  0 <= now env ->
  let table' := db (fst (updatePassword env w req)) in
  (forall reqT token decoded,
     protect_token reqT = val token -> token <> "" ->
     jwt_verify (now env') token = Some decoded ->
     d_id decoded = col_id row ->
     (d_iat decoded < now env / 1000 ->
      protect env' table' reqT locals =
        (reqT, locals, next_err (App (mkAppError
           "User recently changed password! Please log in again."
           UNAUTHORIZED))))
     /\ (now env / 1000 <= d_iat decoded ->
         exists u, protect env' table' reqT locals =
                     (with_user (val u) reqT, mkLocals (val u), next)
                   /\ id u = col_id row))
  /\ (forall reqT decoded,
        protect_token reqT = val (signToken env (col_id row)) ->
        signToken env (col_id row) <> "" ->
        jwt_verify (now env') (signToken env (col_id row)) = Some decoded ->
        d_id decoded = col_id row ->
        d_iat decoded = sign_now env / 1000 ->
        now env <= sign_now env ->
        exists u, protect env' table' reqT locals =
                    (with_user (val u) reqT, mkLocals (val u), next)
                  /\ id u = col_id row).
Proof.
  intros Hu Hrow Hb Hc Hp Hcmp Bp Hlen Hneq Hnow. cbv zeta.
  rewrite (updatePassword_found env w req me b c p row) by assumption.
  cbn [fst with_db db].
  destruct (rehashed_row env row p Hneq) as [Hi [_ [Hch _]]].
  pose proof (findOne_row_some _ _ _ Hrow) as [_ [_ Hme]].
  apply String.eqb_eq in Hme.
  assert (Hgate : forall reqT token decoded,
    protect_token reqT = val token -> token <> "" ->
    jwt_verify (now env') token = Some decoded ->
    d_id decoded = col_id row ->
    protect env' (update_where_id (rehashed env row p) (db w)) reqT locals =
      if d_iat decoded <? now env / 1000 then
        (reqT, locals, next_err (App (mkAppError
           "User recently changed password! Please log in again."
           UNAUTHORIZED)))
      else
        (with_user
           (val (load_default (update_row (rehashed env row p) row))) reqT,
         mkLocals (val (load_default (update_row (rehashed env row p) row))),
         next)).
  { intros reqT token decoded Htok Hne Hver Hid.
    assert (Hfind : findOne_row
                      (fun r => String.eqb (col_id r) (d_id decoded))
                      (update_where_id (rehashed env row p) (db w))
                    = Some (update_row (rehashed env row p) row)).
    { rewrite findOne_row_update_by_id, Hid, Hme, Hrow. cbn [option_map].
      replace (id (rehashed env row p)) with (col_id row) by reflexivity.
      now rewrite String.eqb_refl. }
    rewrite (protect_loaded env' _ reqT locals token decoded
               (update_row (rehashed env row p) row)) by assumption.
    rewrite (changedPasswordAfter_spec _ (now env))
      by (try assumption; cbn [passwordChangedAt load_default];
          now rewrite Hch).
    reflexivity. }
  split.
  - intros reqT token decoded Htok Hne Hver Hid.
    rewrite (Hgate reqT token decoded) by assumption. split.
    + intros H. apply Z.ltb_lt in H. now rewrite H.
    + intros H. apply Z.ltb_ge in H. rewrite H.
      eexists. split; [reflexivity | exact Hi].
  - intros reqT decoded Htok Hne Hver Hid Hiat Hclock.
    rewrite (Hgate reqT (signToken env (col_id row)) decoded) by assumption.
    assert (H : (d_iat decoded <? now env / 1000) = false).
    { apply Z.ltb_ge. rewrite Hiat. apply Z.div_le_mono; lia. }
    rewrite H. eexists. split; [reflexivity | exact Hi].
Qed.


(** *** Logging in *)

(** The run of [login] with the right password on an active account. *)
Lemma login_found (env : Env) (w : World) (req : Request) (b : Body)
    (e p : string) (row : UserRow) :
  body req = val b -> b_email b = val e -> b_password b = val (jstring p) ->
  e <> "" -> p <> "" ->
  findOne_row (fun r => String.eqb (col_email r) (toLowerCase e)) (db w)
    = Some row ->
  bcrypt_compare p (col_password row) = true ->
  col_isActive row = true ->
  login env w req =
    (with_db (update_where_id
                (set_lastLogin (val (now env)) (load_withPassword row)) (db w))
       w,
     createSendToken env
       (clean (set_lastLogin (val (now env)) (load_withPassword row))) OK).
Proof.
  intros Hb He Hp Hne Hnp Hrow Hcmp Hact.
  unfold login. rewrite Hb, He, Hp, truthy_val, truthy_json_val by assumption.
  cbn [negb orb]. unfold findOne_withPassword. rewrite Hrow.
  cbn [load_withPassword password isActive correctPassword].
  rewrite Hcmp, Hact. cbn [negb].
  rewrite save_plain; [reflexivity | | |].
  - unfold validate_instance. cbn. destruct (col_lastLogin row) as [t |]; cbn;
      [destruct (now env =? t) |]; reflexivity.
  - unfold changed. cbn.
    destruct (col_lastLogin row) as [t |]; cbn;
      [destruct (now env =? t) |]; reflexivity.
  - unfold changed. cbn.
    destruct (col_lastLogin row) as [t |]; cbn;
      [destruct (now env =? t) |]; reflexivity.
Qed.

Lemma logged_in_row (env : Env) (row : UserRow) :
  update_row (set_lastLogin (val (now env)) (load_withPassword row)) row =
  mkRow (col_id row) (col_firstName row) (col_lastName row) (col_email row)
    (col_password row) (col_role row) (col_isActive row) (Some (now env))
    (col_passwordChangedAt row) (col_passwordResetToken row)
    (col_passwordResetExpires row) (col_deletedAt row).
Proof.
  unfold update_row, changed. cbn.
  destruct (col_lastLogin row) as [t |]; cbn.
  - destruct (Z.eqb_spec (now env) t) as [-> | Hn]; reflexivity.
  - reflexivity.
Qed.

(** X6.  A login with the right password on an active account answers
    200 with a token for the account, writes the time of the login to
    [lastLogin] and nothing else.  The account in the answer has its
    password stripped; read in the scope [withPassword], it still
    carries the reset digest and expiry the row holds. *)
Theorem login_success (env : Env) (w : World) (req : Request) (b : Body)
    (e p : string) (row : UserRow) :
  body req = val b -> b_email b = val e -> b_password b = val (jstring p) ->
  e <> "" -> p <> "" ->
  findOne_row (fun r => String.eqb (col_email r) (toLowerCase e)) (db w)
    = Some row ->
  bcrypt_compare p (col_password row) = true ->
  col_isActive row = true ->
  (exists u,
     snd (login env w req) = json OK (body_token (signToken env (col_id row)) u)
     /\ password u = undefined
     /\ lastLogin u = val (now env)
     /\ passwordResetToken u = of_column (col_passwordResetToken row)
     /\ passwordResetExpires u = of_column (col_passwordResetExpires row))
  /\ findOne_row (fun r => String.eqb (col_email r) (toLowerCase e))
       (db (fst (login env w req)))
     = Some (mkRow (col_id row) (col_firstName row) (col_lastName row)
               (col_email row) (col_password row) (col_role row)
               (col_isActive row) (Some (now env))
               (col_passwordChangedAt row) (col_passwordResetToken row)
               (col_passwordResetExpires row) (col_deletedAt row)).
Proof.
  intros Hb He Hp Hne Hnp Hrow Hcmp Hact.
  rewrite (login_found env w req b e p row) by assumption.
  cbn [fst snd with_db db]. split.
  - eexists. split; [reflexivity |]. repeat split.
  - rewrite findOne_row_update_by_email, Hrow.
    + cbn [option_map].
      replace (id (set_lastLogin (val (now env)) (load_withPassword row)))
        with (col_id row) by reflexivity.
      now rewrite String.eqb_refl, logged_in_row.
    + unfold changed. cbn.
      destruct (col_lastLogin row) as [t |]; cbn;
      [destruct (now env =? t) |]; reflexivity.
Qed.

(** X7.  [login] looks the account up by the lowercased email: two
    requests whose emails differ only in case and whose passwords are the
    same get the same answer and leave the same world. *)
Theorem login_email_case_insensitive (env : Env) (w : World)
    (req1 req2 : Request) (b1 b2 : Body) (e1 e2 : string) :
  body req1 = val b1 -> body req2 = val b2 ->
  b_email b1 = val e1 -> b_email b2 = val e2 ->
  e1 <> "" -> e2 <> "" ->
  toLowerCase e1 = toLowerCase e2 ->
  b_password b1 = b_password b2 ->
  login env w req1 = login env w req2.
Proof.
  intros Hb1 Hb2 He1 He2 Hn1 Hn2 Hlow Hpw.
  unfold login.
  rewrite Hb1, Hb2, He1, He2, Hpw, Hlow, !truthy_val by assumption.
  reflexivity.
Qed.

(** *** Registering *)

(** The run of [register] on a valid request with an unused email. *)
Lemma register_created (env : Env) (w : World) (req : Request) (b : Body)
    (e fn ln p : string) :
  validation_errors req = [] -> body req = val b -> b_email b = val e ->
  findOne_row (fun r => String.eqb (col_email r) e) (db w) = None ->
  email_taken (toLowerCase e) (db w) = false ->
  b_firstName b = val fn -> b_lastName b = val ln ->
  b_password b = val (jstring p) ->
  blank fn = false -> len_between 2 50 fn = true ->
  blank ln = false -> len_between 2 50 ln = true ->
  isEmail (toLowerCase e) = true -> blank e = false ->
  blank p = false -> len_between 8 128 p = true ->
  includes ["user"; "admin"] (role_or_user (b_role b)) = true ->
  register env w req =
    (with_db (db w ++ [mkRow (uuidv4 env) fn ln (toLowerCase e)
                         (bcrypt_hash (salt env) p) (role_or_user (b_role b))
                         true None None None None None]) w,
     createSendToken env
       (mkUser (uuidv4 env) fn ln (toLowerCase e)
          (val (jstring (bcrypt_hash (salt env) p))) (role_or_user (b_role b))
          true undefined undefined undefined undefined undefined [])
       CREATED).
Proof.
  intros Hv Hb He Hnone Hfree Hfn Hln Hp Bfn Vfn Bln Vln Vem Be Bp Vp Vrole.
  unfold register. rewrite Hv, Hb, He. cbn [where_email].
  unfold findOne. rewrite Hnone, Hfn, Hln, Hp.
  now rewrite (create_valid env (db w) fn ln (toLowerCase e) p
                 (role_or_user (b_role b)))
    by (try assumption;
        first [now rewrite blank_toLowerCase | apply toLowerCase_idempotent]).
Qed.

Lemma findOne_row_snoc (cond : UserRow -> bool) (table : list UserRow)
    (r : UserRow) :
  findOne_row cond table = None ->
  findOne_row cond (table ++ [r]) =
  if visible r && cond r then Some r else None.
Proof.
  unfold findOne_row. induction table as [| r0 table IH]; cbn.
  - intros _. now destruct (visible r && cond r).
  - destruct (visible r0 && cond r0); [discriminate | exact IH].
Qed.

Lemma findOne_row_appended (x : string) (table : list UserRow) (r : UserRow) :
  email_taken x table = false ->
  findOne_row (fun r0 => String.eqb (col_email r0) x) (table ++ [r]) =
  if visible r && String.eqb (col_email r) x then Some r else None.
Proof.
  unfold findOne_row, email_taken.
  induction table as [| r0 table IH]; cbn.
  - intros _. now destruct (visible r && String.eqb (col_email r) x).
  - intros H. apply orb_false_iff in H. destruct H as [H0 H].
    rewrite H0, andb_false_r. now apply IH.
Qed.

Lemma email_taken_appended (x : string) (table : list UserRow) (r : UserRow) :
  col_email r = x -> email_taken x (table ++ [r]) = true.
Proof.
  intros H. unfold email_taken. rewrite existsb_app. cbn.
  rewrite H, String.eqb_refl. apply orb_true_r.
Qed.

(** X9.  An account that [register] has created can log in: with a
    bcrypt that accepts the password it hashed, a login with the same
    password and the email in any case answers 200 with a token for the
    new id. *)
Theorem register_then_login (env env' : Env) (w : World) (req reqL : Request)
    (b bL : Body) (e e' fn ln p : string) :
  validation_errors req = [] -> body req = val b -> b_email b = val e ->
  findOne_row (fun r => String.eqb (col_email r) e) (db w) = None ->
  email_taken (toLowerCase e) (db w) = false ->
  b_firstName b = val fn -> b_lastName b = val ln ->
  b_password b = val (jstring p) ->
  blank fn = false -> len_between 2 50 fn = true ->
  blank ln = false -> len_between 2 50 ln = true ->
  isEmail (toLowerCase e) = true -> blank e = false ->
  blank p = false -> len_between 8 128 p = true ->
  includes ["user"; "admin"] (role_or_user (b_role b)) = true ->
  bcrypt_compare p (bcrypt_hash (salt env) p) = true ->
  body reqL = val bL -> b_email bL = val e' ->
  b_password bL = val (jstring p) ->
  e' <> "" -> toLowerCase e' = toLowerCase e ->
  exists u,
    snd (login env' (fst (register env w req)) reqL) =
      json OK (body_token (signToken env' (uuidv4 env)) u)
    /\ email u = toLowerCase e
    /\ password u = undefined.
Proof.
  intros Hv Hb He Hnone Hfree Hfn Hln Hp Bfn Vfn Bln Vln Vem Be Bp Vp Vrole
    Hcmp HbL HeL HpL HneL Hlow.
  rewrite (register_created env w req b e fn ln p) by assumption.
  cbn [fst].
  pose proof (blank_nonempty p Bp) as Hnp.
  rewrite (login_found env' _ reqL bL e' p
             (mkRow (uuidv4 env) fn ln (toLowerCase e)
                (bcrypt_hash (salt env) p) (role_or_user (b_role b))
                true None None None None None)); try assumption; try reflexivity.
  - cbn [snd]. eexists. split; [reflexivity |]. split; reflexivity.
  - cbn [db with_db]. rewrite Hlow, findOne_row_appended by assumption.
    cbn. now rewrite String.eqb_refl.
Qed.

(** X10.  Registering the same email again is refused and changes
    nothing.  When the email is already in lowercase the duplicate check
    finds the account and the answer is the 409 error; when it is not,
    the check compares the email as typed, misses the lowercased row, and
    the INSERT fails on the unique index instead. *)
Theorem register_twice (env env' : Env) (w : World) (req : Request) (b : Body)
    (e fn ln p : string) :
  validation_errors req = [] -> body req = val b -> b_email b = val e ->
  findOne_row (fun r => String.eqb (col_email r) e) (db w) = None ->
  email_taken (toLowerCase e) (db w) = false ->
  b_firstName b = val fn -> b_lastName b = val ln ->
  b_password b = val (jstring p) ->
  blank fn = false -> len_between 2 50 fn = true ->
  blank ln = false -> len_between 2 50 ln = true ->
  isEmail (toLowerCase e) = true -> blank e = false ->
  blank p = false -> len_between 8 128 p = true ->
  includes ["user"; "admin"] (role_or_user (b_role b)) = true ->
  let w1 := fst (register env w req) in
  (toLowerCase e = e ->
   register env' w1 req =
     (w1, next_err (App (mkAppError "Email already in use" CONFLICT))))
  /\ (toLowerCase e <> e ->
      register env' w1 req =
        (w1, next_err (Thrown (SequelizeUniqueConstraintError
                                 "Email already in use")))).
Proof.
  intros Hv Hb He Hnone Hfree Hfn Hln Hp Bfn Vfn Bln Vln Vem Be Bp Vp Vrole.
  cbv zeta.
  rewrite (register_created env w req b e fn ln p) by assumption.
  cbn [fst].
  pose proof (blank_nonempty p Bp) as Ep. apply String.eqb_neq in Ep.
  split.
  - intros Hlow. unfold register. rewrite Hv, Hb, He. cbn [where_email].
    unfold findOne. cbn [db with_db].
    rewrite Hlow in Hfree. rewrite Hlow.
    rewrite findOne_row_appended by assumption.
    cbn. now rewrite String.eqb_refl.
  - intros Hlow. unfold register. rewrite Hv, Hb, He. cbn [where_email].
    unfold findOne. cbn [db with_db].
    assert (Hmiss : findOne_row (fun r => String.eqb (col_email r) e)
              (db w ++ [mkRow (uuidv4 env) fn ln (toLowerCase e)
                          (bcrypt_hash (salt env) p)
                          (role_or_user (b_role b)) true
                          None None None None None]) = None).
    { rewrite findOne_row_snoc by assumption. cbn.
      apply String.eqb_neq in Hlow. now rewrite Hlow. }
    rewrite Hmiss, Hfn, Hln, Hp.
    unfold create, build, validate_instance. cbn. unfold notEmpty.
    rewrite Bfn, Bln, Bp, Vfn, Vln, Vp, Vem, blank_toLowerCase, Be,
      toLowerCase_idempotent, String.eqb_refl. cbn.
    unfold beforeCreate. cbn. rewrite Ep. cbn.
    cbn in Vrole. rewrite Vrole. cbn.
    now rewrite email_taken_appended.
Qed.

(** X12.  The admin's [createUser] is [register] without the token: on
    every request the two leave the same world and answer with the same
    status, and [createUser] never answers with a token. *)
Theorem createUser_is_register_without_token (env : Env) (w : World)
    (req : Request) :
  fst (createUser env w req) = fst (register env w req)
  /\ http_status (snd (createUser env w req))
     = http_status (snd (register env w req))
  /\ (forall st t u, snd (createUser env w req) <> json st (body_token t u)).
Proof.
  unfold createUser, register, createSendToken.
  repeat match goal with
         | |- context [match ?x with _ => _ end] => destruct x eqn:?
         end;
    cbn; repeat split; try congruence; intros; discriminate.
Qed.


(** *** Asking for a reset *)

(** The run of [forgotPassword] when the account exists and the mail is
    accepted. *)
Lemma forgotPassword_delivered (env : Env) (w : World) (req : Request)
    (b : Body) (e : string) (row : UserRow) :
  body req = val b ->
  b_email b = val e ->
  findOne_row (fun r => String.eqb (col_email r) e) (db w) = Some row ->
  smtp_ok env = true ->
  let u1 := snd (createPasswordResetToken env (load_default row)) in
  forgotPassword env w req =
    (add_log (log_email_sent (col_email row))
       (add_mail (reset_mail req (col_email row) (randomBytes32_hex env))
          (with_db (update_where_id u1 (db w)) w)),
     json OK (body_message "success" "Token sent to email!")).
Proof.
  intros Hb He Hrow Hsmtp u1.
  unfold forgotPassword. rewrite Hb, He. cbn [where_email].
  unfold findOne. rewrite Hrow.
  unfold createPasswordResetToken, save, sendEmail. cbn. rewrite Hsmtp.
  reflexivity.
Qed.

Lemma reset_row (env : Env) (row : UserRow) :
  update_row (snd (createPasswordResetToken env (load_default row))) row =
  mkRow (col_id row) (col_firstName row) (col_lastName row) (col_email row)
    (col_password row) (col_role row) (col_isActive row) (col_lastLogin row)
    (col_passwordChangedAt row)
    (Some (sha256_hex (randomBytes32_hex env)))
    (Some (now env + 10 * 60 * 1000)) (col_deletedAt row).
Proof. reflexivity. Qed.

Lemma forgotPassword_delivered_row (env : Env) (w : World) (req : Request)
    (b : Body) (e : string) (row : UserRow) :
  body req = val b ->
  b_email b = val e ->
  findOne_row (fun r => String.eqb (col_email r) e) (db w) = Some row ->
  smtp_ok env = true ->
  findOne_row (fun r => String.eqb (col_email r) e)
    (db (fst (forgotPassword env w req)))
  = Some (mkRow (col_id row) (col_firstName row) (col_lastName row)
            (col_email row) (col_password row) (col_role row)
            (col_isActive row) (col_lastLogin row)
            (col_passwordChangedAt row)
            (Some (sha256_hex (randomBytes32_hex env)))
            (Some (now env + 10 * 60 * 1000)) (col_deletedAt row)).
Proof.
  intros Hb He Hrow Hsmtp.
  rewrite (forgotPassword_delivered env w req b e row) by assumption.
  cbn [fst add_log add_mail with_db db].
  rewrite findOne_row_update_by_email, Hrow by reflexivity.
  cbn [option_map].
  replace (id (snd (createPasswordResetToken env (load_default row))))
    with (col_id row) by reflexivity.
  now rewrite String.eqb_refl, reset_row.
Qed.

(** X13.  [forgotPassword] answers 404 for an email no live account has
    and changes nothing.  For an account it finds, when the mail is
    accepted it answers 200, sends exactly one mail, to the stored
    address, with the secret in the link, and stores the SHA-256 digest
    of the secret and an expiry ten minutes ahead; every other column of
    the row stays. *)
Theorem forgotPassword_mails_secret_stores_digest (env : Env) (w : World)
    (req : Request) (b : Body) (e : string) :
  body req = val b ->
  b_email b = val e ->
  (findOne_row (fun r => String.eqb (col_email r) e) (db w) = None ->
   forgotPassword env w req =
     (w, next_err (App (mkAppError
        "There is no user with that email address." NOT_FOUND))))
  /\ (forall row,
        findOne_row (fun r => String.eqb (col_email r) e) (db w) = Some row ->
        smtp_ok env = true ->
        snd (forgotPassword env w req) =
          json OK (body_message "success" "Token sent to email!")
        /\ outbox (fst (forgotPassword env w req)) =
             (outbox w
              ++ [reset_mail req (col_email row) (randomBytes32_hex env)])%list
        /\ findOne_row (fun r => String.eqb (col_email r) e)
             (db (fst (forgotPassword env w req)))
           = Some (mkRow (col_id row) (col_firstName row) (col_lastName row)
                     (col_email row) (col_password row) (col_role row)
                     (col_isActive row) (col_lastLogin row)
                     (col_passwordChangedAt row)
                     (Some (sha256_hex (randomBytes32_hex env)))
                     (Some (now env + 10 * 60 * 1000)) (col_deletedAt row))).
Proof.
  intros Hb He. split.
  - intros Hnone. unfold forgotPassword. rewrite Hb, He. cbn [where_email].
    unfold findOne. now rewrite Hnone.
  - intros row Hrow Hsmtp.
    rewrite (forgotPassword_delivered env w req b e row) by assumption.
    cbn [fst snd add_log add_mail with_db db outbox].
    split; [reflexivity |]. split; [reflexivity |].
    pose proof (forgotPassword_delivered_row env w req b e row Hb He Hrow
                  Hsmtp) as Hfind.
    now rewrite (forgotPassword_delivered env w req b e row) in Hfind
      by assumption.
Qed.

(** X14.  The digest and the expiry [forgotPassword] stores satisfy the
    lookup condition of [resetPassword] for the mailed secret exactly
    while the clock is before the time of the request plus 600000 ms; at
    that instant and later no secret satisfies it, and a secret with
    another digest never does. *)
Theorem reset_secret_window (env : Env) (w : World) (req : Request)
    (b : Body) (e : string) (row row' : UserRow) (t : Z) :
  body req = val b ->
  b_email b = val e ->
  findOne_row (fun r => String.eqb (col_email r) e) (db w) = Some row ->
  smtp_ok env = true ->
  findOne_row (fun r => String.eqb (col_email r) e)
    (db (fst (forgotPassword env w req))) = Some row' ->
  reset_condition (sha256_hex (randomBytes32_hex env)) t row'
    = (t <? now env + 600000)
  /\ (now env + 600000 <= t ->
      forall secret, reset_condition (sha256_hex secret) t row' = false)
  /\ (forall secret,
        sha256_hex secret <> sha256_hex (randomBytes32_hex env) ->
        reset_condition (sha256_hex secret) t row' = false).
Proof.
  intros Hb He Hrow Hsmtp Hrow'.
  rewrite (forgotPassword_delivered_row env w req b e row) in Hrow'
    by assumption.
  injection Hrow' as <-.
  unfold reset_condition. cbn. split; [| split].
  - now rewrite String.eqb_refl.
  - intros Hlate secret. apply andb_false_iff. right. apply Z.ltb_ge. lia.
  - intros secret Hneq. apply andb_false_iff. left.
    apply String.eqb_neq. congruence.
Qed.


(** *** What the profile and admin updates leave alone *)

Lemma update_where_id_columns (u : User) (table : list UserRow) :
  changed a_password u = false ->
  map col_id (update_where_id u table) = map col_id table
  /\ map col_password (update_where_id u table) = map col_password table
  /\ map col_role (update_where_id u table) = map col_role table
  /\ map col_deletedAt (update_where_id u table) = map col_deletedAt table
  /\ (changed a_isActive u = false ->
      map col_isActive (update_where_id u table) = map col_isActive table).
Proof.
  intros Hp. unfold update_where_id. rewrite !map_map.
  repeat split; try intros Ha; apply map_ext; intros r;
    destruct (String.eqb (col_id r) (id u)); try reflexivity.
  - cbn. now rewrite Hp.
  - cbn. now rewrite Ha.
Qed.

(** Assigning the whitelisted keys marks none of the other attributes. *)
Lemma assign_whitelist (b : Body) (u : User) :
  let u1 :=
    as_user
      (assign set_email a_email "email" (b_email b)
         (assign set_lastName a_lastName "lastName" (b_lastName b)
            (assign set_firstName a_firstName "firstName" (b_firstName b)
               (mkAssigned [] [] u)))) in
  changed a_password u1 = changed a_password u
  /\ changed a_isActive u1 = changed a_isActive u
  /\ password u1 = password u.
Proof.
  unfold assign, changed.
  destruct (b_email b), (b_lastName b), (b_firstName b); cbn;
    unfold mark;
    repeat match goal with
           | |- context [if ?c then _ else _] => destruct c
           end;
    cbn; repeat split.
Qed.

(** X18.  [updateMe] refuses a body that carries [password] or
    [passwordConfirm] with a 400, and whatever the body holds it never
    writes a password hash, a role or an active flag: those columns, and
    the ids and deletion marks, are the same in every row afterwards. *)
Theorem updateMe_touches_profile_only (env : Env) (w : World) (req : Request) :
  (forall b, body req = val b ->
     truthy_json (b_password b) || truthy_json (b_passwordConfirm b) = true ->
     updateMe env w req =
       (w, next_err (App (mkAppError
          "This route is not for password updates. Please use /update-password."
          BAD_REQUEST))))
  /\ map col_id (db (fst (updateMe env w req))) = map col_id (db w)
  /\ map col_password (db (fst (updateMe env w req))) = map col_password (db w)
  /\ map col_role (db (fst (updateMe env w req))) = map col_role (db w)
  /\ map col_isActive (db (fst (updateMe env w req))) = map col_isActive (db w)
  /\ map col_deletedAt (db (fst (updateMe env w req)))
     = map col_deletedAt (db w).
Proof.
  split.
  - intros b Hb Ht. unfold updateMe. now rewrite Hb, Ht.
  - unfold updateMe.
    destruct (body req) as [| | b]; try (cbn; tauto).
    destruct (truthy_json (b_password b) || truthy_json (b_passwordConfirm b));
      [cbn; tauto |].
    destruct (user req) as [| | me]; try (cbn; tauto).
    unfold findByPk, findOne.
    destruct (findOne_row _ (db w)) as [row |]; [| cbn; tauto].
    pose proof (assign_whitelist b (load_default row)) as Hw.
    set (given := assign set_email a_email "email" (b_email b) _) in *.
    cbv zeta in Hw. destruct Hw as [Hp [Ha _]].
    unfold save_fields.
    destruct (as_nulls given ++ validate_instance (as_user given)
                                  (as_fields given))%list;
      [| cbn; tauto].
    unfold beforeUpdate. rewrite Hp.
    cbn [changed load_default changed_attrs existsb].
    destruct (among (as_fields given) a_email && _); [cbn; tauto |].
    cbn [fst snd with_db db].
    destruct (update_where_id_columns (as_user given) (db w) Hp)
      as [H1 [H2 [H3 [H4 H5]]]].
    repeat split; try assumption. now apply H5.
Qed.

(** [updateUser] finds no row to write when no live row has the id. *)
Lemma no_hit (w : World) (pk : string) :
  findOne_row (fun r => String.eqb (col_id r) pk) (db w) = None ->
  existsb (fun r => visible r && String.eqb (col_id r) pk) (db w) = false.
Proof.
  unfold findOne_row.
  induction (db w) as [| r table IH]; [reflexivity |].
  cbn. destruct (visible r && String.eqb (col_id r) pk);
    [discriminate | exact IH].
Qed.

Lemma hit_found (w : World) (pk : string) (row : UserRow) :
  findOne_row (fun r => String.eqb (col_id r) pk) (db w) = Some row ->
  existsb (fun r => visible r && String.eqb (col_id r) pk) (db w) = true.
Proof.
  intros H. apply findOne_row_some in H. destruct H as [Hin [Hv Hc]].
  apply existsb_exists. exists row. split; [exact Hin |]. now rewrite Hv, Hc.
Qed.

(** X19.  The admin's [updateUser] answers 404 and changes nothing when
    no live row has the id and the values pass the model's validation;
    and whatever the request, no password hash, id or deletion mark is
    ever changed. *)
Theorem updateUser_never_writes_password (w : World) (req : Request) :
  (forall b, body req = val b ->
     patch_items b = [] ->
     findOne_row (fun r => String.eqb (col_id r) (params_id req)) (db w)
       = None ->
     updateUser w req =
       (w, next_err (App (mkAppError "No user found with that ID" NOT_FOUND))))
  /\ map col_id (db (fst (updateUser w req))) = map col_id (db w)
  /\ map col_password (db (fst (updateUser w req))) = map col_password (db w)
  /\ map col_deletedAt (db (fst (updateUser w req)))
     = map col_deletedAt (db w).
Proof.
  split.
  - intros b Hb Hvalid Hnone. unfold updateUser.
    now rewrite Hb, Hvalid, no_hit.
  - unfold updateUser.
    destruct (body req) as [| | b]; try (cbn; tauto).
    destruct (patch_items b); [| cbn; tauto].
    destruct (existsb _ (db w)); [| cbn; tauto].
    destruct (role_refused (b_role b)); [cbn; tauto |].
    destruct (email_refused _ _ _); [cbn; tauto |].
    cbn [fst with_db db]. rewrite !map_map.
    repeat split; apply map_ext; intros r;
      now destruct (visible r && String.eqb (col_id r) (params_id req)).
Qed.

(** X24.  [updateUser] never answers with a success: when a live row has
    the id and the database accepts the values, the row is rewritten
    with the whitelisted keys of the body, and the answer is the 404 "No
    user found with that ID" all the same. *)
Theorem updateUser_writes_then_answers_404 (w : World) (req : Request) :
  (forall st rb, snd (updateUser w req) <> json st rb)
  /\ (forall b row,
        body req = val b ->
        patch_items b = [] ->
        findOne_row (fun r => String.eqb (col_id r) (params_id req)) (db w)
          = Some row ->
        role_refused (b_role b) = false ->
        email_refused (params_id req) (b_email b) (db w) = false ->
        snd (updateUser w req) =
          next_err (App (mkAppError "No user found with that ID" NOT_FOUND))
        /\ findOne_row (fun r => String.eqb (col_id r) (params_id req))
             (db (fst (updateUser w req))) = Some (patch_row b row)).
Proof.
  split.
  - intros st rb. unfold updateUser.
    repeat match goal with
           | |- context [match ?x with _ => _ end] => destruct x
           end; discriminate.
  - intros b row Hb Hvalid Hrow Hrole Hemail. unfold updateUser.
    rewrite Hb, Hvalid, (hit_found w _ row Hrow), Hrole, Hemail.
    cbn [fst snd with_db db]. split; [reflexivity |].
    rewrite findOne_row_map, Hrow.
    + cbn [option_map].
      apply findOne_row_some in Hrow. destruct Hrow as [_ [Hv Hc]].
      now rewrite Hv, Hc.
    + intros r. now destruct (visible r && String.eqb (col_id r) _).
    + intros r. now destruct (visible r && String.eqb (col_id r) _).
Qed.


(** *** The routers *)

(** Every rejection of [protect] is a 401. *)
Lemma protect_rejects_with_401 (env : Env) (table : list UserRow)
    (req : Request) (locals : Locals) :
  snd (protect env table req locals) = next
  \/ exists msg, protect env table req locals =
                   (req, locals, next_err (App (mkAppError msg UNAUTHORIZED))).
Proof.
  unfold protect.
  repeat match goal with
         | |- context [match ?x with _ => _ end] => destruct x
         end;
    cbn; (now left) || (right; eexists; reflexivity).
Qed.



(** X22.  On the four public routes, a request whose body parses and in
    which the validation chain finds an error is answered 422
    "Validation failed" and leaves the table as it was: the controller
    does not run. *)
Theorem invalid_public_request_is_422 (sc : Scope) (env : Env) (w : World)
    (i : Incoming) (req : Request) (rules : Validation) (b : js Body)
    (err : FieldError) (errs : list FieldError) :
  public_validation (in_route i) = Some rules ->
  express_json (receive i) = inr req ->
  run_validations rules req = (b, err :: errs) ->
  snd (app sc env w i) = json 422 (body_error 422 "Validation failed")
  /\ db (fst (app sc env w i)) = db w.
Proof.
  intros Hroute Hparse Hval.
  assert (Hreq : validation_errors req = []).
  { unfold express_json in Hparse.
    destruct (payload (receive i)); [| discriminate].
    now injection Hparse as <-. }
  assert (Hstep : validate rules req =
            (with_validation (err :: errs) (with_body b req),
             next_err (App (mkAppError "Validation failed"
                              UNPROCESSABLE_ENTITY)))).
  { unfold validate. rewrite Hval. cbn [validation_errors with_validation
      with_body]. now rewrite Hreq. }
  unfold app. rewrite Hparse.
  destruct (in_route i); try discriminate; injection Hroute as <-;
    cbn [router]; rewrite Hstep; cbn; split; reflexivity.
Qed.



(** *** No password hash in a response *)

Lemma findByPk_clean (pk : string) (table : list UserRow) (u : User) :
  findByPk pk table = val u ->
  password u = undefined /\ changed a_password u = false.
Proof.
  unfold findByPk, findOne.
  destruct (findOne_row _ table); [| discriminate].
  now intros [= <-].
Qed.

Lemma findByPk_paranoid_false_clean (pk : string) (table : list UserRow)
    (u : User) :
  findByPk_paranoid_false pk table = val u ->
  password u = undefined /\ changed a_password u = false.
Proof.
  unfold findByPk_paranoid_false.
  destruct (find _ table); [| discriminate].
  now intros [= <-].
Qed.

Lemma save_fields_keeps_password (env : Env) (nulls : list string)
    (fields : list Attr) (u u' : User) (table table' : list UserRow) :
  changed a_password u = false ->
  save_fields env nulls fields u table = (inr u', table') ->
  password u' = password u.
Proof.
  intros Hc. unfold save_fields, beforeUpdate. rewrite Hc.
  destruct (nulls ++ validate_instance u fields)%list; [| discriminate].
  destruct (among fields a_email && _); [discriminate |].
  now intros [= <- _].
Qed.

Lemma save_keeps_password (env : Env) (u u' : User)
    (table table' : list UserRow) :
  changed a_password u = false ->
  save env u table = (inr u', table') ->
  password u' = password u.
Proof. unfold save. apply save_fields_keeps_password. Qed.

Lemma scrubbed_nothing (o : Outcome) :
  response_users o = [] -> scrubbed o.
Proof. unfold scrubbed. intros ->. constructor. Qed.

Lemma scrubbed_createSendToken (env : Env) (u : User) (st : Z) :
  scrubbed (createSendToken env u st).
Proof. repeat constructor. Qed.

Lemma scrubbed_found (st : Z) (pk : string) (table : list UserRow) :
  scrubbed (json st (body_user (findByPk pk table))).
Proof.
  unfold scrubbed. cbn.
  destruct (findByPk pk table) as [| | u] eqn:E; try constructor.
  - now apply findByPk_clean in E.
  - constructor.
Qed.

(** Splitting a handler along its branches and closing the leaves that
    answer with a token, with an error or with no account. *)
Ltac scrub :=
  repeat match goal with
         | |- scrubbed (snd (match ?x with _ => _ end)) => destruct x eqn:?
         | |- scrubbed (snd (let '(_, _) := ?x in _)) => destruct x eqn:?
         end;
  cbn [snd];
  try first [ apply scrubbed_createSendToken
            | apply scrubbed_found
            | apply scrubbed_nothing; reflexivity ].

Lemma register_scrubbed (env : Env) (w : World) (req : Request) :
  scrubbed (snd (register env w req)).
Proof. unfold register. scrub. Qed.

Lemma login_scrubbed (env : Env) (w : World) (req : Request) :
  scrubbed (snd (login env w req)).
Proof. unfold login. scrub. Qed.

Lemma forgotPassword_scrubbed (env : Env) (w : World) (req : Request) :
  scrubbed (snd (forgotPassword env w req)).
Proof. unfold forgotPassword, sendEmail. scrub. Qed.

Lemma resetPassword_scrubbed (sc : Scope) (env : Env) (w : World)
    (req : Request) :
  scrubbed (snd (resetPassword sc env w req)).
Proof. unfold resetPassword. scrub. Qed.

Lemma updatePassword_scrubbed (env : Env) (w : World) (req : Request) :
  scrubbed (snd (updatePassword env w req)).
Proof. unfold updatePassword. scrub. Qed.

Lemma getMe_scrubbed (w : World) (req : Request) :
  scrubbed (snd (getMe w req)).
Proof. unfold getMe. scrub. Qed.

Lemma updateMe_scrubbed (env : Env) (w : World) (req : Request) :
  scrubbed (snd (updateMe env w req)).
Proof.
  unfold updateMe.
  destruct (body req) as [| | b]; try (apply scrubbed_nothing; reflexivity).
  destruct (truthy_json (b_password b) || truthy_json (b_passwordConfirm b));
    [apply scrubbed_nothing; reflexivity |].
  destruct (user req) as [| | me]; try (apply scrubbed_nothing; reflexivity).
  destruct (findByPk (id me) (db w)) as [| | u] eqn:Eu;
    try (apply scrubbed_nothing; reflexivity).
  apply findByPk_clean in Eu. destruct Eu as [Hpw Hch].
  pose proof (assign_whitelist b u) as Hw.
  set (given := assign set_email a_email "email" (b_email b) _) in *.
  cbv zeta in Hw. destruct Hw as [Hp [_ Hq]].
  destruct (save_fields env (as_nulls given) (as_fields given)
              (as_user given) (db w)) as [[x | u2] table] eqn:Es;
    [apply scrubbed_nothing; reflexivity |].
  apply save_fields_keeps_password in Es; [| congruence].
  unfold scrubbed. cbn. constructor; [congruence | constructor].
Qed.

Lemma getAllUsers_scrubbed (w : World) : scrubbed (snd (getAllUsers w)).
Proof.
  unfold getAllUsers, scrubbed. cbn. apply Forall_forall.
  intros u Hu. apply in_map_iff in Hu. now destruct Hu as [r [<- _]].
Qed.

Lemma getUser_scrubbed (w : World) (req : Request) :
  scrubbed (snd (getUser w req)).
Proof.
  unfold getUser.
  destruct (findByPk (params_id req) (db w)) as [| | u] eqn:Eu;
    try (apply scrubbed_nothing; reflexivity).
  apply findByPk_clean in Eu. unfold scrubbed. cbn.
  constructor; [tauto | constructor].
Qed.

Lemma createUser_scrubbed (env : Env) (w : World) (req : Request) :
  scrubbed (snd (createUser env w req)).
Proof.
  unfold createUser. scrub; unfold scrubbed; cbn; repeat constructor.
Qed.

Lemma updateUser_scrubbed (w : World) (req : Request) :
  scrubbed (snd (updateUser w req)).
Proof. unfold updateUser. scrub. Qed.

Lemma deleteUser_scrubbed (env : Env) (w : World) (req : Request) :
  scrubbed (snd (deleteUser env w req)).
Proof. unfold deleteUser. scrub. Qed.

Lemma set_isActive_clean (v : bool) (u : User) :
  changed a_password (set_isActive v u) = changed a_password u
  /\ password (set_isActive v u) = password u.
Proof.
  unfold changed. cbn. unfold mark.
  now destruct (Bool.eqb v (isActive u)).
Qed.

Lemma deactivateUser_scrubbed (env : Env) (w : World) (req : Request) :
  scrubbed (snd (deactivateUser env w req)).
Proof.
  unfold deactivateUser.
  destruct (findByPk (params_id req) (db w)) as [| | u] eqn:Eu;
    try (apply scrubbed_nothing; reflexivity).
  apply findByPk_clean in Eu. destruct Eu as [Hpw Hch].
  destruct (set_isActive_clean false u) as [Hc Hp].
  destruct (save env (set_isActive false u) (db w)) as [[x | u'] table] eqn:Es;
    [apply scrubbed_nothing; reflexivity |].
  apply save_keeps_password in Es; [| congruence].
  unfold scrubbed. cbn. constructor; [congruence | constructor].
Qed.

Lemma reactivateUser_scrubbed (env : Env) (w : World) (req : Request) :
  scrubbed (snd (reactivateUser env w req)).
Proof.
  unfold reactivateUser.
  destruct (findByPk_paranoid_false (params_id req) (db w)) as [| | u] eqn:Eu;
    try (apply scrubbed_nothing; reflexivity).
  apply findByPk_paranoid_false_clean in Eu. destruct Eu as [Hpw Hch].
  assert (H0 : password (fst (if truthy_obj (deletedAt u)
                              then (restored u,
                                    set_deletedAt (id u) None (db w))
                              else (u, db w))) = undefined
               /\ changed a_password
                    (fst (if truthy_obj (deletedAt u)
                          then (restored u, set_deletedAt (id u) None (db w))
                          else (u, db w))) = false).
  { destruct (truthy_obj (deletedAt u)); cbn [fst]; [| tauto].
    split; [exact Hpw | reflexivity]. }
  destruct (if truthy_obj (deletedAt u)
            then (restored u, set_deletedAt (id u) None (db w))
            else (u, db w)) as [u0 table0].
  cbn [fst] in H0. destruct H0 as [Hpw0 Hch0].
  destruct (set_isActive_clean true u0) as [Hc Hp].
  destruct (save env (set_isActive true u0) _) as [[x | u'] table] eqn:Es;
    [apply scrubbed_nothing; reflexivity |].
  apply save_keeps_password in Es; [| congruence].
  unfold scrubbed. cbn. constructor; [congruence | constructor].
Qed.

Lemma guarded_scrubbed (w : World) (step : Request * Outcome)
    (k : Request -> World * Outcome) :
  response_users (snd step) = [] ->
  (forall req', scrubbed (snd (k req'))) ->
  scrubbed (snd (guarded w step k)).
Proof.
  intros Hs Hk. destruct step as [req' out]. cbn in Hs.
  destruct out; cbn; try (now apply scrubbed_nothing); apply Hk.
Qed.

Lemma validate_no_users (rules : Validation) (req : Request) :
  response_users (snd (validate rules req)) = [].
Proof.
  unfold validate. destruct (run_validations rules req) as [b errs].
  now destruct (validation_errors _).
Qed.

Lemma protect_step_no_users (env : Env) (w : World) (req : Request) :
  response_users (snd (protect_step env w req)) = [].
Proof.
  unfold protect_step.
  destruct (protect_rejects_with_401 env (db w) req (mkLocals undefined))
    as [H | [msg H]].
  - destruct (protect env (db w) req (mkLocals undefined)) as [[r l] o].
    cbn in *. now subst o.
  - now rewrite H.
Qed.

Lemma restrictTo_no_users (roles : list string) (req : Request) :
  response_users (restrictTo roles req) = [].
Proof.
  unfold restrictTo. destruct (user req) as [| | u]; try reflexivity.
  now destruct (negb (includes roles (role u))).
Qed.

Lemma admin_only_scrubbed (env : Env) (w : World) (req : Request)
    (k : Request -> World * Outcome) :
  (forall req', scrubbed (snd (k req'))) ->
  scrubbed (snd (admin_only env w req k)).
Proof.
  intros Hk. unfold admin_only.
  apply guarded_scrubbed; [apply protect_step_no_users |]. intros req1.
  apply guarded_scrubbed; [apply restrictTo_no_users | exact Hk].
Qed.

Lemma router_scrubbed (sc : Scope) (env : Env) (w : World) (r : Route)
    (req : Request) :
  scrubbed (snd (router sc env w r req)).
Proof.
  destruct r; cbn [router];
    repeat first
      [ apply admin_only_scrubbed; intros ?
      | apply guarded_scrubbed;
        [ first [apply validate_no_users | apply protect_step_no_users]
        | intros ? ] ];
    first
      [ apply register_scrubbed | apply login_scrubbed
      | apply forgotPassword_scrubbed | apply resetPassword_scrubbed
      | apply getMe_scrubbed | apply updateMe_scrubbed
      | apply updatePassword_scrubbed | apply getAllUsers_scrubbed
      | apply createUser_scrubbed | apply getUser_scrubbed
      | apply updateUser_scrubbed | apply deleteUser_scrubbed
      | apply deactivateUser_scrubbed | apply reactivateUser_scrubbed
      | apply scrubbed_nothing; reflexivity ].
Qed.

(** X23.  Whatever the request and the route, no account in the body of
    the response carries a password: the hash is either never read
    (default scope) or set to [undefined] before the answer is built. *)
Theorem no_response_carries_a_password (sc : Scope) (env : Env) (w : World)
    (i : Incoming) :
  Forall (fun u => password u = undefined)
    (response_users (snd (app sc env w i))).
Proof.
  unfold app.
  destruct (express_json (receive i)) as [e | req]; [constructor |].
  pose proof (router_scrubbed sc env (request_logger w (receive i))
                (in_route i) req) as H.
  destruct (router sc env (request_logger w (receive i)) (in_route i) req)
    as [w2 out].
  destruct out; cbn in *; try constructor. exact H.
Qed.


(** *** Composition of login and the gate; bounds of the model *)

(** X8.  The token a successful login answers with authenticates the
    same account: when jsonwebtoken verifies the token it signed and the
    last password change is not later than the login, [protect] lets a
    request carrying the token through and attaches the account, with the
    login time just recorded. *)
Theorem login_token_authenticates (env env' : Env) (w : World)
    (req reqT : Request) (locals : Locals) (b : Body) (e p : string)
    (row : UserRow) :
  body req = val b -> b_email b = val e -> b_password b = val (jstring p) ->
  e <> "" -> p <> "" ->
  findOne_row (fun r => String.eqb (col_email r) (toLowerCase e)) (db w)
    = Some row ->
  bcrypt_compare p (col_password row) = true ->
  col_isActive row = true ->
  findOne_row (fun r => String.eqb (col_id r) (col_id row)) (db w)
    = Some row ->
  (forall t, col_passwordChangedAt row = Some t -> 0 <= t <= now env) ->
  now env <= sign_now env ->
  protect_token reqT = val (signToken env (col_id row)) ->
  signToken env (col_id row) <> "" ->
  jwt_verify (now env') (signToken env (col_id row))
    = Some (mkDecoded (col_id row) (sign_now env / 1000)) ->
  exists u,
    protect env' (db (fst (login env w req))) reqT locals =
      (with_user (val u) reqT, mkLocals (val u), next)
    /\ id u = col_id row
    /\ lastLogin u = val (now env).
Proof.
  intros Hb He Hp Hne Hnp Hrow Hcmp Hact Hpk Hpast Hclock Htok Hnt Hver.
  rewrite (login_found env w req b e p row) by assumption.
  cbn [fst with_db db].
  set (u1 := set_lastLogin (val (now env)) (load_withPassword row)).
  assert (Hfind : findOne_row
                    (fun r => String.eqb (col_id r)
                       (d_id (mkDecoded (col_id row) (sign_now env / 1000))))
                    (update_where_id u1 (db w)) = Some (update_row u1 row)).
  { cbn [d_id]. rewrite findOne_row_update_by_id, Hpk. cbn [option_map].
    replace (id u1) with (col_id row) by reflexivity.
    now rewrite String.eqb_refl. }
  rewrite (protect_loaded env' _ reqT locals _ _ (update_row u1 row)
             Htok Hnt Hver Hfind).
  unfold u1. rewrite logged_in_row. cbn [d_iat].
  assert (Hfresh : changedPasswordAfter
            (load_default
               (mkRow (col_id row) (col_firstName row) (col_lastName row)
                  (col_email row) (col_password row) (col_role row)
                  (col_isActive row) (Some (now env))
                  (col_passwordChangedAt row) (col_passwordResetToken row)
                  (col_passwordResetExpires row) (col_deletedAt row)))
            (sign_now env / 1000) = false).
  { destruct (col_passwordChangedAt row) as [t |] eqn:Ec.
    - destruct (Hpast t eq_refl) as [H0 Hle].
      rewrite (changedPasswordAfter_spec _ t) by (try reflexivity; lia).
      apply Z.ltb_ge. apply Z.div_le_mono; lia.
    - apply changedPasswordAfter_never. left. reflexivity. }
  rewrite Hfresh. eexists. split; [reflexivity |]. split; reflexivity.
Qed.

(** X11.  The route's password rule has no upper bound but the model's
    has: a registration whose password is outside 8 to 128 characters
    reaches [User.create], fails the model's validator, creates nothing
    and, the exception carrying no status, is answered 500. *)
Theorem register_rejects_long_password (env : Env) (w : World) (req : Request)
    (b : Body) (e fn ln p : string) :
  validation_errors req = [] -> body req = val b -> b_email b = val e ->
  findOne_row (fun r => String.eqb (col_email r) e) (db w) = None ->
  b_firstName b = val fn -> b_lastName b = val ln ->
  b_password b = val (jstring p) ->
  blank fn = false -> len_between 2 50 fn = true ->
  blank ln = false -> len_between 2 50 ln = true ->
  isEmail (toLowerCase e) = true -> blank e = false ->
  blank p = false ->
  len_between 8 128 p = false ->
  register env w req =
    (w, next_err (Thrown (SequelizeValidationError
       "Validation error: Password must be between 8 and 128 characters")))
  /\ http_status (snd (register env w req)) = 500.
Proof.
  intros Hv Hb He Hnone Hfn Hln Hp Bfn Vfn Bln Vln Vem Be Bp Vp.
  assert (H : register env w req =
    (w, next_err (Thrown (SequelizeValidationError
       "Validation error: Password must be between 8 and 128 characters")))).
  { unfold register. rewrite Hv, Hb, He. cbn [where_email].
    unfold findOne. rewrite Hnone, Hfn, Hln, Hp.
    unfold create, build, validate_instance. cbn. unfold notEmpty.
    rewrite Bfn, Bln, Bp, Vfn, Vln, Vp, Vem, blank_toLowerCase, Be,
      toLowerCase_idempotent, String.eqb_refl. reflexivity. }
  now rewrite H.
Qed.

End MoreProperties.

(* ------------------------------------------------------------------ *)
(** ** The further properties on the sample data                       *)
(* ------------------------------------------------------------------ *)

(** X1 on the sample data: a bare [Bearer] header with a good cookie
    beside it is refused. *)
Lemma bearer_header_shadows_cookie_witness :
  protect (lib := Sample.libraries) Sample.env Sample.table
    (Sample.request (val "Bearer") (val Sample.fresh_token) Sample.no_body)
    Sample.no_locals =
    (Sample.request (val "Bearer") (val Sample.fresh_token) Sample.no_body,
     Sample.no_locals,
     next_err (App (mkAppError
       "You are not logged in! Please log in to get access." UNAUTHORIZED))).
Proof.
  apply (proj2 (bearer_header_shadows_cookie (lib := Sample.libraries)
                  Sample.env Sample.table
                  (Sample.request (val "Bearer") (val Sample.fresh_token)
                     Sample.no_body)
                  Sample.no_locals "Bearer" eq_refl eq_refl)).
  left. reflexivity.
Defined.

(** X2 on the sample data: alice's fresh token is let through, so it
    verifies and names a live row of the table. *)
Lemma protect_grants_only_verified_witness :
  exists token decoded row,
    protect_token (Sample.bearer Sample.fresh_token) = val token
    /\ jwt_verify (Libraries := Sample.libraries) (now Sample.env) token
       = Some decoded
    /\ In row Sample.table /\ col_id row = d_id decoded
    /\ col_deletedAt row = None.
Proof.
  destruct (protect_grants_only_verified (lib := Sample.libraries)
              Sample.env Sample.table (Sample.bearer Sample.fresh_token)
              (with_user (val Sample.alice_user)
                 (Sample.bearer Sample.fresh_token))
              Sample.no_locals (mkLocals (val Sample.alice_user)) eq_refl)
    as (token & decoded & row & H1 & H2 & H3 & H4 & H5 & _).
  exists token, decoded, row. repeat split; assumption.
Defined.

(** X3 on the sample data: alice's token still passes once she has been
    deactivated. *)
Lemma deactivated_account_keeps_session_witness :
  exists u,
    protect (lib := Sample.libraries) Sample.env
      (db (fst (deactivateUser (lib := Sample.libraries) Sample.env Sample.world
                  (Scenario.about "id-alice" Sample.no_body))))
      (Sample.bearer Sample.fresh_token) Sample.no_locals =
      (with_user (val u) (Sample.bearer Sample.fresh_token),
       mkLocals (val u), next)
    /\ id u = col_id Sample.alice
    /\ isActive u = false.
Proof.
  apply (deactivated_account_keeps_session (lib := Sample.libraries)
           Sample.env Sample.env Sample.world
           (Scenario.about "id-alice" Sample.no_body)
           (Sample.bearer Sample.fresh_token) Sample.no_locals
           Sample.fresh_token (mkDecoded "id-alice" 1500) Sample.alice
           eq_refl eq_refl ltac:(discriminate) eq_refl eq_refl eq_refl).
Defined.

(** X4 on the sample data: a wrong current password is refused; the
    right one stores the hash of the new password and the time. *)
Lemma updatePassword_checks_then_rehashes_witness :
  updatePassword (lib := Sample.libraries) Sample.env Sample.world
    (Scenario.as_alice (Scenario.change_password "Wrong123!" "New12345!")) =
    (Sample.world,
     next_err (App (mkAppError "Your current password is wrong."
                      UNAUTHORIZED)))
  /\ exists row',
       findOne_row (fun r => String.eqb (col_id r) "id-alice")
         (db (fst (updatePassword (lib := Sample.libraries) Sample.env
                     Sample.world
                     (Scenario.as_alice
                        (Scenario.change_password "Abc12345!" "New12345!")))))
         = Some row'
       /\ col_password row' = Sample.hash "c2FsdA" "New12345!"
       /\ col_passwordChangedAt row' = Some 2000000.
Proof.
  split.
  - apply (proj1 (updatePassword_checks_then_rehashes
                    (lib := Sample.libraries) Sample.env Sample.world
                    (Scenario.as_alice
                       (Scenario.change_password "Wrong123!" "New12345!"))
                    Sample.alice_user
                    (Scenario.change_password "Wrong123!" "New12345!")
                    Sample.alice eq_refl eq_refl eq_refl)
             "Wrong123!" eq_refl eq_refl).
  - destruct (proj2 (proj2 (proj2 (proj2
                (updatePassword_checks_then_rehashes
                   (lib := Sample.libraries) Sample.env Sample.world
                   (Scenario.as_alice
                      (Scenario.change_password "Abc12345!" "New12345!"))
                   Sample.alice_user
                   (Scenario.change_password "Abc12345!" "New12345!")
                   Sample.alice eq_refl eq_refl eq_refl))
                "Abc12345!" "New12345!" eq_refl eq_refl eq_refl eq_refl
                eq_refl))
              ltac:(discriminate))
      as (row' & H3 & H4 & H5 & _).
    exists row'. repeat split; assumption.
Defined.

(** X5 on the sample data: after alice's password change at 2000000 ms
    her token of the second 1500 is refused. *)
Lemma updatePassword_invalidates_older_tokens_witness :
  protect (lib := Sample.libraries) Sample.env
    (db (fst (updatePassword (lib := Sample.libraries) Sample.env
                Sample.world
                (Scenario.as_alice
                   (Scenario.change_password "Abc12345!" "New12345!")))))
    (Sample.bearer Sample.fresh_token) Sample.no_locals =
    (Sample.bearer Sample.fresh_token, Sample.no_locals,
     next_err (App (mkAppError
       "User recently changed password! Please log in again." UNAUTHORIZED))).
Proof.
  apply (proj1 (proj1 (updatePassword_invalidates_older_tokens
                         (lib := Sample.libraries) Sample.env Sample.env
                         Sample.world
                         (Scenario.as_alice
                            (Scenario.change_password "Abc12345!"
                               "New12345!"))
                         Sample.no_locals Sample.alice_user
                         (Scenario.change_password "Abc12345!" "New12345!")
                         "Abc12345!" "New12345!" Sample.alice
                         eq_refl eq_refl eq_refl eq_refl eq_refl eq_refl
                         eq_refl eq_refl ltac:(discriminate)
                         ltac:(vm_compute; discriminate))
                  (Sample.bearer Sample.fresh_token) Sample.fresh_token
                  (mkDecoded "id-alice" 1500)
                  eq_refl ltac:(discriminate) eq_refl eq_refl)).
  vm_compute. reflexivity.
Defined.

(** X6 on the sample data: alice logs in. *)
Lemma login_success_witness :
  exists u,
    snd (login (lib := Sample.libraries) Sample.env Sample.world
           (Scenario.alice_logs_in "alice@x.com")) =
      json OK (body_token
                 (signToken (lib := Sample.libraries) Sample.env
                    (col_id Sample.alice)) u)
    /\ password u = undefined
    /\ lastLogin u = val (now Sample.env).
Proof.
  destruct (proj1 (login_success (lib := Sample.libraries) Sample.env
                     Sample.world (Scenario.alice_logs_in "alice@x.com")
                     (Sample.credentials "alice@x.com" "Abc12345!")
                     "alice@x.com" "Abc12345!" Sample.alice
                     eq_refl eq_refl eq_refl ltac:(discriminate)
                     ltac:(discriminate) eq_refl eq_refl eq_refl))
    as (u & H1 & H2 & H3 & _).
  exists u. repeat split; assumption.
Defined.

(** X7 on the sample data: the case of the email makes no difference. *)
Lemma login_email_case_insensitive_witness :
  login (lib := Sample.libraries) Sample.env Sample.world
    (Scenario.alice_logs_in "Alice@X.com") =
  login (lib := Sample.libraries) Sample.env Sample.world
    (Scenario.alice_logs_in "alice@x.com").
Proof.
  apply (login_email_case_insensitive (lib := Sample.libraries) Sample.env
           Sample.world (Scenario.alice_logs_in "Alice@X.com")
           (Scenario.alice_logs_in "alice@x.com")
           (Sample.credentials "Alice@X.com" "Abc12345!")
           (Sample.credentials "alice@x.com" "Abc12345!")
           "Alice@X.com" "alice@x.com"
           eq_refl eq_refl eq_refl eq_refl ltac:(discriminate)
           ltac:(discriminate) eq_refl eq_refl).
Defined.

(** X8 on the sample data: the token alice's login answers with passes
    [protect]. *)
Lemma login_token_authenticates_witness :
  exists u,
    protect (lib := Sample.libraries) Sample.env
      (db (fst (login (lib := Sample.libraries) Sample.env Sample.world
                  (Scenario.alice_logs_in "alice@x.com"))))
      (Sample.bearer (signToken (lib := Sample.libraries) Sample.env
                        (col_id Sample.alice)))
      Sample.no_locals =
      (with_user (val u)
         (Sample.bearer (signToken (lib := Sample.libraries) Sample.env
                           (col_id Sample.alice))),
       mkLocals (val u), next)
    /\ id u = col_id Sample.alice
    /\ lastLogin u = val (now Sample.env).
Proof.
  apply (login_token_authenticates (lib := Sample.libraries) Sample.env
           Sample.env Sample.world (Scenario.alice_logs_in "alice@x.com")
           (Sample.bearer (signToken (lib := Sample.libraries) Sample.env
                             (col_id Sample.alice)))
           Sample.no_locals (Sample.credentials "alice@x.com" "Abc12345!")
           "alice@x.com" "Abc12345!" Sample.alice
           eq_refl eq_refl eq_refl ltac:(discriminate) ltac:(discriminate)
           eq_refl eq_refl eq_refl eq_refl).
  - intros t H. vm_compute in H. injection H as <-. vm_compute.
    split; discriminate.
  - vm_compute. discriminate.
  - reflexivity.
  - vm_compute. discriminate.
  - reflexivity.
Defined.

(** X9 on the sample data: carol registers as Carol@x.com and logs in
    as carol@x.com. *)
Lemma register_then_login_witness :
  exists u,
    snd (login (lib := Sample.libraries) Sample.env
           (fst (register (lib := Sample.libraries) Sample.env Sample.world
                   (Scenario.carol_registers "Carol@x.com")))
           Scenario.carol_logs_in) =
      json OK (body_token
                 (signToken (lib := Sample.libraries) Sample.env
                    (uuidv4 Sample.env)) u)
    /\ email u = toLowerCase "Carol@x.com"
    /\ password u = undefined.
Proof.
  apply (register_then_login (lib := Sample.libraries) Sample.env Sample.env
           Sample.world (Scenario.carol_registers "Carol@x.com")
           Scenario.carol_logs_in
           (Sample.registration "Carol@x.com" "Pass1234!" undefined)
           (Sample.credentials "carol@x.com" "Pass1234!")
           "Carol@x.com" "carol@x.com" "Carol" "Cooper" "Pass1234!");
    try reflexivity; discriminate.
Defined.

(** X10 on the sample data: a second registration of carol@x.com is a
    409; of Carol@x.com, the database's unique-constraint error. *)
Lemma register_twice_witness :
  register (lib := Sample.libraries) Sample.env
    (fst (register (lib := Sample.libraries) Sample.env Sample.world
            (Scenario.carol_registers "carol@x.com")))
    (Scenario.carol_registers "carol@x.com") =
    (fst (register (lib := Sample.libraries) Sample.env Sample.world
            (Scenario.carol_registers "carol@x.com")),
     next_err (App (mkAppError "Email already in use" CONFLICT)))
  /\ register (lib := Sample.libraries) Sample.env
       (fst (register (lib := Sample.libraries) Sample.env Sample.world
               (Scenario.carol_registers "Carol@x.com")))
       (Scenario.carol_registers "Carol@x.com") =
     (fst (register (lib := Sample.libraries) Sample.env Sample.world
             (Scenario.carol_registers "Carol@x.com")),
      next_err (Thrown (SequelizeUniqueConstraintError
                          "Email already in use"))).
Proof.
  split.
  - apply (proj1 (register_twice (lib := Sample.libraries) Sample.env
                    Sample.env Sample.world
                    (Scenario.carol_registers "carol@x.com")
                    (Sample.registration "carol@x.com" "Pass1234!" undefined)
                    "carol@x.com" "Carol" "Cooper" "Pass1234!"
                    eq_refl eq_refl eq_refl eq_refl eq_refl eq_refl eq_refl
                    eq_refl eq_refl eq_refl eq_refl eq_refl eq_refl eq_refl
                    eq_refl eq_refl eq_refl)).
    reflexivity.
  - apply (proj2 (register_twice (lib := Sample.libraries) Sample.env
                    Sample.env Sample.world
                    (Scenario.carol_registers "Carol@x.com")
                    (Sample.registration "Carol@x.com" "Pass1234!" undefined)
                    "Carol@x.com" "Carol" "Cooper" "Pass1234!"
                    eq_refl eq_refl eq_refl eq_refl eq_refl eq_refl eq_refl
                    eq_refl eq_refl eq_refl eq_refl eq_refl eq_refl eq_refl
                    eq_refl eq_refl eq_refl)).
    vm_compute. discriminate.
Defined.

(** X11 on the sample data: a password of 135 characters. *)
Lemma register_rejects_long_password_witness :
  http_status
    (snd (register (lib := Sample.libraries) Sample.env Sample.world
            (Sample.request undefined undefined
               (Sample.registration "carol@x.com" Scenario.long_password
                  undefined)))) = 500.
Proof.
  apply (proj2 (register_rejects_long_password (lib := Sample.libraries)
                  Sample.env Sample.world
                  (Sample.request undefined undefined
                     (Sample.registration "carol@x.com" Scenario.long_password
                        undefined))
                  (Sample.registration "carol@x.com" Scenario.long_password
                     undefined)
                  "carol@x.com" "Carol" "Cooper" Scenario.long_password
                  eq_refl eq_refl eq_refl eq_refl eq_refl eq_refl eq_refl
                  eq_refl eq_refl eq_refl eq_refl eq_refl eq_refl eq_refl
                  eq_refl)).
Defined.

(** X13 on the sample data: alice asks for a reset. *)
Lemma forgotPassword_mails_secret_stores_digest_witness :
  snd (forgotPassword (lib := Sample.libraries) Sample.env Sample.world
         (Scenario.alice_logs_in "alice@x.com")) =
    json OK (body_message "success" "Token sent to email!")
  /\ outbox (fst (forgotPassword (lib := Sample.libraries) Sample.env
                    Sample.world (Scenario.alice_logs_in "alice@x.com"))) =
     [reset_mail (Scenario.alice_logs_in "alice@x.com") "alice@x.com" "5eed"]
  /\ findOne_row (fun r => String.eqb (col_email r) "alice@x.com")
       (db (fst (forgotPassword (lib := Sample.libraries) Sample.env
                   Sample.world (Scenario.alice_logs_in "alice@x.com"))))
     = Some Scenario.alice_awaiting_reset.
Proof.
  exact (proj2 (forgotPassword_mails_secret_stores_digest
                  (lib := Sample.libraries) Sample.env Sample.world
                  (Scenario.alice_logs_in "alice@x.com")
                  (Sample.credentials "alice@x.com" "Abc12345!")
                  "alice@x.com" eq_refl eq_refl)
           Sample.alice eq_refl eq_refl).
Defined.

(** X14 on the sample data: the mailed secret is no longer good at
    2600000 ms, ten minutes after the request. *)
Lemma reset_secret_window_witness :
  reset_condition (Sample.sha "5eed") 2600000 Scenario.alice_awaiting_reset
  = (2600000 <? now Sample.env + 600000).
Proof.
  apply (proj1 (reset_secret_window (lib := Sample.libraries) Sample.env
                  Sample.world (Scenario.alice_logs_in "alice@x.com")
                  (Sample.credentials "alice@x.com" "Abc12345!")
                  "alice@x.com" Sample.alice Scenario.alice_awaiting_reset
                  2600000 eq_refl eq_refl eq_refl eq_refl eq_refl)).
Defined.

(** X15 on the sample data: alice is deactivated, then logs in. *)
Lemma deactivate_then_login_forbidden_witness :
  login (lib := Sample.libraries) Sample.env
    (fst (deactivateUser (lib := Sample.libraries) Sample.env Sample.world
            (Scenario.about "id-alice" Sample.no_body)))
    (Scenario.alice_logs_in "alice@x.com") =
    (fst (deactivateUser (lib := Sample.libraries) Sample.env Sample.world
            (Scenario.about "id-alice" Sample.no_body)),
     next_err (App (mkAppError "Your account has been deactivated" FORBIDDEN))).
Proof.
  apply (deactivate_then_login_forbidden (lib := Sample.libraries)
           Sample.env Sample.env Sample.world
           (Scenario.about "id-alice" Sample.no_body)
           (Scenario.alice_logs_in "alice@x.com")
           (Sample.credentials "alice@x.com" "Abc12345!")
           "alice@x.com" "Abc12345!" Sample.alice
           eq_refl eq_refl eq_refl eq_refl ltac:(discriminate)
           ltac:(discriminate) eq_refl eq_refl).
Defined.

(** X16 on the sample data: alice is deleted. *)
Lemma deleteUser_hides_account_witness :
  snd (deleteUser Sample.env Sample.world
         (Scenario.about "id-alice" Sample.no_body)) =
    json NO_CONTENT body_null
  /\ getUser (fst (deleteUser Sample.env Sample.world
                     (Scenario.about "id-alice" Sample.no_body)))
       (Scenario.about "id-alice" Sample.no_body) =
     (fst (deleteUser Sample.env Sample.world
             (Scenario.about "id-alice" Sample.no_body)),
      next_err (App (mkAppError "No user found with that ID" NOT_FOUND))).
Proof.
  destruct (deleteUser_hides_account (lib := Sample.libraries) Sample.env
              Sample.env Sample.world
              (Scenario.about "id-alice" Sample.no_body) Sample.alice
              eq_refl)
    as (H1 & _ & _ & _ & H5 & _).
  split; assumption.
Defined.

(** X17 on the sample data: alice is deleted, then reactivated. *)
Lemma delete_then_reactivate_restores_witness :
  findOne_row (fun r => String.eqb (col_id r) "id-alice")
    (db (fst (reactivateUser (lib := Sample.libraries) Sample.env
                (fst (deleteUser Sample.env Sample.world
                        (Scenario.about "id-alice" Sample.no_body)))
                (Scenario.about "id-alice" Sample.no_body))))
  = Some Sample.alice.
Proof.
  apply (proj2 (proj2 (delete_then_reactivate_restores (lib := Sample.libraries) Sample.env Sample.env
                         Sample.world
                         (Scenario.about "id-alice" Sample.no_body)
                         Sample.alice eq_refl eq_refl))).
Defined.

(** X18 on the sample data: alice sends a password to [updateMe]. *)
Lemma updateMe_touches_profile_only_witness :
  updateMe (lib := Sample.libraries) Sample.env Sample.world
    (Scenario.as_alice (Sample.credentials "alice@x.com" "New12345!")) =
    (Sample.world,
     next_err (App (mkAppError
       "This route is not for password updates. Please use /update-password."
       BAD_REQUEST))).
Proof.
  apply (proj1 (updateMe_touches_profile_only (lib := Sample.libraries) Sample.env Sample.world
                  (Scenario.as_alice
                     (Sample.credentials "alice@x.com" "New12345!")))
           (Sample.credentials "alice@x.com" "New12345!") eq_refl eq_refl).
Defined.

(** X19 on the sample data: an update of an id no account has. *)
Lemma updateUser_never_writes_password_witness :
  updateUser (lib := Sample.libraries) Sample.world
    (Scenario.about "id-nobody" Sample.no_body) =
    (Sample.world,
     next_err (App (mkAppError "No user found with that ID" NOT_FOUND))).
Proof.
  apply (proj1 (updateUser_never_writes_password (lib := Sample.libraries)
                  Sample.world (Scenario.about "id-nobody" Sample.no_body))
           Sample.no_body eq_refl eq_refl eq_refl).
Defined.

(** X24 on the sample data: alice's first name is rewritten and the
    answer is the 404. *)
Lemma updateUser_writes_then_answers_404_witness :
  snd (updateUser (lib := Sample.libraries) Sample.world
         (Scenario.about "id-alice" (Scenario.new_first_name "Alicia"))) =
    next_err (App (mkAppError "No user found with that ID" NOT_FOUND))
  /\ option_map col_firstName
       (findOne_row (fun r => String.eqb (col_id r) "id-alice")
          (db (fst (updateUser (lib := Sample.libraries) Sample.world
                      (Scenario.about "id-alice"
                         (Scenario.new_first_name "Alicia"))))))
     = Some "Alicia".
Proof.
  destruct (proj2 (updateUser_writes_then_answers_404
                     (lib := Sample.libraries) Sample.world
                     (Scenario.about "id-alice"
                        (Scenario.new_first_name "Alicia")))
              (Scenario.new_first_name "Alicia") Sample.alice
              eq_refl eq_refl eq_refl eq_refl eq_refl) as [H1 H2].
  split; [exact H1 |].
  change (params_id (Scenario.about "id-alice"
                       (Scenario.new_first_name "Alicia")))
    with "id-alice" in H2.
  now rewrite H2.
Defined.



(** X22 on the sample data: a login without an email, under a validator
    that reports it. *)
Lemma invalid_public_request_is_422_witness :
  snd (app (lib := Scenario.strict) (auth_controller_scope false)
         Sample.env Sample.world
         (Scenario.arrival POST_login undefined Sample.no_body)) =
    json 422 (body_error 422 "Validation failed").
Proof.
  apply (proj1 (invalid_public_request_is_422 (lib := Scenario.strict)
                  (auth_controller_scope false) Sample.env Sample.world
                  (Scenario.arrival POST_login undefined Sample.no_body)
                  (with_body (val Sample.no_body)
                     (receive
                        (Scenario.arrival POST_login undefined
                           Sample.no_body)))
                  v_login (val Sample.no_body)
                  (mkFieldError "email" "Email is required") []
                  eq_refl eq_refl eq_refl)).
Defined.

